(** * de_wiktio: the entry extraction pipeline of [de_wiktio/entry.py]

    A shallow embedding of the classes [_EntryBase], [Entry], [EntryFlexion],
    [WordForm] and [Tools] of [src/de_wiktio/entry.py], of the two
    collaborators of [src/de_wiktio/fetch.py] they call, of [Settings]
    ([src/de_wiktio/settings.py]), which one of them asks for the folder of
    the dictionaries, and of the parts of Python's [str], of Python's [re]
    and of mwparserfromhell's node tree that the code relies on.

    Conventions.
    - A Python [str] is a [string] whose characters are code points; the
      development covers the code points below 256 (Latin-1), which is where
      [ascii] lives.  The letter U-umlaut is therefore one character, 220.
    - A raw Python literal such as [r'\n\n'] is written as the same
      characters here: a string literal of this file has no escapes, so a
      backslash is a backslash.
    - [hasattr]-style memo fields are [option]s: [None] is "attribute not
      set".
    - Methods run in the monad [M S A]: state [S] (the object, the world or a
      pair), a log of events, and a Python exception or a value. *)

From stdpp Require Import base decidable option list strings gmap pretty.
From Stdlib Require Import Ascii Lia.

#[local] Set Warnings "-register-all,-clear-no-such-hyp".

(** ** Python [str] *)

Module PyStr.

Definition ord (c : ascii) : nat := nat_of_ascii c.
Definition chr (n : nat) : ascii := ascii_of_nat n.

(** The line feed, and the one-character strings the code builds on. *)
Definition LF : ascii := chr 10.
Definition nl : string := String LF EmptyString.
(** the double quote *)
Definition dq : string := String (chr 34) EmptyString.

(** [c.isspace()] for one code point below 256: TAB..CR, FS..US, SPACE,
    NEL (133) and NBSP (160). *)
Definition isspace (c : ascii) : bool :=
  let n := ord c in
  ((9 <=? n) && (n <=? 13)) || ((28 <=? n) && (n <=? 32))
  || (n =? 133) || (n =? 160).

Fixpoint lstrip (s : string) : string :=
  match s with
  | EmptyString => EmptyString
  | String c s' => if isspace c then lstrip s' else s
  end.

Fixpoint rstrip (s : string) : string :=
  match s with
  | EmptyString => EmptyString
  | String c s' =>
      match rstrip s' with
      | EmptyString => if isspace c then EmptyString else String c EmptyString
      | r => String c r
      end
  end.

(** [s.strip()] *)
Definition strip (s : string) : string := lstrip (rstrip s).

(** Numeric code points below 256: the digits, the superscripts 2, 3, 1
    and the vulgar fractions. *)
Definition isnumeric_char (c : ascii) : bool :=
  let n := ord c in
  ((48 <=? n) && (n <=? 57)) || (n =? 178) || (n =? 179) || (n =? 185)
  || ((188 <=? n) && (n <=? 190)).

Fixpoint all_chars (p : ascii -> bool) (s : string) : bool :=
  match s with
  | EmptyString => true
  | String c s' => p c && all_chars p s'
  end.

(** [s.isnumeric()]: at least one character, all of them numeric. *)
Definition isnumeric (s : string) : bool :=
  match s with
  | EmptyString => false
  | _ => all_chars isnumeric_char s
  end.

(** [s.startswith(p)] *)
Fixpoint startswith (p s : string) : bool :=
  match p, s with
  | EmptyString, _ => true
  | String a p', String b s' => if Ascii.eqb a b then startswith p' s' else false
  | String _ _, EmptyString => false
  end.

(** [sub in s] *)
Fixpoint contains (sub s : string) : bool :=
  startswith sub s
  || match s with
     | EmptyString => false
     | String _ s' => contains sub s'
     end.

(** [s == t] and [s != t] *)
Definition eq (s t : string) : bool := bool_decide (s = t).
Definition ne (s t : string) : bool := negb (eq s t).

(** The same where the left side is a [str] or [None]: [None] is equal to
    no [str]. *)
Definition eq_value (x : option string) (t : string) : bool := bool_decide (x = Some t).
Definition ne_value (x : option string) (t : string) : bool := negb (eq_value x t).

(** Case folding of one code point below 256, as [re.IGNORECASE] compares
    characters: A..Z and the accented capitals 192..222 (the multiplication
    sign 215 apart) are 32 below their small letters. *)
Definition lower_char (c : ascii) : ascii :=
  let n := ord c in
  if ((65 <=? n) && (n <=? 90))
     || ((192 <=? n) && (n <=? 222) && negb (n =? 215))
  then chr (n + 32) else c.

(** [s[:len(s) - len(rest)]]: what was read of [s] when [rest] is left. *)
Fixpoint take (n : nat) (s : string) : string :=
  match n, s with
  | S n', String c s' => String c (take n' s')
  | _, _ => EmptyString
  end.

Definition consumed (s rest : string) : string :=
  take (String.length s - String.length rest) s.

(** [sep.join(...)] with the empty separator *)
Definition concat (l : list string) : string := foldr String.append EmptyString l.

(** [c * n] *)
Fixpoint repeat (c : ascii) (n : nat) : string :=
  match n with
  | O => EmptyString
  | S n' => String c (repeat c n')
  end.

End PyStr.

(** ** The fragment of Python's [re] that [entry.py] uses

    Patterns are strings, as in the source.  [compile] reads the fragment
    literal characters, [.], backslash escapes of punctuation and of [n],
    [t], [r], groups, alternation, and [+] / [+?] after a one-character atom;
    on anything else (classes, anchors, other quantifiers, [(?...)]) it
    answers [None], and so does it on a pattern Python rejects. *)

Module Re.

Record flags := { IGNORECASE : bool; DOTALL : bool }.

(** [re.IGNORECASE | re.DOTALL | re.UNICODE], mwparserfromhell's default for
    [matches=]; [re.DOTALL]; and no flag. *)
Definition FLAGS : flags := {| IGNORECASE := true; DOTALL := true |}.
Definition F_DOTALL : flags := {| IGNORECASE := false; DOTALL := true |}.
Definition F_NONE : flags := {| IGNORECASE := false; DOTALL := false |}.

Inductive cset :=
| Lit (c : ascii)
| Dot.

Inductive regex :=
| Eps
| Atom (a : cset)
| Plus (greedy : bool) (a : cset)
| Seq (r1 r2 : regex)
| Alt (r1 r2 : regex)
| Group (n : nat) (r : regex).

(** *** Reading a pattern *)

Definition seq_of (l : list regex) : regex := foldr Seq Eps l.

Fixpoint alt_of (l : list regex) : regex :=
  match l with
  | [] => Eps
  | [r] => r
  | r :: l' => Alt r (alt_of l')
  end.

(** One open group (or the whole pattern): the alternatives already closed
    and the pieces of the current one, both latest first. *)
Record frame := { f_alts : list regex; f_cur : list regex; f_group : nat }.

Inductive mode := Normal | Escaped | AfterPlus.

Record pstate := {
  st_top : frame;           (* the innermost open frame *)
  st_outer : list frame;    (* the frames around it *)
  st_next : nat;            (* the number of the next group *)
  st_mode : mode }.

Definition st0 : pstate :=
  {| st_top := {| f_alts := []; f_cur := []; f_group := 0 |};
     st_outer := []; st_next := 1; st_mode := Normal |}.

Definition close_frame (f : frame) : regex :=
  alt_of (rev (seq_of (rev (f_cur f)) :: f_alts f)).

Definition push (r : regex) (st : pstate) : pstate :=
  {| st_top := {| f_alts := f_alts (st_top st); f_cur := r :: f_cur (st_top st);
                  f_group := f_group (st_top st) |};
     st_outer := st_outer st; st_next := st_next st; st_mode := Normal |}.

(** The characters with a meaning of their own in a pattern. *)
Definition is_meta (c : ascii) : bool :=
  bool_decide (c ∈ [ "."; "^"; "$"; "*"; "+"; "?"; "{"; "}"; "["; "]";
                     "\"; "|"; "("; ")" ]%char).

Definition is_alnum (c : ascii) : bool :=
  let n := PyStr.ord c in
  ((48 <=? n) && (n <=? 57)) || ((65 <=? n) && (n <=? 90))
  || ((97 <=? n) && (n <=? 122)) || (128 <=? n).

(** What a backslash followed by [c] stands for. *)
Definition escape (c : ascii) : option cset :=
  if Ascii.eqb c "n" then Some (Lit PyStr.LF)
  else if Ascii.eqb c "t" then Some (Lit (PyStr.chr 9))
  else if Ascii.eqb c "r" then Some (Lit (PyStr.chr 13))
  else if is_alnum c then None
  else Some (Lit c).

Definition step (st : pstate) (c : ascii) : option pstate :=
  match st_mode st with
  | Escaped => a ← escape c; Some (push (Atom a) st)
  | m =>
      if Ascii.eqb c "\" then
        Some {| st_top := st_top st; st_outer := st_outer st;
                st_next := st_next st; st_mode := Escaped |}
      else if Ascii.eqb c "." then Some (push (Atom Dot) st)
      else if Ascii.eqb c "(" then
        Some {| st_top := {| f_alts := []; f_cur := []; f_group := st_next st |};
                st_outer := st_top st :: st_outer st;
                st_next := S (st_next st); st_mode := Normal |}
      else if Ascii.eqb c ")" then
        match st_outer st with
        | [] => None
        | f :: outer =>
            Some {| st_top := {| f_alts := f_alts f;
                                 f_cur := Group (f_group (st_top st)) (close_frame (st_top st))
                                          :: f_cur f;
                                 f_group := f_group f |};
                    st_outer := outer; st_next := st_next st; st_mode := Normal |}
        end
      else if Ascii.eqb c "|" then
        Some {| st_top := {| f_alts := seq_of (rev (f_cur (st_top st))) :: f_alts (st_top st);
                             f_cur := []; f_group := f_group (st_top st) |};
                st_outer := st_outer st; st_next := st_next st; st_mode := Normal |}
      else if Ascii.eqb c "+" then
        match f_cur (st_top st) with
        | Atom a :: cur =>
            Some {| st_top := {| f_alts := f_alts (st_top st);
                                 f_cur := Plus true a :: cur;
                                 f_group := f_group (st_top st) |};
                    st_outer := st_outer st; st_next := st_next st;
                    st_mode := AfterPlus |}
        | _ => None
        end
      else if Ascii.eqb c "?" then
        match m, f_cur (st_top st) with
        | AfterPlus, Plus true a :: cur =>
            Some {| st_top := {| f_alts := f_alts (st_top st);
                                 f_cur := Plus false a :: cur;
                                 f_group := f_group (st_top st) |};
                    st_outer := st_outer st; st_next := st_next st;
                    st_mode := Normal |}
        | _, _ => None
        end
      else if is_meta c then None
      else Some (push (Atom (Lit c)) st)
  end.

Fixpoint run (st : pstate) (p : string) : option pstate :=
  match p with
  | EmptyString => Some st
  | String c p' => st' ← step st c; run st' p'
  end.

(** [re.compile(pattern)] on the fragment. *)
Definition compile (pattern : string) : option regex :=
  st ← run st0 pattern;
  match st_mode st, st_outer st with
  | Escaped, _ => None
  | _, [] => Some (close_frame (st_top st))
  | _, _ :: _ => None
  end.

(** *** Matching, with Python's backtracking order *)

Definition cset_match (fl : flags) (a : cset) (d : ascii) : bool :=
  match a with
  | Lit c =>
      if IGNORECASE fl
      then Ascii.eqb (PyStr.lower_char c) (PyStr.lower_char d)
      else Ascii.eqb c d
  | Dot => DOTALL fl || negb (Ascii.eqb d PyStr.LF)
  end.

Section Matcher.
Context {R : Type} (fl : flags).

(** [a+] (longest first) and [a+?] (shortest first) before the
    continuation [k]. *)
Fixpoint plus_loop (greedy : bool) (a : cset) (s : string)
    (k : string -> option R) : option R :=
  match s with
  | EmptyString => None
  | String c s' =>
      if cset_match fl a c then
        if greedy then
          match plus_loop greedy a s' k with
          | Some x => Some x
          | None => k s'
          end
        else
          match k s' with
          | Some x => Some x
          | None => plus_loop greedy a s' k
          end
      else None
  end.

(** [cap] is what group 1 holds so far. *)
Fixpoint match_here (r : regex) (s : string) (cap : option string)
    (k : string -> option string -> option R) : option R :=
  match r with
  | Eps => k s cap
  | Atom a =>
      match s with
      | String c s' => if cset_match fl a c then k s' cap else None
      | EmptyString => None
      end
  | Plus g a => plus_loop g a s (fun s' => k s' cap)
  | Seq r1 r2 => match_here r1 s cap (fun s' cap' => match_here r2 s' cap' k)
  | Alt r1 r2 =>
      match match_here r1 s cap k with
      | Some x => Some x
      | None => match_here r2 s cap k
      end
  | Group n r' =>
      match_here r' s cap
        (fun s' cap' => k s' (if n =? 1 then Some (PyStr.consumed s s') else cap'))
  end.
End Matcher.

(** A match object: where it starts, [group(0)] and [group(1)]. *)
Record Match := { m_start : nat; group0 : string; group1 : option string }.

Fixpoint search_at (fl : flags) (r : regex) (pos : nat) (s : string) : option Match :=
  match match_here fl r s None (fun s' cap => Some (s', cap)) with
  | Some (rest, cap) =>
      Some {| m_start := pos; group0 := PyStr.consumed s rest; group1 := cap |}
  | None =>
      match s with
      | EmptyString => None
      | String _ s' => search_at fl r (S pos) s'
      end
  end.

(** [re.search] with a compiled pattern, and with the pattern as a string:
    the outer [None] is a pattern outside the fragment. *)
Definition search_re (fl : flags) (r : regex) (text : string) : option Match :=
  search_at fl r 0 text.

Definition search (pattern text : string) (fl : flags) : option (option Match) :=
  r ← compile pattern; Some (search_re fl r text).

(** A constant pattern of the source, compiled; every one of them is in the
    fragment (see [compile_constants]). *)
Definition const (pattern : string) : regex := default (Alt Eps Eps) (compile pattern).

End Re.


(** ** The node tree of mwparserfromhell

    The parser library is a collaborator of the repository, not part of it.
    The node classes the code meets, their [__str__], the pre-order walk
    behind [filter_templates] and [filter_headings], [Template.get] and
    [get_sections] are written out here from the library's documented
    behaviour; the tokenizer ([mwparserfromhell.parse]) and [strip_code] stay
    abstract, see [Parser]. *)

Module Mw.

Inductive Node :=
| NText (value : string)
| NHeading (title : list Node) (level : nat)
| NTemplate (name : list Node) (params : list Param)
| NWikilink (title : list Node) (text : option (list Node))
with Param :=
| mkParam (pname : list Node) (pvalue : list Node) (showkey : bool).

Abbreviation Wikicode := (list Node).

Definition pname (p : Param) : Wikicode := let 'mkParam n _ _ := p in n.
Definition pvalue (p : Param) : Wikicode := let 'mkParam _ v _ := p in v.
Definition showkey (p : Param) : bool := let 'mkParam _ _ k := p in k.

(** [str(node)]: the markup the node stands for. *)
Fixpoint str_node (n : Node) : string :=
  let fix str_list (w : list Node) : string :=
    match w with
    | [] => EmptyString
    | x :: w' => str_node x +:+ str_list w'
    end in
  match n with
  | NText v => v
  | NHeading t l => PyStr.repeat "=" l +:+ str_list t +:+ PyStr.repeat "=" l
  | NTemplate nm ps =>
      "{{" +:+ str_list nm
      +:+ (fix str_params (ps : list Param) : string :=
             match ps with
             | [] => EmptyString
             | mkParam pn pv k :: ps' =>
                 "|" +:+ (if k then str_list pn +:+ "=" +:+ str_list pv else str_list pv)
                 +:+ str_params ps'
             end) ps
      +:+ "}}"
  | NWikilink t o =>
      "[[" +:+ str_list t
      +:+ match o with
          | Some x => "|" +:+ str_list x
          | None => EmptyString
          end
      +:+ "]]"
  end.

(** [str(wikicode)] *)
Definition str (w : Wikicode) : string := PyStr.concat (map str_node w).

(** [str(param)]: a positional parameter shows its value only. *)
Definition str_param (p : Param) : string :=
  if showkey p then str (pname p) +:+ "=" +:+ str (pvalue p) else str (pvalue p).

(** The node and everything below it, in the order of the library's
    recursive walk: the node, then its children's nodes left to right (a
    template's name, then each parameter's name when it is shown and its
    value; a heading's title; a link's title and text). *)
Fixpoint descendants (n : Node) : list Node :=
  let fix of_list (w : list Node) : list Node :=
    match w with
    | [] => []
    | x :: w' => descendants x ++ of_list w'
    end in
  n :: match n with
       | NText _ => []
       | NHeading t _ => of_list t
       | NTemplate nm ps =>
           of_list nm
           ++ (fix of_params (ps : list Param) : list Node :=
                 match ps with
                 | [] => []
                 | mkParam pn pv k :: ps' =>
                     (if k then of_list pn else []) ++ of_list pv ++ of_params ps'
                 end) ps
       | NWikilink t o =>
           of_list t ++ match o with
                        | Some x => of_list x
                        | None => []
                        end
       end.

(** The nodes [wikicode.ifilter(recursive=True)] walks over. *)
Definition walk (w : Wikicode) : list Node := flat_map descendants w.

(** The node classes the code reads attributes of. *)
Record Template := { name : Wikicode; params : list Param }.
Record Heading := { title : Wikicode; level : nat }.

Definition as_template (n : Node) : option Template :=
  match n with
  | NTemplate nm ps => Some {| name := nm; params := ps |}
  | _ => None
  end.

Definition as_heading (n : Node) : option Heading :=
  match n with
  | NHeading t l => Some {| title := t; level := l |}
  | _ => None
  end.

Definition node_of_template (t : Template) : Node := NTemplate (name t) (params t).

(** [matches=]: absent, or a pattern searched in [str(obj)] with the
    library's default flags. *)
Definition matcher (matches : option Re.regex) (s : string) : bool :=
  match matches with
  | None => true
  | Some r => bool_decide (is_Some (Re.search_re Re.FLAGS r s))
  end.

(** [wikicode.filter_templates(matches=...)] *)
Definition filter_templates (w : Wikicode) (matches : option Re.regex) : list Template :=
  omap (fun n => t ← as_template n;
                 if matcher matches (str_node n) then Some t else None) (walk w).

(** [wikicode.filter_headings()] *)
Definition filter_headings (w : Wikicode) : list Heading :=
  omap as_heading (walk w).

(** [template.get(name, default=None)]: the last parameter of that name. *)
Definition get (t : Template) (nm : string) : option Param :=
  List.find (fun p => bool_decide (PyStr.strip (str (pname p)) = PyStr.strip nm))
            (rev (params t)).

(** The nodes of a section after its heading of level [lvl]: up to the next
    heading of the same or a higher rank, or to the next heading at all when
    [flat]. *)
Fixpoint section_body (flat : bool) (lvl : nat) (rest : Wikicode) : Wikicode :=
  match rest with
  | [] => []
  | NHeading t l :: rest' =>
      if flat || (l <=? lvl) then [] else NHeading t l :: section_body flat lvl rest'
  | n :: rest' => n :: section_body flat lvl rest'
  end.

(** The nodes before the first heading. *)
Fixpoint lead_section (w : Wikicode) : Wikicode :=
  match w with
  | [] => []
  | NHeading _ _ :: _ => []
  | n :: w' => n :: lead_section w'
  end.

Definition heading_matches (levels : list nat) (matches : option Re.regex)
    (t : Wikicode) (l : nat) : bool :=
  matcher matches (str t) && (bool_decide (levels = []) || bool_decide (l ∈ levels)).

Fixpoint sections_from (levels : list nat) (matches : option Re.regex)
    (flat include_headings : bool) (w : Wikicode) : list Wikicode :=
  match w with
  | [] => []
  | NHeading t l :: rest =>
      (if heading_matches levels matches t l
       then [ (if include_headings then [NHeading t l] else [])
              ++ section_body flat l rest ]
       else [])
      ++ sections_from levels matches flat include_headings rest
  | _ :: rest => sections_from levels matches flat include_headings rest
  end.

(** [wikicode.get_sections(levels, matches, flat, include_lead,
    include_headings)]: one section per top-level heading that passes
    [levels] and [matches], in document order, each with all of its
    subsections unless [flat]; the lead section comes first when asked for,
    or when neither [levels] nor [matches] is given. *)
Definition get_sections (w : Wikicode) (levels : list nat) (matches : option Re.regex)
    (flat : bool) (include_lead : option bool) (include_headings : bool) : list Wikicode :=
  (if default (bool_decide (levels = []) && bool_decide (matches = None)) include_lead
   then [lead_section w] else [])
  ++ sections_from levels matches flat include_headings w.

(** The template nodes of the body of a section, headings left out, in
    document order: what a scan of "every template node in the body
    (headings excluded)" visits. *)
Definition body_templates (section : Wikicode) : list Template :=
  filter_templates (filter (fun n => as_heading n = None) section) None.

(** The tokenizer and the plain-text rendering: the document parser the
    pipeline is given. *)
Class Parser := {
  parse : string -> Wikicode;
  strip_code : Wikicode -> list (string * string) -> string }.

End Mw.

(** ** Python's [dict] with [str] keys and values

    Insertion-ordered, one entry per key: storing under a key that is
    present replaces the value and keeps the entry's place. *)

Module PyDict.

Abbreviation t := (list (string * string)).

Fixpoint set (k v : string) (d : t) : t :=
  match d with
  | [] => [(k, v)]
  | (k', v') :: d' =>
      if decide (k' = k) then (k', v) :: d' else (k', v') :: set k v d'
  end.

(** [{k: v for (k, v) in items}] *)
Definition of_items (items : list (string * string)) : t :=
  foldl (fun d kv => set kv.1 kv.2 d) [] items.

(** [d.get(k)] *)
Fixpoint get (k : string) (d : t) : option string :=
  match d with
  | [] => None
  | (k', v') :: d' => if decide (k' = k) then Some v' else get k d'
  end.

Definition keys (d : t) : list string := map fst d.

(** The distinct elements of a list, each at its first place. *)
Fixpoint first_occurrences (l : list string) : list string :=
  match l with
  | [] => []
  | x :: l' => x :: filter (fun y => y ≠ x) (first_occurrences l')
  end.

(** The value of the last item stored under [k]. *)
Fixpoint last_value (k : string) (items : list (string * string)) : option string :=
  match items with
  | [] => None
  | (k', v') :: rest =>
      match last_value k rest with
      | Some v => Some v
      | None => if decide (k' = k) then Some v' else None
      end
  end.

End PyDict.

(** ** Effects: exceptions, the event log, the monad *)

Inductive exn :=
| AttributeError | IndexError | ValueError | FileNotFoundError
| RequestException.

(** What a run leaves behind besides its result: calls into the node tree,
    resolutions of a title, and lines printed. *)
Inductive event :=
| EvParse
| EvGetSections
| EvFilterTemplates
| EvFilterHeadings
| EvFromExport (ns title : string)
| EvFromDump (ns title : string)
| EvPrint (msg : string).

Definition is_traversal (e : event) : bool :=
  match e with
  | EvParse | EvGetSections | EvFilterTemplates | EvFilterHeadings => true
  | _ => false
  end.

Definition is_lookup (e : event) : bool :=
  match e with
  | EvFromExport _ _ | EvFromDump _ _ => true
  | _ => false
  end.

Definition traversals (log : list event) : list event := filter is_traversal log.
Definition lookups (log : list event) : list event := filter is_lookup log.

Inductive result (A : Type) :=
| Ok (a : A)
| Raise (e : exn).
Arguments Ok {A} a.
Arguments Raise {A} e.

(** A computation over a state [S]: its result, the state it leaves (also
    when it raises) and its events in order. *)
Definition M (S A : Type) : Type := S -> result A * S * list event.

Definition ret {S A} (a : A) : M S A := fun s => (Ok a, s, []).
Definition raise {S A} (e : exn) : M S A := fun s => (Raise e, s, []).
Definition bind {S A B} (m : M S A) (k : A -> M S B) : M S B :=
  fun s =>
    match m s with
    | (Ok a, s1, l1) => let '(r, s2, l2) := k a s1 in (r, s2, l1 ++ l2)
    | (Raise e, s1, l1) => (Raise e, s1, l1)
    end.
Definition get {S} : M S S := fun s => (Ok s, s, []).
Definition put {S} (s : S) : M S unit := fun _ => (Ok tt, s, []).
Definition tell {S} (e : event) : M S unit := fun s => (Ok tt, s, [e]).

Declare Scope py_scope.
Delimit Scope py_scope with py.
Notation "x <- m ;; k" := (bind m (fun x => k))
  (at level 100, m at next level, right associativity) : py_scope.
Notation "m ;;; k" := (bind m (fun _ => k))
  (at level 100, right associativity) : py_scope.
Open Scope py_scope.

(** Run a method on an object held in a local variable. *)
Definition call {S T A} (m : M T A) (obj : T) : M S (A * T) :=
  fun s =>
    match m obj with
    | (Ok a, obj', l) => (Ok (a, obj'), s, l)
    | (Raise e, _, l) => (Raise e, s, l)
    end.

(** Run a method on a part of the state. *)
Definition zoom {S T A} (view : S -> T) (update : T -> S -> S) (m : M T A) : M S A :=
  fun s => let '(r, t', l) := m (view s) in (r, update t' s, l).

(** The parts of a run. *)
Definition value_of {S A} (x : result A * S * list event) : result A := x.1.1.
Definition state_of {S A} (x : result A * S * list event) : S := x.1.2.
Definition log_of {S A} (x : result A * S * list event) : list event := x.2.

(** A [for] loop over a list, run for its effects. *)
Fixpoint for_each {S A} (l : list A) (body : A -> M S unit) : M S unit :=
  match l with
  | [] => ret tt
  | x :: l' => body x;;; for_each l' body
  end.

(** ** [Tools] *)

Module Tools.

(** [Tools.template_to_dict] *)
Definition template_to_dict (template : Mw.Template) : PyDict.t :=
  PyDict.of_items
    (map (fun p => (PyStr.strip (Mw.str (Mw.pname p)), PyStr.strip (Mw.str (Mw.pvalue p))))
         (Mw.params template)).

End Tools.

(** ** [Settings] ([settings.py])

    The class keeps its values in one JSON file, [config.json] in the
    package folder.  The state is the path of that file and what it holds:
    nothing when the file does not exist, else a JSON object whose values
    are strings or [null] (what [set] writes for the documented keys).  The
    order of the keys in the file is not modelled. *)

Module Settings.

Abbreviation config := (gmap string (option string)).

Record t := {
  _file : string;
  config_json : option config }.

(** [with open(cls._file, 'w') as f: json.dump(config, f)] *)
Definition dump (config : config) : M t unit :=
  s <- get;;
  put {| _file := _file s; config_json := Some config |}.

(** [Settings._create_file] *)
Definition _create_file : M t unit :=
  dump ∅;;;
  s <- get;;
  tell (EvPrint ("Created new configuration file: " +:+ _file s)).

(** [Settings._load] *)
Definition _load : M t config :=
  s <- get;;
  match config_json s with
  | Some config => ret config
  | None => _create_file;;; ret ∅
  end.

(** [Settings._save_config] *)
Definition _save_config (config : config) : M t unit := dump config.

(** [Settings.set] *)
Definition set (key : string) (value : option string) : M t unit :=
  config <- _load;;
  _save_config (<[key := value]> config).

(** [Settings.get]; [config.get(key, default)] is the value stored under
    the key, also when that value is [None]. *)
Definition get (key : string) (default : option string) : M t (option string) :=
  config <- _load;;
  ret (match config !! key with
       | Some value => value
       | None => default
       end).

End Settings.

(** ** The world outside the objects: [fetch.py] and class attributes *)

(** The three classes a class method may be called on. *)
Inductive cls := C_EntryBase | C_Entry | C_EntryFlexion.

#[global] Instance cls_eq_dec : EqDecision cls.
Proof. solve_decision. Defined.

(** The class attribute [NS]. *)
Definition NS (c : cls) : string :=
  match c with
  | C_EntryFlexion => "108"
  | _ => "0"
  end.

(** A dictionary of a dump: the text of each title, which is [None] for a
    page whose [<text/>] element is empty ([create_dict_by_ns] stores
    [wikitext.text]). *)
Abbreviation wikidict := (gmap string (option string)).

Record World := {
  (** [WIKIDICT] as set on each class itself ([None]: not set there) *)
  own_WIKIDICT : cls -> option wikidict;
  (** the configuration file of [Settings] *)
  settings : Settings.t;
  (** the pickled dictionaries on disk, by path *)
  pickles : gmap string wikidict;
  (** [PageExport(title)]: what [.wikitext] and [.ns] return for the page
      (the text of an element, [None] when the element is empty; the empty
      string when there is no such element), or a failed request *)
  export : string -> result (option string * option string) }.

Definition set_WIKIDICT (c : cls) (d : wikidict) (w : World) : World :=
  {| own_WIKIDICT := fun c' => if decide (c' = c) then Some d else own_WIKIDICT w c';
     settings := settings w; pickles := pickles w; export := export w |}.

Definition set_settings (s : Settings.t) (w : World) : World :=
  {| own_WIKIDICT := own_WIKIDICT w; settings := s; pickles := pickles w;
     export := export w |}.

(** [cls.WIKIDICT]: the class's own attribute, else the base class's. *)
Definition class_WIKIDICT (w : World) (c : cls) : option wikidict :=
  match own_WIKIDICT w c with
  | Some d => Some d
  | None => own_WIKIDICT w C_EntryBase
  end.

(** [Path(folder) / name] *)
Definition path_join (folder name : string) : string := folder +:+ "/" +:+ name.

Module WikiDump.

(** [WikiDump.load_wikidict_by_ns(file, ns)] *)
Definition load_wikidict_by_ns (file : option string) (ns : string) : M World wikidict :=
  file <- match file with
          | None =>
              dict_path <- zoom settings set_settings (Settings.get "DICT_PATH" None);;
              match dict_path with
              | None => raise ValueError
              | Some dict_path => ret (path_join dict_path ("wikidict_" +:+ ns +:+ ".pkl"))
              end
          | Some f => ret f
          end;;
  w <- get;;
  match pickles w !! file with
  | None => raise FileNotFoundError
  | Some dic => ret dic
  end.

End WikiDump.

(** [PageExport(title)], read through [.wikitext] and [.ns] *)
Definition PageExport (title : string) : M World (option string * option string) :=
  fun w => (export w title, w, []).

(** ** [_EntryBase] *)

Module EntryBase.

Record t := {
  title : string;
  (** a [str], or [None] when the source of the page had an empty text *)
  text : option string;
  status : string;
  extracted_from : option string;
  _parsed : option Mw.Wikicode }.

Definition set_status (s : string) (self : t) : t :=
  {| title := title self; text := text self; status := s;
     extracted_from := extracted_from self; _parsed := _parsed self |}.

Definition set__parsed (p : Mw.Wikicode) (self : t) : t :=
  {| title := title self; text := text self; status := status self;
     extracted_from := extracted_from self; _parsed := Some p |}.

(** The constructors a class method reaches through [cls(...)]. *)
Class EntryClass (T : Type) := {
  cls_id : cls;
  construct : forall S, string -> option string -> string -> option string -> M S T }.
Arguments construct {T _ S}.

Section Methods.
Context `{Mw.Parser}.

(** [_EntryBase.__init__] *)
Definition __init__ {S} (title : string) (wikitext : option string) (status : string)
    (extracted_from : option string) : M S t :=
  let self := {| title := title; text := wikitext; status := status;
                 extracted_from := extracted_from; _parsed := None |} in
  if PyStr.ne status "OK" then
    tell (EvPrint ("Wiki search for " +:+ PyStr.dq +:+ title +:+ PyStr.dq
                   +:+ " failed: " +:+ status));;;
    ret self
  else ret self.

(** [mwparserfromhell.parse(text)]; [parse(None)] is the empty tree. *)
Definition parse_text (text : option string) : Mw.Wikicode :=
  match text with
  | Some text => Mw.parse text
  | None => []
  end.

(** the property [parsed] *)
Definition parsed : M t Mw.Wikicode :=
  self <- get;;
  match _parsed self with
  | Some p => ret p
  | None =>
      tell EvParse;;;
      let p := parse_text (text self) in
      put (set__parsed p self);;;
      ret p
  end.

(** [_EntryBase._get_section_de] *)
Definition _get_section_de : M t (option Mw.Wikicode) :=
  p <- parsed;;
  tell EvGetSections;;;
  let sections := Mw.get_sections p [2] (Some (Re.const "\|Deutsch")) false None true in
  match sections with
  | [section] => ret (Some section)
  | _ :: _ :: _ =>
      self <- get;;
      put (set_status ("More than one German section found for " +:+ title self) self);;;
      ret None
  | [] =>
      self <- get;;
      put (set_status ("No German section found for " +:+ title self) self);;;
      ret None
  end.

(** What [print(' ' * 8 * (heading.level - level), heading.level,
    heading.title)] writes: the three arguments, a space between them. *)
Definition tree_line (level : Z) (heading : Mw.Heading) : string :=
  PyStr.repeat " " (8 * Z.to_nat (Z.of_nat (Mw.level heading) - level))
  +:+ " " +:+ pretty (Mw.level heading) +:+ " " +:+ Mw.str (Mw.title heading).

(** The body of the loop of [print_sections_tree]. *)
Definition print_heading {S} (level : Z) (heading : Mw.Heading) : M S unit :=
  if (level <=? Z.of_nat (Mw.level heading))%Z
  then tell (EvPrint (tree_line level heading))
  else ret tt.

(** [_EntryBase.print_sections_tree] *)
Definition print_sections_tree (section : option Mw.Wikicode) (level : Z) : M t unit :=
  section <- match section with
             | None => parsed
             | Some section => ret section
             end;;
  tell EvFilterHeadings;;;
  let headings := Mw.filter_headings section in
  for_each headings (print_heading level).

(** [_EntryBase.get_wikidict] *)
Definition get_wikidict (c : cls) (dict_path : option string) : M World wikidict :=
  w <- get;;
  match class_WIKIDICT w c with
  | Some d => ret d
  | None =>
      d <- match dict_path with
           | None => WikiDump.load_wikidict_by_ns None (NS c)
           | Some dict_path =>
               let _file := path_join dict_path ("wikidict_" +:+ NS c +:+ ".pkl") in
               WikiDump.load_wikidict_by_ns (Some _file) (NS c)
           end;;
      w' <- get;;
      put (set_WIKIDICT c d w');;;
      ret d
  end.

(** [_EntryBase.from_export] *)
Definition from_export `{EntryClass T} (title : string) : M World T :=
  tell (EvFromExport (NS cls_id) title);;;
  fetched <- PageExport title;;
  let '(fetched_wikitext, fetched_ns) := fetched in
  if PyStr.eq_value fetched_wikitext "" then
    construct title fetched_wikitext
              ("No content for " +:+ title +:+ " in exported page") (Some "from export")
  else if PyStr.ne_value fetched_ns (NS cls_id) then
    construct title (Some "") ("No proper wiki namespace found for " +:+ title)
              (Some "from export")
  else construct title fetched_wikitext "OK" (Some "from export").

(** [_EntryBase.from_dump] *)
Definition from_dump `{EntryClass T} (title : string) (dict_path : option string)
    : M World T :=
  tell (EvFromDump (NS cls_id) title);;;
  wikidict <- get_wikidict cls_id dict_path;;
  let wikitext := default (Some "") (wikidict !! title) in
  let status := if PyStr.ne_value wikitext "" then "OK"
                else "No content for " +:+ title +:+ " in dump file" in
  construct title wikitext status (Some "from dump").

#[global] Instance EntryBase_class : EntryClass t :=
  {| cls_id := C_EntryBase; construct := @__init__ |}.
End Methods.

End EntryBase.

(** ** [EntryFlexion] (namespace 108) *)

Module EntryFlexion.

Record t := {
  base : EntryBase.t;
  german : option Mw.Wikicode;
  _pos : option (list string);
  _flexion_tpls : option (list Mw.Template) }.

Definition status (self : t) : string := EntryBase.status (base self).
Definition title (self : t) : string := EntryBase.title (base self).

Definition set_status (s : string) (self : t) : t :=
  {| base := EntryBase.set_status s (base self); german := german self;
     _pos := _pos self; _flexion_tpls := _flexion_tpls self |}.

Definition set__pos (p : list string) (self : t) : t :=
  {| base := base self; german := german self;
     _pos := Some p; _flexion_tpls := _flexion_tpls self |}.

Definition set__flexion_tpls (l : list Mw.Template) (self : t) : t :=
  {| base := base self; german := german self;
     _pos := _pos self; _flexion_tpls := Some l |}.

Section Methods.
Context `{Mw.Parser}.

(** [EntryFlexion.__init__] *)
Definition __init__ {S} (title : string) (wikitext : option string) (status : string)
    (extracted_from : option string) : M S t :=
  b <- EntryBase.__init__ title wikitext status extracted_from;;
  r <- call EntryBase._get_section_de b;;
  ret {| base := r.2; german := r.1; _pos := None; _flexion_tpls := None |}.

(** The body of the loop of [flexion_tpls]:
    [self._flexion_tpls += node.filter_templates()]. *)
Definition collect_templates (node : Mw.Wikicode) : M t unit :=
  self <- get;;
  tell EvFilterTemplates;;;
  put (set__flexion_tpls (default [] (_flexion_tpls self) ++ Mw.filter_templates node None)
                         self).

(** the property [flexion_tpls] *)
Definition flexion_tpls : M t (list Mw.Template) :=
  self <- get;;
  match _flexion_tpls self with
  | Some l => ret l
  | None =>
      if PyStr.ne (status self) "OK" then ret []
      else
        match german self with
        | None => raise AttributeError
        | Some g =>
            tell EvGetSections;;;
            let body := Mw.get_sections g [] None false None false in
            put (set__flexion_tpls [] self);;;
            for_each body (collect_templates);;;
            self <- get;;
            let tpls := default [] (_flexion_tpls self) in
            (match tpls with
             | [] => put (set_status "No German flexion templates" self)
             | [_] => ret tt
             | _ :: _ :: _ => put (set_status "Multiple German flexion templates" self)
             end);;;
            ret tpls
        end
  end.

(** The pattern of [pos], and what one template adds to the list. *)
Definition pos_pattern : string := "(Adjektiv|Verb|Adverb|Gerundivum|Numerale)".

Definition pos_of_template (template : Mw.Template) : option string :=
  m ← Re.search_re Re.F_NONE (Re.const pos_pattern) (Mw.str (Mw.name template));
  Some (default EmptyString (Re.group1 m)).

(** the property [pos] *)
Definition pos : M t (list string) :=
  self <- get;;
  match _pos self with
  | Some p => ret p
  | None =>
      if PyStr.ne (status self) "OK" then ret []
      else
        put (set__pos [] self);;;
        tpls <- flexion_tpls;;
        let p := omap pos_of_template tpls in
        self <- get;;
        put (set__pos p self);;;
        self <- get;;
        (match p with
         | [] => put (set_status ("No POS found for " +:+ title self) self)
         | [_] => ret tt
         | _ :: _ :: _ => put (set_status ("Multiple POS found for " +:+ title self) self)
         end);;;
        ret p
  end.

(** [EntryFlexion.inflections] *)
Definition inflections : M t (list PyDict.t) :=
  tpls <- flexion_tpls;;
  ret (map Tools.template_to_dict tpls).

#[global] Instance EntryFlexion_class : EntryBase.EntryClass t :=
  {| EntryBase.cls_id := C_EntryFlexion; EntryBase.construct := @__init__ |}.
End Methods.

End EntryFlexion.

(** ** [WordForm] *)

Module WordForm.

(** What a word form reads of the [Entry] it belongs to.  The two
    attributes are written by the constructor of the entry and by nothing
    else, so the reference is kept as their values. *)
Record EntryRef := { ref_title : string; ref_extracted_from : option string }.

Record t := {
  wordform : Mw.Wikicode;
  status : string;
  entry : option EntryRef;
  _pos : option (list string);
  _wortart_tpls : option (list Mw.Template);
  _uebersichten_tpls : option (list Mw.Template);
  (** the attribute named [__flexionseite], which [hasattr] asks for *)
  attr__flexionseite : option (option EntryFlexion.t);
  (** the attribute [self.__flexionseite] reads and writes inside the class
      body: Python mangles that name to [_WordForm__flexionseite] *)
  _WordForm__flexionseite : option (option EntryFlexion.t) }.

Definition set_status (s : string) (self : t) : t :=
  {| wordform := wordform self; status := s; entry := entry self; _pos := _pos self;
     _wortart_tpls := _wortart_tpls self; _uebersichten_tpls := _uebersichten_tpls self;
     attr__flexionseite := attr__flexionseite self;
     _WordForm__flexionseite := _WordForm__flexionseite self |}.

Definition set__pos (p : list string) (self : t) : t :=
  {| wordform := wordform self; status := status self; entry := entry self; _pos := Some p;
     _wortart_tpls := _wortart_tpls self; _uebersichten_tpls := _uebersichten_tpls self;
     attr__flexionseite := attr__flexionseite self;
     _WordForm__flexionseite := _WordForm__flexionseite self |}.

Definition set__wortart_tpls (l : list Mw.Template) (self : t) : t :=
  {| wordform := wordform self; status := status self; entry := entry self; _pos := _pos self;
     _wortart_tpls := Some l; _uebersichten_tpls := _uebersichten_tpls self;
     attr__flexionseite := attr__flexionseite self;
     _WordForm__flexionseite := _WordForm__flexionseite self |}.

Definition set__uebersichten_tpls (l : list Mw.Template) (self : t) : t :=
  {| wordform := wordform self; status := status self; entry := entry self; _pos := _pos self;
     _wortart_tpls := _wortart_tpls self; _uebersichten_tpls := Some l;
     attr__flexionseite := attr__flexionseite self;
     _WordForm__flexionseite := _WordForm__flexionseite self |}.

Definition set__WordForm__flexionseite (f : option EntryFlexion.t) (self : t) : t :=
  {| wordform := wordform self; status := status self; entry := entry self; _pos := _pos self;
     _wortart_tpls := _wortart_tpls self; _uebersichten_tpls := _uebersichten_tpls self;
     attr__flexionseite := attr__flexionseite self;
     _WordForm__flexionseite := Some f |}.

(** [WordForm.__init__] *)
Definition __init__ (wordform : Mw.Wikicode) (entry : option EntryRef) : t :=
  {| wordform := wordform; status := "OK"; entry := entry; _pos := None;
     _wortart_tpls := None; _uebersichten_tpls := None;
     attr__flexionseite := None; _WordForm__flexionseite := None |}.

(** the property [heading], read for its title:
    [self.wordform.filter_headings()[0]] *)
Definition heading : M t Mw.Heading :=
  self <- get;;
  tell EvFilterHeadings;;;
  match Mw.filter_headings (wordform self) with
  | h :: _ => ret h
  | [] => raise IndexError
  end.

(** the property [wortart_tpls] *)
Definition wortart_tpls : M t (list Mw.Template) :=
  self <- get;;
  match _wortart_tpls self with
  | Some l => ret l
  | None =>
      tell EvFilterTemplates;;;
      let l := Mw.filter_templates (wordform self) (Some (Re.const "Wortart")) in
      put (set__wortart_tpls l self);;;
      match l with
      | [] =>
          h <- heading;;
          self <- get;;
          put (set_status ("No Wortart template found for " +:+ Mw.str (Mw.title h)) self);;;
          self <- get;;
          put (set__wortart_tpls [] self);;;
          ret []
      | _ => ret l
      end
  end.

(** One element of the comprehension of [pos]:
    [str(tpl.get('1'))] if [tpl.get('1', default=None)] is truthy. *)
Definition pos_of_template (tpl : Mw.Template) : option string :=
  p ← Mw.get tpl "1";
  if PyStr.ne (Mw.str_param p) "" then Some (Mw.str_param p) else None.

(** the property [pos] *)
Definition pos : M t (list string) :=
  self <- get;;
  match _pos self with
  | Some p => ret p
  | None =>
      tpls <- wortart_tpls;;
      let p := omap pos_of_template tpls in
      self <- get;;
      put (set__pos p self);;;
      match p with
      | [] =>
          h <- heading;;
          self <- get;;
          put (set_status ("No POS found for " +:+ Mw.str (Mw.title h)) self);;;
          ret p
      | _ => ret p
      end
  end.

(** the property [übersichten_tpls]; the pattern is U-umlaut (220) followed
    by [bersicht]. *)
Definition uebersicht_pattern : string := String (PyStr.chr 220) "bersicht".

Definition übersichten_tpls : M t (list Mw.Template) :=
  self <- get;;
  match _uebersichten_tpls self with
  | Some l => ret l
  | None =>
      tell EvFilterTemplates;;;
      let l := Mw.filter_templates (wordform self) (Some (Re.const uebersicht_pattern)) in
      put (set__uebersichten_tpls l self);;;
      ret l
  end.

(** The condition of the comprehension in [inflections]:
    ['Bild' not in k and not k.isnumeric()]. *)
Definition keep_key (k : string) : bool :=
  negb (PyStr.contains "Bild" k) && negb (PyStr.isnumeric k).

(** [WordForm.inflections(all)] *)
Definition inflections (all : bool) : M t (list PyDict.t) :=
  tpls <- übersichten_tpls;;
  let flexions := map Tools.template_to_dict tpls in
  if all then ret flexions
  else ret (map (fun flexion =>
                   PyDict.of_items (filter (fun kv => keep_key kv.1) flexion))
                flexions).

Section Methods.
Context `{Mw.Parser}.

Definition on_self {A} (m : M t A) : M (t * World) A :=
  zoom fst (fun self' s => (self', s.2)) m.
Definition on_world {A} (m : M World A) : M (t * World) A :=
  zoom snd (fun w' s => (s.1, w')) m.

(** [self.__flexionseite = f] and [return self.__flexionseite], both on
    the mangled name. *)
Definition assign__flexionseite (f : option EntryFlexion.t) : M (t * World) unit :=
  s <- get;; put (set__WordForm__flexionseite f s.1, s.2).

Definition return__flexionseite : M (t * World) (option EntryFlexion.t) :=
  s <- get;;
  match _WordForm__flexionseite s.1 with
  | Some f => ret f
  | None => raise AttributeError
  end.

(** [any(word in self.pos for word in ['Verb', 'Adjektiv'])] *)
Definition any_verb_adjektiv : M (t * World) bool :=
  p <- on_self pos;;
  if bool_decide ("Verb" ∈ p) then ret true
  else
    p' <- on_self pos;;
    ret (bool_decide ("Adjektiv" ∈ p')).

(** the property [_flexionseite].  [hasattr(self, '__flexionseite')] asks
    for the name as written in the string; the assignments and the
    [return] use the mangled one. *)
Definition _flexionseite : M (t * World) (option EntryFlexion.t) :=
  s <- get;;
  match attr__flexionseite s.1 with
  | Some _ => return__flexionseite
  | None =>
      if PyStr.ne (status s.1) "OK" then
        assign__flexionseite None;;;
        return__flexionseite
      else
        any <- any_verb_adjektiv;;
        if negb any then
          assign__flexionseite None;;;
          return__flexionseite
        else
          s <- get;;
          match entry s.1 with
          | None => raise AttributeError
          | Some e =>
              let title := "Flexion:" +:+ ref_title e in
              f <- on_world
                     (if bool_decide (ref_extracted_from e = Some "from export")
                      then EntryBase.from_export title
                      else EntryBase.from_dump title None);;
              assign__flexionseite (Some f);;;
              return__flexionseite
          end
  end.

(** [WordForm.inflections_extended] *)
Definition inflections_extended : M (t * World) (list PyDict.t) :=
  f <- _flexionseite;;
  match f with
  | Some _ =>
      f' <- _flexionseite;;
      match f' with
      | Some page =>
          r <- call EntryFlexion.inflections page;;
          ret r.1
      | None => raise AttributeError
      end
  | None => ret []
  end.

(** [mwparserfromhell.parse(content)]; [parse(None)] is the empty tree. *)
Definition parse_content (content : option string) : Mw.Wikicode :=
  match content with
  | Some c => Mw.parse c
  | None => []
  end.

(** [WordForm.other_content_extract].  It changes nothing, so it is a
    function of the object; the outer [None] is a pattern outside the
    fragment of [Re], the inner one is Python's [None]. *)
Definition other_content_extract (self : t) (name : string) (strip_code : bool)
    (strip_kw : option (list (string * string))) : option (option string) :=
  let text := Mw.str (wordform self) in
  let pattern := "\n\n\{\{" +:+ name +:+ "\}\}\n(.+?)\n\n" in
  search ← Re.search pattern text Re.F_DOTALL;
  match search with
  | None => Some None
  | Some m =>
      let content := Re.group1 m in
      if strip_code then
        match strip_kw with
        | Some kw => Some (Some (Mw.strip_code (parse_content content) kw))
        | None => Some (Some (Mw.strip_code (parse_content content) []))
        end
      else Some content
  end.
End Methods.

End WordForm.

(** ** [Entry] (namespace 0) *)

Module Entry.

Record t := {
  base : EntryBase.t;
  german : option Mw.Wikicode;
  _wordforms : option (list WordForm.t) }.

Definition status (self : t) : string := EntryBase.status (base self).
Definition title (self : t) : string := EntryBase.title (base self).

Definition set_status (s : string) (self : t) : t :=
  {| base := EntryBase.set_status s (base self); german := german self;
     _wordforms := _wordforms self |}.

Definition set__wordforms (l : list WordForm.t) (self : t) : t :=
  {| base := base self; german := german self; _wordforms := Some l |}.

(** The reference [entry=self] a word form is given. *)
Definition ref (self : t) : WordForm.EntryRef :=
  {| WordForm.ref_title := title self;
     WordForm.ref_extracted_from := EntryBase.extracted_from (base self) |}.

Section Methods.
Context `{Mw.Parser}.

(** [Entry.__init__] *)
Definition __init__ {S} (title : string) (wikitext : option string) (status : string)
    (extracted_from : option string) : M S t :=
  b <- EntryBase.__init__ title wikitext status extracted_from;;
  r <- call EntryBase._get_section_de b;;
  ret {| base := r.2; german := r.1; _wordforms := None |}.

(** the property [wordforms] *)
Definition wordforms : M t (list WordForm.t) :=
  self <- get;;
  match _wordforms self with
  | Some l => ret l
  | None =>
      if PyStr.ne (status self) "OK" then ret []
      else
        match german self with
        | None => raise AttributeError
        | Some g =>
            tell EvGetSections;;;
            let forms := Mw.get_sections g [3] (Some (Re.const "Wortart")) true None true in
            (match forms with
             | [] => put (set_status ("No German word forms for " +:+ title self) self)
             | _ => ret tt
             end);;;
            self <- get;;
            let l := map (fun form => WordForm.__init__ form (Some (ref self))) forms in
            put (set__wordforms l self);;;
            ret l
        end
  end.

#[global] Instance Entry_class : EntryBase.EntryClass t :=
  {| EntryBase.cls_id := C_Entry; EntryBase.construct := @__init__ |}.
End Methods.

End Entry.

(** ** Sequences of operations on one object

    The operations a caller has on an object, and the state a sequence of
    them leaves.  A caller may catch an exception and go on, so the state an
    operation leaves counts also when it raises. *)

Module Ops.

Inductive entry_op :=
| Entry_wordforms
| Entry_get_section_de
| Entry_parsed.

Inductive flexion_op :=
| Flexion_pos
| Flexion_flexion_tpls
| Flexion_inflections
| Flexion_get_section_de
| Flexion_parsed.

Inductive wordform_op :=
| WF_heading
| WF_wortart_tpls
| WF_pos
| WF_uebersichten_tpls
| WF_inflections (all : bool)
| WF_flexionseite
| WF_inflections_extended
| WF_other_content_extract (name : string) (strip_code : bool)
    (strip_kw : option (list (string * string))).

Section Run.
Context `{Mw.Parser}.

(** The inherited methods, run on an [Entry] or an [EntryFlexion]. *)
Definition entry_base {A} (m : M EntryBase.t A) : M Entry.t A :=
  zoom Entry.base
       (fun b self => {| Entry.base := b; Entry.german := Entry.german self;
                         Entry._wordforms := Entry._wordforms self |}) m.

Definition flexion_base {A} (m : M EntryBase.t A) : M EntryFlexion.t A :=
  zoom EntryFlexion.base
       (fun b self => {| EntryFlexion.base := b;
                         EntryFlexion.german := EntryFlexion.german self;
                         EntryFlexion._pos := EntryFlexion._pos self;
                         EntryFlexion._flexion_tpls := EntryFlexion._flexion_tpls self |}) m.

Definition entry_step (o : entry_op) (self : Entry.t) : Entry.t :=
  match o with
  | Entry_wordforms => state_of (Entry.wordforms self)
  | Entry_get_section_de => state_of (entry_base EntryBase._get_section_de self)
  | Entry_parsed => state_of (entry_base EntryBase.parsed self)
  end.

Definition flexion_step (o : flexion_op) (self : EntryFlexion.t) : EntryFlexion.t :=
  match o with
  | Flexion_pos => state_of (EntryFlexion.pos self)
  | Flexion_flexion_tpls => state_of (EntryFlexion.flexion_tpls self)
  | Flexion_inflections => state_of (EntryFlexion.inflections self)
  | Flexion_get_section_de => state_of (flexion_base EntryBase._get_section_de self)
  | Flexion_parsed => state_of (flexion_base EntryBase.parsed self)
  end.

Definition wordform_step (o : wordform_op) (s : WordForm.t * World) : WordForm.t * World :=
  match o with
  | WF_heading => state_of (WordForm.on_self WordForm.heading s)
  | WF_wortart_tpls => state_of (WordForm.on_self WordForm.wortart_tpls s)
  | WF_pos => state_of (WordForm.on_self WordForm.pos s)
  | WF_uebersichten_tpls => state_of (WordForm.on_self WordForm.übersichten_tpls s)
  | WF_inflections all => state_of (WordForm.on_self (WordForm.inflections all) s)
  | WF_flexionseite => state_of (WordForm._flexionseite s)
  | WF_inflections_extended => state_of (WordForm.inflections_extended s)
  | WF_other_content_extract _ _ _ => s
  end.

Definition entry_run (ops : list entry_op) (self : Entry.t) : Entry.t :=
  foldl (fun s o => entry_step o s) self ops.
Definition flexion_run (ops : list flexion_op) (self : EntryFlexion.t) : EntryFlexion.t :=
  foldl (fun s o => flexion_step o s) self ops.
Definition wordform_run (ops : list wordform_op) (s : WordForm.t * World)
    : WordForm.t * World :=
  foldl (fun s o => wordform_step o s) s ops.
End Run.

End Ops.

(** ** Concrete documents and a concrete parser

    The tokenizer is a parameter of the development.  The examples below run
    with a parser that knows the markup of a few pages by heart and reads
    any other text as plain text; the empty text has no nodes. *)

Module Examples.
Import Mw.

Definition T (s : string) : Node := NText s.
Definition positional (n v : string) : Param := mkParam [T n] [T v] false.
Definition keyword (n v : string) : Param := mkParam [T n] [T v] true.
Definition tpl (n : string) (ps : list Param) : Node := NTemplate [T n] ps.

#[global] Instance table_parser (pages : list (string * Wikicode)) : Parser :=
  {| parse := fun s => if decide (s = "") then []
                       else default [NText s] (snd <$> List.find (fun kv => bool_decide (kv.1 = s)) pages);
     strip_code := fun w _ => str w |}.

(** The value of a run that does not raise. *)
Definition unwrap {A} (d : A) (r : result A) : A :=
  match r with
  | Ok a => a
  | Raise _ => d
  end.

(** A word form whose [Wortart] template has no parameter, followed by one
    overview table:
    [=== {{Wortart}} ===], [{{Deutsch Substantiv Uebersicht|Genitiv Singular=Hauses}}]
    (with U-umlaut). *)
Definition section_without_pos : Wikicode :=
  [ NHeading [T " "; tpl "Wortart" []; T " "] 3; T PyStr.nl;
    tpl ("Deutsch Substantiv " +:+ WordForm.uebersicht_pattern)
        [keyword "Genitiv Singular" "Hauses"];
    T PyStr.nl ].

Definition wordform_without_pos : WordForm.t := WordForm.__init__ section_without_pos None.

(** The same word form after [pos] has been read once. *)
Definition wordform_after_pos : WordForm.t := state_of (WordForm.pos wordform_without_pos).

(** A Flexion page whose language section has a subsection:
    [== gehen (Konjugation) ({{Verbkonjugation|Deutsch}}) ==],
    [=== Indikativ ===], [{{Deutsch Verb schwach|Teil 1=geh}}]. *)
Definition gehen_markup : string := "== gehen (Konjugation) ... ==".

Definition gehen_tree : Wikicode :=
  [ NHeading [T " gehen (Konjugation) ("; tpl "Verbkonjugation" [positional "1" "Deutsch"];
              T ") "] 2;
    T PyStr.nl;
    NHeading [T " Indikativ "] 3; T PyStr.nl;
    tpl "Deutsch Verb schwach" [keyword "Teil 1" "geh"]; T PyStr.nl ].

Definition gehen_parser : Parser := table_parser [(gehen_markup, gehen_tree)].

Definition no_flexion : EntryFlexion.t :=
  {| EntryFlexion.base :=
       {| EntryBase.title := ""; EntryBase.text := Some ""; EntryBase.status := "";
          EntryBase.extracted_from := None; EntryBase._parsed := None |};
     EntryFlexion.german := None; EntryFlexion._pos := None;
     EntryFlexion._flexion_tpls := None |}.

Definition flexion_gehen : EntryFlexion.t :=
  unwrap no_flexion
    (value_of (@EntryFlexion.__init__ gehen_parser unit "Flexion:gehen"
                 (Some gehen_markup) "OK" (Some "from dump") tt)).

(** The same page after [pos] has been read once. *)
Definition flexion_gehen_read : EntryFlexion.t :=
  state_of (EntryFlexion.pos flexion_gehen).

(** Two word forms of the entry [gehen], which came from the dump: a verb
    and a noun. *)
Definition section_of_pos (pos : string) : Wikicode :=
  [ NHeading [T " "; tpl "Wortart" [positional "1" pos; positional "2" "Deutsch"]; T " "] 3;
    T PyStr.nl ].

Definition entry_gehen : WordForm.EntryRef :=
  {| WordForm.ref_title := "gehen"; WordForm.ref_extracted_from := Some "from dump" |}.

Definition wordform_verb : WordForm.t :=
  WordForm.__init__ (section_of_pos "Verb") (Some entry_gehen).
Definition wordform_noun : WordForm.t :=
  WordForm.__init__ (section_of_pos "Substantiv") (Some entry_gehen).

(** A word form with one labelled paragraph:
    [=== {{Wortart|Substantiv|Deutsch}} ===], a blank line, [{{Beispiele}}],
    [:[1] Das Haus ist alt.], a blank line. *)
Definition section_with_examples : Wikicode :=
  [ NHeading [T " "; tpl "Wortart" [positional "1" "Substantiv"; positional "2" "Deutsch"];
              T " "] 3;
    T (PyStr.nl +:+ PyStr.nl); tpl "Beispiele" [];
    T (PyStr.nl +:+ ":[1] Das Haus ist alt." +:+ PyStr.nl +:+ PyStr.nl) ].

Definition wordform_with_examples : WordForm.t :=
  WordForm.__init__ section_with_examples None.

(** [{{T|a=1|a=2}}]: one parameter name used twice. *)
Definition template_twice : Template :=
  {| name := [T "T"]; params := [keyword "a" "1"; keyword "a" "2"] |}.

(** An archive for the two namespaces, already loaded by both classes; the
    network answers nothing. *)
Definition archive0 : wikidict := {[ "Haus" := Some "== Haus ... ==" ]}.
Definition archive108 : wikidict := {[ "Flexion:gehen" := Some gehen_markup ]}.

(** The configuration file of the package: not there yet, holding no
    folder, and holding the folder [dicts]. *)
Definition config_file : string := "de_wiktio/config.json".
Definition settings_missing : Settings.t :=
  {| Settings._file := config_file; Settings.config_json := None |}.
Definition settings_empty : Settings.t :=
  {| Settings._file := config_file; Settings.config_json := Some ∅ |}.
Definition settings_dicts : Settings.t :=
  {| Settings._file := config_file;
     Settings.config_json := Some {[ "DICT_PATH" := Some "dicts" ]} |}.

Definition world_loaded : World :=
  {| own_WIKIDICT := fun c => match c with
                              | C_EntryBase => None
                              | C_Entry => Some archive0
                              | C_EntryFlexion => Some archive108
                              end;
     settings := settings_empty; pickles := ∅;
     export := fun _ => Raise RequestException |}.

(** The entry [from_dump] makes of a title the archive does not hold. *)
Definition no_entry : Entry.t :=
  {| Entry.base := EntryFlexion.base no_flexion; Entry.german := None;
     Entry._wordforms := None |}.

Definition entry_ghost : Entry.t :=
  unwrap no_entry
    (value_of (@EntryBase.from_dump Entry.t (@Entry.Entry_class gehen_parser) "Ghost" None world_loaded)).

(** The page [Haus] of the archive:
    [== Haus ({{Sprache|Deutsch}}) ==],
    [=== {{Wortart|Substantiv|Deutsch}}, {{n}} ===], one overview table, the
    paragraph [{{Bedeutungen}}] and the subsection
    [==== {{Uebersetzungen}} ====]. *)
Definition haus_markup : string := "== Haus ... ==".

Definition haus_tree : Wikicode :=
  [ NHeading [T " Haus ("; tpl "Sprache" [positional "1" "Deutsch"]; T ") "] 2;
    T PyStr.nl;
    NHeading [T " "; tpl "Wortart" [positional "1" "Substantiv"; positional "2" "Deutsch"];
              T ", "; tpl "n" []; T " "] 3;
    T PyStr.nl;
    tpl ("Deutsch Substantiv " +:+ WordForm.uebersicht_pattern)
        [keyword "Genitiv Singular" "Hauses"];
    T (PyStr.nl +:+ PyStr.nl); tpl "Bedeutungen" [];
    T (PyStr.nl +:+ ":[1] ein Bauwerk" +:+ PyStr.nl +:+ PyStr.nl);
    NHeading [T " "; tpl "Uebersetzungen" []; T " "] 4; T PyStr.nl ].

(** A Flexion page with one template and no subsection:
    [== schnell (Deklination) ({{Adjektivdeklination|Deutsch}}) ==],
    [{{Deutsch Adjektiv Flexion|Positiv=schnell}}]. *)
Definition schnell_markup : string := "== schnell (Deklination) ... ==".

Definition schnell_tree : Wikicode :=
  [ NHeading [T " schnell (Deklination) (";
              tpl "Adjektivdeklination" [positional "1" "Deutsch"]; T ") "] 2;
    T PyStr.nl;
    tpl "Deutsch Adjektiv Flexion" [keyword "Positiv" "schnell"]; T PyStr.nl ].

Definition pages_parser : Parser :=
  table_parser [(gehen_markup, gehen_tree); (haus_markup, haus_tree);
                (schnell_markup, schnell_tree)].

Definition entry_haus : Entry.t :=
  unwrap no_entry
    (value_of (@Entry.__init__ pages_parser unit "Haus" (Some haus_markup) "OK"
                 (Some "from dump") tt)).

Definition flexion_schnell : EntryFlexion.t :=
  unwrap no_flexion
    (value_of (@EntryFlexion.__init__ pages_parser unit "Flexion:schnell"
                 (Some schnell_markup) "OK" (Some "from dump") tt)).

(** The heading of the word form without a part of speech. *)
Definition heading_without_pos : Heading :=
  {| title := [T " "; tpl "Wortart" []; T " "]; level := 3 |}.

(** [{{T| a = 1 }}]: blanks around the name and the value. *)
Definition template_spaced : Template :=
  {| name := [T "T"]; params := [keyword " a " " 1 "] |}.

(** The archive on disk in the folder [dicts] of the settings, no class
    holding a dictionary yet; and a first session: no configuration file,
    no files. *)
Definition world_disk : World :=
  {| own_WIKIDICT := fun _ => None;
     settings := settings_dicts;
     pickles := {[ "dicts/wikidict_0.pkl" := archive0;
                   "dicts/wikidict_108.pkl" := archive108 ]};
     export := fun _ => Raise RequestException |}.

Definition world_unset : World :=
  {| own_WIKIDICT := fun _ => None; settings := settings_missing; pickles := ∅;
     export := fun _ => Raise RequestException |}.

End Examples.

(** * Notions the statements are written with *)

Module EntryBaseNotions.
Import EntryBase.

(** The tree an object works on: the memoized [_parsed], else the parse of
    its text. *)
Definition document `{Mw.Parser} (self : t) : Mw.Wikicode :=
  match _parsed self with
  | Some p => p
  | None => parse_text (text self)
  end.

(** The level-2 sections of the German marker. *)
Definition german_sections `{Mw.Parser} (self : t) : list Mw.Wikicode :=
  Mw.get_sections (document self) [2] (Some (Re.const "\|Deutsch")) false None true.

(** [get_sections] with a heading filter: one section per top-level heading
    that passes it, in document order, each starting at its heading. *)
Definition passes (levels : list nat) (matches : option Re.regex) (n : Mw.Node) : bool :=
  match n with
  | Mw.NHeading t l => Mw.heading_matches levels matches t l
  | _ => false
  end.

End EntryBaseNotions.

Module ConstructorNotions.
Import EntryBase EntryBaseNotions.

(** The object [_EntryBase.__init__] leaves, and what it prints. *)
Definition fresh (title : string) (wikitext : option string) (status : string)
    (extracted_from : option string) : t :=
  {| title := title; text := wikitext; status := status;
     extracted_from := extracted_from; _parsed := None |}.

Definition init_log (title status : string) : list event :=
  if PyStr.ne status "OK"
  then [EvPrint ("Wiki search for " +:+ PyStr.dq +:+ title +:+ PyStr.dq
                 +:+ " failed: " +:+ status)]
  else [].

End ConstructorNotions.

Module EntryNotions.
Import Entry.

Definition wortart_sections (g : Mw.Wikicode) : list Mw.Wikicode :=
  Mw.get_sections g [3] (Some (Re.const "Wortart")) true None true.

End EntryNotions.

Module EntryFlexionNotions.
Import EntryFlexion.

(** The templates [flexion_tpls] collects from the language section [g]. *)
Definition scanned_templates (g : Mw.Wikicode) : list Mw.Template :=
  flat_map (fun node => Mw.filter_templates node None)
           (Mw.get_sections g [] None false None false).

(** What the scan of the language section [g] logs: the call of
    [get_sections], then one [filter_templates] per section. *)
Definition scan_log (g : Mw.Wikicode) : list event :=
  EvGetSections
  :: map (fun _ => EvFilterTemplates) (Mw.get_sections g [] None false None false).

Definition tpls_status (tpls : list Mw.Template) (self : t) : t :=
  match tpls with
  | [] => set_status "No German flexion templates" self
  | [_] => self
  | _ :: _ :: _ => set_status "Multiple German flexion templates" self
  end.

Definition pos_status (p : list string) (self : t) : t :=
  match p with
  | [] => set_status ("No POS found for " +:+ title self) self
  | [_] => self
  | _ :: _ :: _ => set_status ("Multiple POS found for " +:+ title self) self
  end.

End EntryFlexionNotions.

Module WordFormNotions.
Import WordForm.

Definition wortart_templates (self : t) : list Mw.Template :=
  Mw.filter_templates (wordform self) (Some (Re.const "Wortart")).

Definition uebersicht_templates (self : t) : list Mw.Template :=
  Mw.filter_templates (wordform self) (Some (Re.const uebersicht_pattern)).

(** The tables [inflections] works on: one per overview template. *)
Definition tables (self : t) : list PyDict.t :=
  map Tools.template_to_dict
      (default (uebersicht_templates self) (_uebersichten_tpls self)).

End WordFormNotions.

Module ArchiveNotions.
Import EntryBase EntryBaseNotions ConstructorNotions.

(** The arguments [from_dump] hands to the constructor for [title]. *)
Definition dump_wikitext (d : wikidict) (title : string) : option string :=
  default (Some "") (d !! title).

Definition dump_status (d : wikidict) (title : string) : string :=
  if PyStr.ne_value (dump_wikitext d title) "" then "OK"
  else "No content for " +:+ title +:+ " in dump file".

End ArchiveNotions.

Definition keeps {S A} (P : S -> Prop) (m : M S A) : Prop :=
  forall s, P s -> P (state_of (m s)).

Module StatusNotions.
Import EntryBaseNotions ConstructorNotions EntryNotions EntryFlexionNotions WordFormNotions.

Definition base_failed (self : EntryBase.t) : Prop := EntryBase.status self ≠ "OK".

Definition entry_failed (self : Entry.t) : Prop := Entry.status self ≠ "OK".

Definition flexion_failed (self : EntryFlexion.t) : Prop := EntryFlexion.status self ≠ "OK".

Definition wordform_failed (self : WordForm.t) : Prop := WordForm.status self ≠ "OK".

(** With the world beside the word form. *)
Definition wordform_failed_in (s : WordForm.t * World) : Prop := wordform_failed s.1.

End StatusNotions.

Module CompanionNotions.
Import WordForm WordFormNotions ConstructorNotions ArchiveNotions.

(** A log that records no resolution of a title. *)
Definition no_lookups (l : list event) : Prop := lookups l = [].

(** The resolution of the companion's title, by the origin of the entry. *)
Definition resolve `{Mw.Parser} (e : EntryRef) : M World EntryFlexion.t :=
  if bool_decide (ref_extracted_from e = Some "from export")
  then EntryBase.from_export ("Flexion:" +:+ ref_title e)
  else EntryBase.from_dump ("Flexion:" +:+ ref_title e) None.

Definition resolution_event (e : EntryRef) : event :=
  if bool_decide (ref_extracted_from e = Some "from export")
  then EvFromExport "108" ("Flexion:" +:+ ref_title e)
  else EvFromDump "108" ("Flexion:" +:+ ref_title e).

End CompanionNotions.

Module MwNotions.
Import Mw.

Definition no_heading (w : Wikicode) : Prop := forall n, n ∈ w -> as_heading n = None.

End MwNotions.

Module ReNotions.
Import Re.

(** The pieces of a pattern that is one literal text. *)
Fixpoint lits (p : string) : list regex :=
  match p with
  | EmptyString => []
  | String c p' => Atom (Lit c) :: lits p'
  end.

(** A name with no character that means something in a pattern. *)
Definition plain (name : string) : Prop := PyStr.all_chars (fun c => negb (is_meta c)) name = true.

(** [s] without its prefix [p]. *)
Fixpoint eat (p s : string) : option string :=
  match p, s with
  | EmptyString, _ => Some s
  | String c p', String d s' => if Ascii.eqb c d then eat p' s' else None
  | String _ _, EmptyString => None
  end.

(** The pattern of [other_content_extract] for a plain [name]. *)
Definition label_prefix (name : string) : string :=
  PyStr.nl +:+ PyStr.nl +:+ "{{" +:+ name +:+ "}}" +:+ PyStr.nl.

Definition blank_line : string := PyStr.nl +:+ PyStr.nl.

Definition label_regex (name : string) : regex :=
  seq_of (lits (label_prefix name)
          ++ [Group 1 (seq_of [Plus false Dot])] ++ lits blank_line).

Definition push_lits (name : string) (st : pstate) : pstate :=
  foldl (fun st r => push r st) st (lits name).

(** One attempt of the label pattern at the start of [tail]. *)
Definition after_label (s : string) (s' : string) : option (string * option string) :=
  match eat blank_line s' with
  | Some post => Some (post, Some (PyStr.consumed s s'))
  | None => None
  end.

(** The text the label pattern recognises: a blank line, the line
    [{{name}}], at least one character, a blank line. *)
Definition labelled (name text : string) : Prop :=
  exists pre content post,
    text = pre +:+ label_prefix name +:+ content +:+ blank_line +:+ post
    /\ content <> "".

Fixpoint lower (s : string) : string :=
  match s with
  | EmptyString => EmptyString
  | String c s' => String (PyStr.lower_char c) (lower s')
  end.

(** [s] without a prefix that is [p] up to letter case. *)
Fixpoint eat_fold (p s : string) : option string :=
  match p, s with
  | EmptyString, _ => Some s
  | String c p', String d s' =>
      if Ascii.eqb (PyStr.lower_char c) (PyStr.lower_char d) then eat_fold p' s' else None
  | String _ _, EmptyString => None
  end.

Definition POS_TOKENS : list string :=
  ["Adjektiv"; "Verb"; "Adverb"; "Gerundivum"; "Numerale"].

(** The first token that is a prefix of [tail], with what follows it. *)
Fixpoint first_token (toks : list string) (tail : string) : option (string * string) :=
  match toks with
  | [] => None
  | tok :: toks' =>
      match eat tok tail with
      | Some rest => Some (tok, rest)
      | None => first_token toks' tail
      end
  end.

(** The compiled pattern of [pos], searched from any position. *)
Definition pos_regex : regex :=
  Seq (Group 1 (alt_of (map (fun tok => seq_of (lits tok)) POS_TOKENS))) Eps.

End ReNotions.

Module SettingsNotions.

(** What the file holds, read as [_load] reads it: a missing file is the
    empty object. *)
Definition stored (s : Settings.t) : Settings.config :=
  default ∅ (Settings.config_json s).

(** The line printed when the file has to be created. *)
Definition created (s : Settings.t) : list event :=
  match Settings.config_json s with
  | Some _ => []
  | None => [EvPrint ("Created new configuration file: " +:+ Settings._file s)]
  end.

End SettingsNotions.

Module LoadNotions.
Import SettingsNotions.

(** The folder of the settings: the value of the key [DICT_PATH] in the
    configuration file, if it holds one that is not [null]. *)
Definition DICT_PATH (w : World) : option string :=
  default None (stored (settings w) !! "DICT_PATH").

(** The file [get_wikidict] reads for a class: [wikidict_{NS}.pkl] in the
    folder given, else in the folder of the settings. *)
Definition wikidict_file (c : cls) (dict_path : option string) (w : World) : option string :=
  folder ← match dict_path with
           | Some p => Some p
           | None => DICT_PATH w
           end;
  Some (path_join folder ("wikidict_" +:+ NS c +:+ ".pkl")).

(** The configuration file once the settings have been asked: it exists,
    and holds what it held. *)
Definition asked (s : Settings.t) : Settings.t :=
  {| Settings._file := Settings._file s; Settings.config_json := Some (stored s) |}.

(** The world after [get_wikidict] has looked for a folder: the settings
    are asked only when no folder is given. *)
Definition looked_up (dict_path : option string) (w : World) : World :=
  match dict_path with
  | Some _ => w
  | None => set_settings (asked (settings w)) w
  end.

Definition lookup_log (dict_path : option string) (w : World) : list event :=
  match dict_path with
  | Some _ => []
  | None => created (settings w)
  end.

End LoadNotions.

Module BuildNotions.
Section Build.
Context `{Mw.Parser}.

(** The level-2 sections of the German marker in the parse of a text. *)
Definition language_sections (wikitext : option string) : list Mw.Wikicode :=
  Mw.get_sections (EntryBase.parse_text wikitext) [2] (Some (Re.const "\|Deutsch"))
                  false None true.

Definition one_german_section (wikitext : option string) : Prop :=
  exists section, language_sections wikitext = [section].

(** What the constructors of [Entry] and [EntryFlexion] make of their
    arguments: the inherited attributes [b] and the attribute [german]. *)
Definition built (title : string) (wikitext : option string) (status : string)
    (extracted_from : option string) (b : EntryBase.t) (german : option Mw.Wikicode) : Prop :=
  EntryBase.title b = title
  /\ EntryBase.text b = wikitext
  /\ EntryBase.extracted_from b = extracted_from
  /\ (forall section, german = Some section <-> language_sections wikitext = [section])
  /\ (EntryBase.status b = "OK" <-> status = "OK" /\ one_german_section wikitext)
  /\ (language_sections wikitext = [] ->
      EntryBase.status b = "No German section found for " +:+ title).

(** What [from_export] makes of a page whose [.wikitext] is [wikitext] and
    whose [.ns] is [ns] (each a text, or [None] for an empty element), for a
    class of namespace [NS]. *)
Definition exported_as (NS title : string) (wikitext ns : option string)
    (b : EntryBase.t) (german : option Mw.Wikicode) : Prop :=
  EntryBase.title b = title
  /\ EntryBase.extracted_from b = Some "from export"
  /\ (EntryBase.status b = "OK"
      <-> wikitext <> Some "" /\ ns = Some NS /\ one_german_section wikitext)
  /\ (EntryBase.status b = "OK" -> EntryBase.text b = wikitext /\ is_Some german)
  /\ (wikitext = Some "" \/ ns <> Some NS -> EntryBase.text b = Some "")
  /\ (ns = Some NS -> EntryBase.text b = wikitext)
  /\ (wikitext = None -> ns = Some NS ->
      EntryBase.status b = "No German section found for " +:+ title /\ german = None).

(** The status the constructor is called with by [from_export]. *)
Definition export_status (NS title : string) (wikitext ns : option string) : string :=
  if decide (wikitext = Some "") then "No content for " +:+ title +:+ " in exported page"
  else if decide (ns = Some NS) then "OK"
  else "No proper wiki namespace found for " +:+ title.

(** What [from_dump] makes of the archive's answer for the title: no
    answer, or the text stored, which may be [None]. *)
Definition dumped_as (title : string) (found : option (option string))
    (b : EntryBase.t) (german : option Mw.Wikicode) : Prop :=
  EntryBase.title b = title
  /\ EntryBase.extracted_from b = Some "from dump"
  /\ EntryBase.text b = default (Some "") found
  /\ (EntryBase.status b = "OK"
      <-> exists wikitext, found = Some wikitext /\ wikitext <> Some ""
                           /\ one_german_section wikitext)
  /\ (EntryBase.status b = "OK" -> is_Some german)
  /\ (found = Some None ->
      EntryBase.status b = "No German section found for " +:+ title /\ german = None).
End Build.
End BuildNotions.

Module SectionNotions.

(** A section cut with [flat=True]: its heading, then nodes that are not
    headings. *)
Definition flat_section (levels : list nat) (matches : option Re.regex)
    (section : Mw.Wikicode) : Prop :=
  exists t l body,
    section = Mw.NHeading t l :: body
    /\ Mw.heading_matches levels matches t l = true
    /\ MwNotions.no_heading body.

(** The positions in [w] of the nodes that satisfy [p], in increasing
    order, counted from [i] for the first node. *)
Fixpoint positions_from (p : Mw.Node -> bool) (i : nat) (w : Mw.Wikicode) : list nat :=
  match w with
  | [] => []
  | n :: w' => (if p n then [i] else []) ++ positions_from p (S i) w'
  end.

Definition positions (p : Mw.Node -> bool) (w : Mw.Wikicode) : list nat :=
  positions_from p 0 w.

(** [section] is the part of [w] that starts with the heading at position
    [i] and ends before the next heading of any level, or at the end of [w]
    when no heading follows. *)
Definition flat_section_at (w : Mw.Wikicode) (i : nat) (section : Mw.Wikicode) : Prop :=
  exists h body rest,
    drop i w = h :: body ++ rest
    /\ section = h :: body
    /\ is_Some (Mw.as_heading h)
    /\ MwNotions.no_heading body
    /\ (rest = [] \/ exists n rest', rest = n :: rest' /\ is_Some (Mw.as_heading n)).

(** A run that returns: it does not raise. *)
Definition returns {S A} (x : result A * S * list event) : Prop :=
  exists a, value_of x = Ok a.

(** The section a word form was made of. *)
Definition on_section (W : Mw.Wikicode) (self : WordForm.t) : Prop :=
  WordForm.wordform self = W.

Definition on_section_in (W : Mw.Wikicode) (s : WordForm.t * World) : Prop :=
  on_section W s.1.

End SectionNotions.

Module SoundNotions.

(** An object whose status is ['OK'] holds its language section: what the
    constructors establish. *)
Definition entry_sound (e : Entry.t) : Prop :=
  Entry.status e = "OK" -> is_Some (Entry.german e).

Definition flexion_sound (f : EntryFlexion.t) : Prop :=
  EntryFlexion.status f = "OK" -> is_Some (EntryFlexion.german f).

End SoundNotions.

Module PrintNotions.

(** The lines a run printed, in order. *)
Definition printed (log : list event) : list string :=
  omap (fun e => match e with EvPrint msg => Some msg | _ => None end) log.

(** What a constructor called with [status] prints: nothing for ['OK'],
    else one line. *)
Definition failure_lines (title status : string) : list string :=
  if decide (status = "OK") then []
  else ["Wiki search for " +:+ PyStr.dq +:+ title +:+ PyStr.dq +:+ " failed: " +:+ status].

End PrintNotions.

Module ExtractNotions.
Import ReNotions.

(** The shortest text of at least one character at the start of [s] that a
    blank line follows, with what comes after that blank line. *)
Fixpoint first_paragraph (s : string) : option (string * string) :=
  match s with
  | EmptyString => None
  | String c s' =>
      match eat blank_line s' with
      | Some post => Some (String c EmptyString, post)
      | None =>
          match first_paragraph s' with
          | Some (content, post) => Some (String c content, post)
          | None => None
          end
      end
  end.

(** The paragraph under the label [{{name}}] at the start of [tail]. *)
Definition paragraph_at (name tail : string) : option (string * string) :=
  s ← eat (label_prefix name) tail; first_paragraph s.

(** The content of the leftmost paragraph labelled [{{name}}]. *)
Fixpoint labelled_content (name text : string) : option string :=
  match paragraph_at name text with
  | Some (content, _) => Some content
  | None =>
      match text with
      | EmptyString => None
      | String _ text' => labelled_content name text'
      end
  end.

(** [content] is at the start of [s], a blank line follows it, and none
    follows a shorter start of at least one character. *)
Definition shortest_content (s content post : string) : Prop :=
  s = content +:+ blank_line +:+ post
  /\ content <> ""
  /\ forall a b, content = a +:+ b -> a <> "" -> b <> "" ->
                 eat blank_line (b +:+ blank_line +:+ post) = None.

(** [content] is the content of the leftmost paragraph labelled [{{name}}]
    in [text]: no paragraph with that label starts further left. *)
Definition leftmost_paragraph (name text content : string) : Prop :=
  exists pre post,
    text = pre +:+ label_prefix name +:+ content +:+ blank_line +:+ post
    /\ shortest_content (content +:+ blank_line +:+ post) content post
    /\ forall pre' tail',
         text = pre' +:+ tail' -> String.length pre' < String.length pre ->
         forall content' post',
           tail' = label_prefix name +:+ content' +:+ blank_line +:+ post' ->
           content' = "".

End ExtractNotions.

(** * Facts about the embedding *)

Arguments Mw.get_sections : simpl never.
Arguments Mw.filter_templates : simpl never.
Arguments Mw.filter_headings : simpl never.
Arguments Mw.str : simpl never.
Arguments Re.const : simpl never.
Arguments Re.search_re : simpl never.
Arguments PyStr.ne : simpl never.
Arguments PyStr.eq : simpl never.
Arguments PyStr.ne_value : simpl never.
Arguments PyStr.eq_value : simpl never.


(** ** The monad *)

Lemma ne_true (s t : string) : PyStr.ne s t = true <-> s ≠ t.
Proof.
  unfold PyStr.ne, PyStr.eq. rewrite negb_true_iff, bool_decide_eq_false. done.
Qed.

Lemma ne_false (s t : string) : PyStr.ne s t = false <-> s = t.
Proof.
  unfold PyStr.ne, PyStr.eq. rewrite negb_false_iff, bool_decide_eq_true. done.
Qed.

Lemma eq_value_true (x : option string) (t : string) : PyStr.eq_value x t = true <-> x = Some t.
Proof. unfold PyStr.eq_value. by rewrite bool_decide_eq_true. Qed.

Lemma eq_value_false (x : option string) (t : string) :
  PyStr.eq_value x t = false <-> x ≠ Some t.
Proof. unfold PyStr.eq_value. by rewrite bool_decide_eq_false. Qed.

Lemma ne_value_true (x : option string) (t : string) :
  PyStr.ne_value x t = true <-> x ≠ Some t.
Proof.
  unfold PyStr.ne_value, PyStr.eq_value. rewrite negb_true_iff, bool_decide_eq_false. done.
Qed.

Lemma ne_value_false (x : option string) (t : string) :
  PyStr.ne_value x t = false <-> x = Some t.
Proof.
  unfold PyStr.ne_value, PyStr.eq_value. rewrite negb_false_iff, bool_decide_eq_true. done.
Qed.

(** Every diagnostic the code writes differs from ['OK']. *)
Lemma diagnostic_ne_OK (c : ascii) (prefix rest : string) :
  c ≠ "O"%char -> String c prefix +:+ rest ≠ "OK".
Proof.
  intros Hc Heq. change (String c (prefix +:+ rest) = "OK") in Heq. congruence.
Qed.

Module EntryBaseFacts.
Import EntryBase.
Export EntryBaseNotions.

Lemma run_get_section_de `{Mw.Parser} (self : t) :
  _get_section_de self =
  let self' := set__parsed (document self) self in
  let log := match _parsed self with Some _ => [] | None => [EvParse] end ++ [EvGetSections] in
  match german_sections self with
  | [section] => (Ok (Some section), self', log)
  | [] => (Ok None, set_status ("No German section found for " +:+ title self) self', log)
  | _ :: _ :: _ =>
      (Ok None, set_status ("More than one German section found for " +:+ title self) self', log)
  end.
Proof.
  unfold _get_section_de, german_sections, document, parsed, bind, get, put, tell, ret.
  destruct self as [ti te st ef [p|]]; simpl.
  - destruct (Mw.get_sections _ _ _ _ _ _) as [|s [|s' l]]; reflexivity.
  - destruct (Mw.get_sections _ _ _ _ _ _) as [|s [|s' l]]; reflexivity.
Qed.

Lemma sections_from_heads levels matches flat (w : Mw.Wikicode) :
  map (take 1) (Mw.sections_from levels matches flat true w)
  = map (fun h => [h]) (filter (passes levels matches) w).
Proof.
  induction w as [|n w IH]; [done|].
  destruct n as [v|t l|nm ps|lt lx]; simpl; rewrite ?filter_cons; simpl; try exact IH.
  destruct (Mw.heading_matches levels matches t l); simpl; by rewrite IH.
Qed.

Lemma german_sections_heads `{Mw.Parser} (self : t) :
  map (take 1) (german_sections self)
  = map (fun h => [h]) (filter (passes [2] (Some (Re.const "\|Deutsch"))) (document self)).
Proof. unfold german_sections, Mw.get_sections. simpl. apply sections_from_heads. Qed.

Lemma passes_level2 matches (n : Mw.Node) :
  passes [2] matches n = true
  <-> exists t, n = Mw.NHeading t 2 /\ Mw.matcher matches (Mw.str t) = true.
Proof.
  destruct n as [v|t l|nm ps|lt lx]; simpl; try (split; [done|intros (?&?&?); done]).
  unfold Mw.heading_matches. rewrite andb_true_iff, orb_true_iff, !bool_decide_eq_true.
  split.
  - intros [Hm [Hl|Hl]]; [done|]. apply list_elem_of_singleton in Hl as ->. eauto.
  - intros (t' & [= -> ->] & Hm). split; [done|]. right. by apply list_elem_of_singleton.
Qed.

End EntryBaseFacts.

(** ** Constructors and archive lookups *)

Module ConstructorFacts.
Import EntryBase EntryBaseFacts.
Export ConstructorNotions.

Lemma run_base_init `{Mw.Parser} {S} title wikitext status ef (s : S) :
  __init__ title wikitext status ef s
  = (Ok (fresh title wikitext status ef), s, init_log title status).
Proof.
  unfold __init__, init_log, fresh. destruct (PyStr.ne status "OK"); reflexivity.
Qed.

Lemma run_Entry_init `{Mw.Parser} {S} title wikitext status ef (s : S) :
  Entry.__init__ title wikitext status ef s
  = let r := _get_section_de (fresh title wikitext status ef) in
    (match value_of r with
     | Ok g => Ok {| Entry.base := state_of r; Entry.german := g; Entry._wordforms := None |}
     | Raise e => Raise e
     end, s, init_log title status ++ log_of r).
Proof.
  unfold Entry.__init__, bind, call. rewrite run_base_init.
  rewrite run_get_section_de. simpl.
  destruct (german_sections _) as [|x [|y l]]; simpl; by rewrite ?app_nil_r.
Qed.

Lemma run_EntryFlexion_init `{Mw.Parser} {S} title wikitext status ef (s : S) :
  EntryFlexion.__init__ title wikitext status ef s
  = let r := _get_section_de (fresh title wikitext status ef) in
    (match value_of r with
     | Ok g => Ok {| EntryFlexion.base := state_of r; EntryFlexion.german := g;
                     EntryFlexion._pos := None; EntryFlexion._flexion_tpls := None |}
     | Raise e => Raise e
     end, s, init_log title status ++ log_of r).
Proof.
  unfold EntryFlexion.__init__, bind, call. rewrite run_base_init.
  rewrite run_get_section_de. simpl.
  destruct (german_sections _) as [|x [|y l]]; simpl; by rewrite ?app_nil_r.
Qed.

(** [get_wikidict] once the class holds its dictionary. *)
Lemma run_get_wikidict_loaded `{Mw.Parser} (c : cls) dict_path (w : World) d :
  class_WIKIDICT w c = Some d ->
  get_wikidict c dict_path w = (Ok d, w, []).
Proof. intros Hd. unfold get_wikidict, bind, get. simpl. by rewrite Hd. Qed.

End ConstructorFacts.

(** ** Runs of the methods, case by case *)

Module EntryFacts.
Import Entry.
Export EntryNotions.

Lemma run_wordforms `{Mw.Parser} (self : t) :
  wordforms self =
  match _wordforms self with
  | Some l => (Ok l, self, [])
  | None =>
      if PyStr.ne (status self) "OK" then (Ok [], self, [])
      else
        match german self with
        | None => (Raise AttributeError, self, [])
        | Some g =>
            let forms := wortart_sections g in
            let l := map (fun form => WordForm.__init__ form (Some (ref self))) forms in
            (Ok l,
             set__wordforms l
               (match forms with
                | [] => set_status ("No German word forms for " +:+ title self) self
                | _ => self
                end),
             [EvGetSections])
        end
  end.
Proof.
  unfold wordforms, wortart_sections, bind, get, put, tell, ret, raise.
  destruct (_wordforms self); [done|].
  destruct (PyStr.ne (status self) "OK"); [done|].
  destruct (german self) as [g|]; [|done].
  generalize (Mw.get_sections g [3] (Some (Re.const "Wortart")) true None true).
  intros [|x l]; reflexivity.
Qed.

End EntryFacts.

Module EntryFlexionFacts.
Import EntryFlexion.
Export EntryFlexionNotions.

Lemma run_collect (body : list Mw.Wikicode) (acc : list Mw.Template) (self : t) :
  for_each body collect_templates (set__flexion_tpls acc self)
  = (Ok tt,
     set__flexion_tpls (acc ++ flat_map (fun node => Mw.filter_templates node None) body) self,
     map (fun _ => EvFilterTemplates) body).
Proof.
  revert acc. induction body as [|node body IH]; intros acc.
  - simpl. by rewrite app_nil_r.
  - cbn [for_each flat_map map]. unfold bind at 1.
    unfold collect_templates at 1. unfold bind, get, tell, put. cbn [_flexion_tpls set__flexion_tpls default].
    change (set__flexion_tpls ?x (set__flexion_tpls acc self)) with (set__flexion_tpls x self).
    unfold id. rewrite (IH (acc ++ Mw.filter_templates node None)).
    by rewrite <- app_assoc.
Qed.

Lemma run_flexion_tpls `{Mw.Parser} (self : t) :
  flexion_tpls self =
  match _flexion_tpls self with
  | Some l => (Ok l, self, [])
  | None =>
      if PyStr.ne (status self) "OK" then (Ok [], self, [])
      else
        match german self with
        | None => (Raise AttributeError, self, [])
        | Some g =>
            let tpls := scanned_templates g in
            (Ok tpls, tpls_status tpls (set__flexion_tpls tpls self), scan_log g)
        end
  end.
Proof.
  unfold flexion_tpls, scanned_templates, scan_log, tpls_status.
  unfold bind at 1. unfold get at 1.
  destruct (_flexion_tpls self) eqn:Hmemo; [done|].
  destruct (PyStr.ne (status self) "OK"); [done|].
  destruct (german self) as [g|]; [|done].
  remember (Mw.get_sections g [] None false None false) as body eqn:Hbody.
  unfold bind, tell, put. rewrite (run_collect body [] self).
  unfold get, ret. cbn [app _flexion_tpls set__flexion_tpls default id].
  generalize (flat_map (fun node => Mw.filter_templates node None) body).
  intros [|x [|y l]]; simpl; rewrite ?app_nil_r; reflexivity.
Qed.

Lemma lookups_scan_log (g : Mw.Wikicode) : lookups (scan_log g) = [].
Proof.
  unfold scan_log, lookups. rewrite filter_cons_False by (by intros []).
  induction (Mw.get_sections g [] None false None false) as [|x l IH]; [done|].
  simpl. by rewrite filter_cons_False by (by intros []).
Qed.

Lemma run_flexion_pos `{Mw.Parser} (self : t) :
  pos self =
  match _pos self with
  | Some p => (Ok p, self, [])
  | None =>
      if PyStr.ne (status self) "OK" then (Ok [], self, [])
      else
        let r := flexion_tpls (set__pos [] self) in
        match value_of r with
        | Raise e => (Raise e, state_of r, log_of r)
        | Ok tpls =>
            let p := omap pos_of_template tpls in
            (Ok p, pos_status p (set__pos p (state_of r)), log_of r)
        end
  end.
Proof.
  unfold pos, pos_status, bind, get, put, tell, ret, raise.
  destruct (_pos self); [done|].
  destruct (PyStr.ne (status self) "OK"); [done|].
  simpl. destruct (flexion_tpls _) as [[[tpls|e] s1] l1]; simpl; [|done].
  destruct (omap pos_of_template tpls) as [|x [|y l]]; simpl;
    by rewrite app_nil_r.
Qed.

End EntryFlexionFacts.

Module WordFormFacts.
Import WordForm.
Export WordFormNotions.

Lemma run_heading (self : t) :
  heading self =
  (match Mw.filter_headings (wordform self) with
   | h :: _ => Ok h
   | [] => Raise IndexError
   end, self, [EvFilterHeadings]).
Proof.
  unfold heading, bind, get, tell, ret, raise. simpl.
  destruct (Mw.filter_headings (wordform self)); reflexivity.
Qed.

Lemma run_wortart_tpls (self : t) :
  wortart_tpls self =
  match _wortart_tpls self with
  | Some l => (Ok l, self, [])
  | None =>
      let l := wortart_templates self in
      let s1 := set__wortart_tpls l self in
      match l with
      | [] =>
          match Mw.filter_headings (wordform self) with
          | h :: _ =>
              (Ok [],
               set__wortart_tpls []
                 (set_status ("No Wortart template found for " +:+ Mw.str (Mw.title h)) s1),
               [EvFilterTemplates; EvFilterHeadings])
          | [] => (Raise IndexError, s1, [EvFilterTemplates; EvFilterHeadings])
          end
      | _ => (Ok l, s1, [EvFilterTemplates])
      end
  end.
Proof.
  unfold wortart_tpls, wortart_templates.
  unfold bind at 1. unfold get at 1.
  destruct (_wortart_tpls self); [done|].
  generalize (Mw.filter_templates (wordform self) (Some (Re.const "Wortart"))).
  intros [|x l]; [|reflexivity].
  unfold bind, tell, put, get, ret. rewrite run_heading. simpl.
  destruct (Mw.filter_headings (wordform self)); reflexivity.
Qed.

Lemma run_wordform_pos (self : t) :
  pos self =
  match _pos self with
  | Some p => (Ok p, self, [])
  | None =>
      let r := wortart_tpls self in
      match value_of r with
      | Raise e => (Raise e, state_of r, log_of r)
      | Ok tpls =>
          let p := omap pos_of_template tpls in
          let s1 := set__pos p (state_of r) in
          match p with
          | [] =>
              match Mw.filter_headings (wordform s1) with
              | h :: _ =>
                  (Ok [], set_status ("No POS found for " +:+ Mw.str (Mw.title h)) s1,
                   log_of r ++ [EvFilterHeadings])
              | [] => (Raise IndexError, s1, log_of r ++ [EvFilterHeadings])
              end
          | _ => (Ok p, s1, log_of r)
          end
      end
  end.
Proof.
  unfold pos. unfold bind at 1. unfold get at 1.
  destruct (_pos self); [done|].
  unfold bind at 1.
  destruct (wortart_tpls self) as [[[tpls|e] s1] l1];
    unfold value_of, state_of, log_of; simpl; [|done].
  destruct (omap pos_of_template tpls) as [|x l].
  - unfold bind, get, put, ret. rewrite run_heading. simpl.
    destruct (Mw.filter_headings (wordform s1)); simpl; reflexivity.
  - unfold bind, get, put, ret. simpl. by rewrite app_nil_r.
Qed.

Lemma run_übersichten_tpls (self : t) :
  übersichten_tpls self =
  match _uebersichten_tpls self with
  | Some l => (Ok l, self, [])
  | None =>
      let l := uebersicht_templates self in
      (Ok l, set__uebersichten_tpls l self, [EvFilterTemplates])
  end.
Proof.
  unfold übersichten_tpls, uebersicht_templates, bind, get, put, tell, ret.
  destruct (_uebersichten_tpls self); reflexivity.
Qed.

Lemma run_inflections (all : bool) (self : t) :
  inflections all self =
  (Ok (if all then tables self
       else map (fun flexion => PyDict.of_items (filter (fun kv => keep_key kv.1) flexion))
                (tables self)),
   state_of (übersichten_tpls self), log_of (übersichten_tpls self)).
Proof.
  unfold inflections, tables, bind. rewrite run_übersichten_tpls.
  destruct (_uebersichten_tpls self), all; simpl; reflexivity.
Qed.

Lemma run_flexionseite_failed `{Mw.Parser} (self : t) (w : World) :
  attr__flexionseite self = None ->
  status self ≠ "OK" ->
  _flexionseite (self, w) = (Ok None, (set__WordForm__flexionseite None self, w), []).
Proof.
  intros Hattr Hst. unfold _flexionseite. unfold bind at 1. unfold get at 1.
  simpl. rewrite Hattr. rewrite (proj2 (ne_true _ _) Hst). reflexivity.
Qed.

End WordFormFacts.

Module ArchiveFacts.
Import EntryBase EntryBaseFacts ConstructorFacts.
Export ArchiveNotions.

Lemma run_from_dump `{Mw.Parser} `{EntryClass T} title dict_path (w : World) :
  from_dump (T:=T) title dict_path w =
  let r := get_wikidict cls_id dict_path w in
  match value_of r with
  | Raise e => (Raise e, state_of r, EvFromDump (NS cls_id) title :: log_of r)
  | Ok d =>
      let c := construct (T:=T) title (dump_wikitext d title) (dump_status d title)
                         (Some "from dump") (state_of r) in
      (value_of c, state_of c, EvFromDump (NS cls_id) title :: log_of r ++ log_of c)
  end.
Proof.
  unfold from_dump, dump_status, dump_wikitext, bind, tell.
  destruct (get_wikidict cls_id dict_path w) as [[[d|e] w1] l1];
    unfold value_of, state_of, log_of; simpl; [|done].
  destruct (construct _ _ _ _ w1) as [[r w2] l2]. reflexivity.
Qed.

(** A title the dictionary does not hold. *)
Lemma dump_missing (d : wikidict) title :
  d !! title = None ->
  dump_wikitext d title = Some ""
  /\ dump_status d title = "No content for " +:+ title +:+ " in dump file".
Proof.
  intros Hd. unfold dump_status, dump_wikitext. rewrite Hd. simpl.
  by split.
Qed.

End ArchiveFacts.

Module SettingsRun.
Export SettingsNotions.

Lemma run_load (s : Settings.t) :
  Settings._load s
  = (Ok (stored s),
     {| Settings._file := Settings._file s; Settings.config_json := Some (stored s) |},
     created s).
Proof.
  unfold Settings._load, stored, created, bind, get. destruct s as [f [c|]]; simpl; done.
Qed.

Lemma run_settings_get (key : string) (default : option string) (s : Settings.t) :
  Settings.get key default s
  = (Ok (match stored s !! key with Some value => value | None => default end),
     {| Settings._file := Settings._file s; Settings.config_json := Some (stored s) |},
     created s).
Proof.
  unfold Settings.get, bind. rewrite run_load. unfold ret. by rewrite app_nil_r.
Qed.

Lemma run_settings_set (key : string) (value : option string) (s : Settings.t) :
  Settings.set key value s
  = (Ok tt,
     {| Settings._file := Settings._file s;
        Settings.config_json := Some (<[key := value]> (stored s)) |},
     created s).
Proof.
  unfold Settings.set, bind. rewrite run_load.
  unfold Settings._save_config, Settings.dump, bind, get, put. simpl.
  by rewrite app_nil_r.
Qed.

End SettingsRun.

Module LoadFacts.
Import SettingsRun.
Export LoadNotions.

Lemma lookups_created (s : Settings.t) : lookups (created s) = [].
Proof. unfold created. by destruct (Settings.config_json s). Qed.

Lemma lookups_lookup_log dict_path w : lookups (lookup_log dict_path w) = [].
Proof. destruct dict_path; [done|]. apply lookups_created. Qed.

Lemma run_load_wikidict (file : option string) (ns : string) (w : World) :
  WikiDump.load_wikidict_by_ns file ns w =
  match file with
  | Some f =>
      match pickles w !! f with
      | Some d => (Ok d, w, [])
      | None => (Raise FileNotFoundError, w, [])
      end
  | None =>
      let w' := set_settings (asked (settings w)) w in
      match DICT_PATH w with
      | None => (Raise ValueError, w', created (settings w))
      | Some p =>
          match pickles w !! path_join p ("wikidict_" +:+ ns +:+ ".pkl") with
          | Some d => (Ok d, w', created (settings w))
          | None => (Raise FileNotFoundError, w', created (settings w))
          end
      end
  end.
Proof.
  unfold WikiDump.load_wikidict_by_ns. destruct file as [f|].
  - unfold bind, ret, get, raise. simpl. by destruct (pickles w !! f).
  - unfold bind at 1. unfold bind at 1. unfold zoom. rewrite run_settings_get.
    unfold DICT_PATH, asked. simpl.
    destruct (stored (settings w) !! "DICT_PATH") as [[p|]|]; simpl;
      rewrite ?app_nil_r; try reflexivity.
    unfold bind, get, ret, raise. simpl.
    destruct (pickles w !! _); simpl; by rewrite ?app_nil_r.
Qed.

Lemma run_get_wikidict (c : cls) (dict_path : option string) (w : World) :
  EntryBase.get_wikidict c dict_path w =
  match class_WIKIDICT w c with
  | Some d => (Ok d, w, [])
  | None =>
      let w' := looked_up dict_path w in
      match wikidict_file c dict_path w with
      | None => (Raise ValueError, w', lookup_log dict_path w)
      | Some file =>
          match pickles w !! file with
          | Some d => (Ok d, set_WIKIDICT c d w', lookup_log dict_path w)
          | None => (Raise FileNotFoundError, w', lookup_log dict_path w)
          end
      end
  end.
Proof.
  unfold EntryBase.get_wikidict. unfold bind at 1. unfold get at 1.
  destruct (class_WIKIDICT w c) as [d|]; [done|].
  unfold bind at 1. unfold wikidict_file, looked_up, lookup_log.
  destruct dict_path as [p|]; rewrite run_load_wikidict; simpl.
  - destruct (pickles w !! _); [|done]. unfold bind, get, put, ret. simpl. done.
  - destruct (DICT_PATH w) as [p|]; simpl; [|done].
    destruct (pickles w !! _); [|done]. unfold bind, get, put, ret. simpl.
    by rewrite app_nil_r.
Qed.

Lemma asked_existing (s : Settings.t) :
  is_Some (Settings.config_json s) -> asked s = s /\ created s = [].
Proof. destruct s as [f [c|]]; intros [c' Hc]; [done|discriminate Hc]. Qed.

Lemma stored_asked (s : Settings.t) : stored (asked s) = stored s.
Proof. done. Qed.

Lemma looked_up_frame dict_path w :
  own_WIKIDICT (looked_up dict_path w) = own_WIKIDICT w
  /\ pickles (looked_up dict_path w) = pickles w
  /\ export (looked_up dict_path w) = export w
  /\ DICT_PATH (looked_up dict_path w) = DICT_PATH w.
Proof. by destruct dict_path. Qed.

Lemma looked_up_same dict_path w :
  is_Some dict_path \/ is_Some (Settings.config_json (settings w)) ->
  looked_up dict_path w = w /\ lookup_log dict_path w = [].
Proof.
  destruct dict_path as [p|]; [done|]. intros [[p Hp]|Hc]; [done|].
  destruct (asked_existing _ Hc) as [Ha Hl]. unfold looked_up, lookup_log.
  rewrite Ha, Hl. by destruct w.
Qed.

Lemma DICT_PATH_Some w p :
  DICT_PATH w = Some p -> is_Some (Settings.config_json (settings w)).
Proof.
  unfold DICT_PATH, stored. destruct (Settings.config_json (settings w)); [by eauto|].
  simpl. by rewrite lookup_empty.
Qed.

Lemma looked_up_found c dict_path w file :
  wikidict_file c dict_path w = Some file -> looked_up dict_path w = w.
Proof.
  intros Hf. apply looked_up_same. destruct dict_path as [p|]; [by left; eauto|].
  right. unfold wikidict_file in Hf. destruct (DICT_PATH w) as [p|] eqn:Hd; [|done].
  by apply (DICT_PATH_Some w p).
Qed.

Lemma looked_up_created w :
  Settings.config_json (settings w) = None ->
  settings (looked_up None w)
  = {| Settings._file := Settings._file (settings w); Settings.config_json := Some ∅ |}
  /\ lookup_log None w
     = [EvPrint ("Created new configuration file: " +:+ Settings._file (settings w))].
Proof.
  intros Hc. unfold looked_up, lookup_log, asked, stored, created. simpl. by rewrite Hc.
Qed.

End LoadFacts.

(** ** What a method leaves true of the state *)

Lemma keeps_ret {S A} (P : S -> Prop) (a : A) : keeps P (ret a).
Proof. by intros s Hs. Qed.

Lemma keeps_raise {S A} (P : S -> Prop) (e : exn) : keeps P (@raise S A e).
Proof. by intros s Hs. Qed.

Lemma keeps_tell {S} (P : S -> Prop) (e : event) : keeps P (tell e).
Proof. by intros s Hs. Qed.

Lemma keeps_get {S} (P : S -> Prop) : keeps P get.
Proof. by intros s Hs. Qed.

Lemma keeps_bind {S A B} (P : S -> Prop) (m : M S A) (k : A -> M S B) :
  keeps P m -> (forall a, keeps P (k a)) -> keeps P (bind m k).
Proof.
  intros Hm Hk s Hs. unfold bind, state_of. specialize (Hm s Hs).
  destruct (m s) as [[[a|e] s1] l1]; simpl in *; [|done].
  specialize (Hk a s1 Hm). unfold state_of in Hk.
  by destruct (k a s1) as [[r s2] l2].
Qed.

Lemma keeps_call {S T A} (P : S -> Prop) (m : M T A) (obj : T) : keeps P (call m obj).
Proof.
  intros s Hs. unfold call, state_of. by destruct (m obj) as [[[a|e] o] l].
Qed.

Lemma keeps_zoom {S T A} (P : S -> Prop) (Q : T -> Prop) (view : S -> T)
    (update : T -> S -> S) (m : M T A) :
  (forall s, P s -> Q (view s)) ->
  (forall s t', P s -> Q t' -> P (update t' s)) ->
  keeps Q m -> keeps P (zoom view update m).
Proof.
  intros Hv Hu Hm s Hs. unfold zoom, state_of.
  specialize (Hm (view s) (Hv s Hs)). unfold state_of in Hm.
  destruct (m (view s)) as [[r t'] l]. simpl in *. by apply Hu.
Qed.

(** ** A status other than ['OK'] stays other than ['OK'] *)

Module StatusFacts.
Import EntryBaseFacts ConstructorFacts EntryFacts EntryFlexionFacts WordFormFacts.
Export StatusNotions.

Ltac diag := first [ assumption | by apply diagnostic_ne_OK ].

Lemma keeps_parsed `{Mw.Parser} : keeps base_failed EntryBase.parsed.
Proof.
  intros self Hs. unfold EntryBase.parsed, bind, get, put, tell, ret, state_of.
  by destruct (EntryBase._parsed self).
Qed.

Lemma keeps_get_section_de `{Mw.Parser} : keeps base_failed EntryBase._get_section_de.
Proof.
  intros self Hs. rewrite run_get_section_de. unfold base_failed in *.
  destruct (german_sections self) as [|x [|y l]]; simpl; diag.
Qed.

Lemma keeps_wordforms `{Mw.Parser} : keeps entry_failed Entry.wordforms.
Proof.
  intros self Hs. rewrite run_wordforms. unfold entry_failed in *.
  destruct (Entry._wordforms self); [done|].
  destruct (PyStr.ne (Entry.status self) "OK") eqn:Hne; [done|].
  apply ne_false in Hne. done.
Qed.

Lemma keeps_flexion_tpls `{Mw.Parser} : keeps flexion_failed EntryFlexion.flexion_tpls.
Proof.
  intros self Hs. rewrite run_flexion_tpls. unfold flexion_failed in *.
  destruct (EntryFlexion._flexion_tpls self); [done|].
  destruct (PyStr.ne (EntryFlexion.status self) "OK") eqn:Hne; [done|].
  apply ne_false in Hne. done.
Qed.

Lemma keeps_flexion_pos `{Mw.Parser} : keeps flexion_failed EntryFlexion.pos.
Proof.
  intros self Hs. rewrite run_flexion_pos. unfold flexion_failed in *.
  destruct (EntryFlexion._pos self); [done|].
  destruct (PyStr.ne (EntryFlexion.status self) "OK") eqn:Hne; [done|].
  apply ne_false in Hne. done.
Qed.

Lemma keeps_flexion_inflections `{Mw.Parser} :
  keeps flexion_failed EntryFlexion.inflections.
Proof.
  unfold EntryFlexion.inflections.
  apply keeps_bind; [apply keeps_flexion_tpls|intros; apply keeps_ret].
Qed.

Lemma keeps_heading : keeps wordform_failed WordForm.heading.
Proof. intros self Hs. by rewrite run_heading. Qed.

Lemma keeps_wortart_tpls : keeps wordform_failed WordForm.wortart_tpls.
Proof.
  intros self Hs. rewrite run_wortart_tpls. unfold wordform_failed in *.
  destruct (WordForm._wortart_tpls self); [done|]. simpl.
  destruct (wortart_templates self); [|done].
  destruct (Mw.filter_headings _); simpl; diag.
Qed.

Lemma keeps_wordform_pos : keeps wordform_failed WordForm.pos.
Proof.
  intros self Hs. rewrite run_wordform_pos. unfold wordform_failed in *.
  destruct (WordForm._pos self); [done|].
  pose proof (keeps_wortart_tpls self Hs) as Hw. unfold wordform_failed in Hw.
  simpl. destruct (value_of (WordForm.wortart_tpls self)); [|done].
  destruct (omap WordForm.pos_of_template a); [|done].
  destruct (Mw.filter_headings _); simpl; diag.
Qed.

Lemma keeps_übersichten_tpls : keeps wordform_failed WordForm.übersichten_tpls.
Proof.
  intros self Hs. rewrite run_übersichten_tpls.
  by destruct (WordForm._uebersichten_tpls self).
Qed.

Lemma keeps_wordform_inflections all : keeps wordform_failed (WordForm.inflections all).
Proof.
  intros self Hs. rewrite run_inflections. simpl. by apply keeps_übersichten_tpls.
Qed.

Lemma keeps_on_self {A} (m : M WordForm.t A) :
  keeps wordform_failed m -> keeps wordform_failed_in (WordForm.on_self m).
Proof.
  intros Hm. unfold WordForm.on_self.
  by apply (keeps_zoom wordform_failed_in wordform_failed).
Qed.

Lemma keeps_on_world {A} (m : M World A) :
  keeps wordform_failed_in (WordForm.on_world m).
Proof.
  unfold WordForm.on_world.
  by apply (keeps_zoom wordform_failed_in (fun _ => True)).
Qed.

Lemma keeps_assign f : keeps wordform_failed_in (WordForm.assign__flexionseite f).
Proof. by intros [wf w] Hs. Qed.

Lemma keeps_return : keeps wordform_failed_in WordForm.return__flexionseite.
Proof.
  intros [wf w] Hs. unfold WordForm.return__flexionseite, bind, get, state_of. simpl.
  by destruct (WordForm._WordForm__flexionseite wf).
Qed.

Lemma keeps_any : keeps wordform_failed_in WordForm.any_verb_adjektiv.
Proof.
  unfold WordForm.any_verb_adjektiv.
  apply keeps_bind; [apply keeps_on_self, keeps_wordform_pos|].
  intros p. case_bool_decide; [apply keeps_ret|].
  apply keeps_bind; [apply keeps_on_self, keeps_wordform_pos|intros; apply keeps_ret].
Qed.

Lemma keeps_flexionseite `{Mw.Parser} : keeps wordform_failed_in WordForm._flexionseite.
Proof.
  unfold WordForm._flexionseite.
  apply keeps_bind; [apply keeps_get|]. intros s.
  destruct (WordForm.attr__flexionseite s.1); [apply keeps_return|].
  destruct (PyStr.ne _ _).
  { apply keeps_bind; [apply keeps_assign|intros; apply keeps_return]. }
  apply keeps_bind; [apply keeps_any|]. intros any.
  destruct (negb any).
  { apply keeps_bind; [apply keeps_assign|intros; apply keeps_return]. }
  apply keeps_bind; [apply keeps_get|]. intros s'.
  destruct (WordForm.entry s'.1); [|apply keeps_raise].
  apply keeps_bind; [apply keeps_on_world|]. intros f.
  apply keeps_bind; [apply keeps_assign|intros; apply keeps_return].
Qed.

Lemma keeps_inflections_extended `{Mw.Parser} :
  keeps wordform_failed_in WordForm.inflections_extended.
Proof.
  unfold WordForm.inflections_extended.
  apply keeps_bind; [apply keeps_flexionseite|]. intros [f|]; [|apply keeps_ret].
  apply keeps_bind; [apply keeps_flexionseite|]. intros [page|]; [|apply keeps_raise].
  apply keeps_bind; [apply keeps_call|intros; apply keeps_ret].
Qed.

Lemma keeps_entry_base `{Mw.Parser} {A} (m : M EntryBase.t A) :
  keeps base_failed m -> keeps entry_failed (Ops.entry_base m).
Proof.
  intros Hm. unfold Ops.entry_base.
  by apply (keeps_zoom entry_failed base_failed).
Qed.

Lemma keeps_flexion_base `{Mw.Parser} {A} (m : M EntryBase.t A) :
  keeps base_failed m -> keeps flexion_failed (Ops.flexion_base m).
Proof.
  intros Hm. unfold Ops.flexion_base.
  by apply (keeps_zoom flexion_failed base_failed).
Qed.

End StatusFacts.

(** ** Dictionaries *)

Module PyDictFacts.
Import PyDict.

Lemma keys_set k v (d : t) :
  keys (set k v d) = if decide (k ∈ keys d) then keys d else keys d ++ [k].
Proof.
  unfold keys. induction d as [|[k' v'] d IH]; simpl.
  - reflexivity.
  - destruct (decide (k' = k)) as [->|Hne]; simpl.
    + destruct (decide (k ∈ k :: map fst d)) as [|Hk]; [reflexivity|].
      exfalso. apply Hk. set_solver.
    + rewrite IH.
      destruct (decide (k ∈ map fst d)), (decide (k ∈ k' :: map fst d));
        try reflexivity; exfalso; set_solver.
Qed.

Lemma set_fresh k v (d : t) : k ∉ keys d -> set k v d = d ++ [(k, v)].
Proof.
  induction d as [|[k' v'] d IH]; simpl; [done|].
  intros Hk. rewrite decide_False by set_solver. f_equal. apply IH. set_solver.
Qed.

Lemma get_set k v k' (d : t) :
  get k' (set k v d) = if decide (k = k') then Some v else get k' d.
Proof.
  induction d as [|[k0 v0] d IH]; simpl.
  - destruct (decide (k = k')); done.
  - destruct (decide (k0 = k)) as [->|Hne]; simpl.
    + destruct (decide (k = k')); done.
    + rewrite IH. destruct (decide (k0 = k')) as [->|]; [|done].
      by rewrite decide_False.
Qed.

Lemma keys_foldl_set (items : list (string * string)) (acc : t) :
  keys (foldl (fun d kv => set kv.1 kv.2 d) acc items)
  = keys acc ++ filter (fun y => y ∉ keys acc) (first_occurrences (map fst items)).
Proof.
  revert acc. induction items as [|[k v] items IH]; intros acc; simpl.
  - by rewrite app_nil_r.
  - rewrite IH, keys_set. rewrite filter_cons.
    destruct (decide (k ∈ keys acc)) as [Hin|Hnin].
    + rewrite decide_False by (intros Hc; by apply Hc).
      f_equal. rewrite list_filter_filter. apply list_filter_iff.
      intros y. split; [|tauto]. intros Hy. split; [done|]. intros ->. done.
    + rewrite decide_True by done. rewrite <- app_assoc. simpl. do 2 f_equal.
      rewrite list_filter_filter. apply list_filter_iff.
      intros y. rewrite elem_of_app, list_elem_of_singleton. tauto.
Qed.

Lemma get_foldl_set k (items : list (string * string)) (acc : t) :
  get k (foldl (fun d kv => set kv.1 kv.2 d) acc items)
  = match last_value k items with
    | Some v => Some v
    | None => get k acc
    end.
Proof.
  revert acc. induction items as [|[k' v'] items IH]; intros acc; simpl; [done|].
  rewrite IH, get_set.
  destruct (last_value k items); [done|]. by destruct (decide (k' = k)).
Qed.

Lemma filter_all {A} (P : A -> Prop) `{forall x, Decision (P x)} (l : list A) :
  (forall x, x ∈ l -> P x) -> filter P l = l.
Proof.
  induction l as [|x l IH]; intros HP; [done|].
  rewrite filter_cons_True by (apply HP; set_solver).
  f_equal. apply IH. intros y Hy. apply HP. set_solver.
Qed.

(** C9's supporting facts: the keys of a comprehension, its values, and the
    case of distinct keys. *)
Lemma keys_of_items items : keys (of_items items) = first_occurrences (map fst items).
Proof.
  unfold of_items. rewrite keys_foldl_set. simpl.
  apply filter_all. intros y _. set_solver.
Qed.

Lemma get_of_items k items : get k (of_items items) = last_value k items.
Proof.
  unfold of_items. rewrite get_foldl_set. by destruct (last_value k items).
Qed.

Lemma foldl_set_distinct (items : list (string * string)) (acc : t) :
  NoDup (keys acc ++ map fst items) ->
  foldl (fun d kv => set kv.1 kv.2 d) acc items = acc ++ items.
Proof.
  revert acc. induction items as [|[k v] items IH]; intros acc Hnd; simpl.
  - by rewrite app_nil_r.
  - simpl in Hnd. apply NoDup_app in Hnd as (Hacc & Hdisj & Hitems).
    apply NoDup_cons in Hitems as [Hk Hitems].
    rewrite set_fresh by (intros Hin; apply (Hdisj _ Hin); set_solver).
    rewrite IH.
    + by rewrite <- app_assoc.
    + unfold keys. rewrite map_app. simpl. rewrite <- app_assoc. simpl.
      apply NoDup_app. split; [done|]. split.
      * intros x Hx. apply Hdisj in Hx. done.
      * by apply NoDup_cons.
Qed.

Lemma of_items_distinct items : NoDup (map fst items) -> of_items items = items.
Proof. intros Hnd. unfold of_items. by rewrite foldl_set_distinct. Qed.

Lemma NoDup_first_occurrences l : NoDup (first_occurrences l).
Proof.
  induction l as [|x l IH]; simpl; [constructor|].
  apply NoDup_cons. split.
  - rewrite list_elem_of_filter. tauto.
  - by apply NoDup_filter.
Qed.

Lemma NoDup_keys_of_items items : NoDup (keys (of_items items)).
Proof. rewrite keys_of_items. apply NoDup_first_occurrences. Qed.

(** A comprehension over the items of a dictionary that only drops items is
    a filter. *)
Lemma of_items_filter (P : string * string -> bool) (d : t) :
  NoDup (keys d) -> of_items (filter P d) = filter P d.
Proof.
  intros Hnd. apply of_items_distinct.
  apply (sublist_NoDup _ (keys d)); [exact Hnd|].
  unfold keys. apply fmap_sublist, sublist_filter.
Qed.

End PyDictFacts.

(** ** The companion page of a word form *)

Module CompanionFacts.
Import WordForm WordFormFacts ConstructorFacts ArchiveFacts.
Export CompanionNotions.

Lemma lookups_app l1 l2 : lookups (l1 ++ l2) = lookups l1 ++ lookups l2.
Proof. unfold lookups. apply filter_app. Qed.

Lemma traversals_app l1 l2 : traversals (l1 ++ l2) = traversals l1 ++ traversals l2.
Proof. unfold traversals. apply filter_app. Qed.

Lemma no_lookups_wortart_tpls (self : t) : no_lookups (log_of (wortart_tpls self)).
Proof.
  rewrite run_wortart_tpls. destruct (_wortart_tpls self); [done|]. simpl.
  destruct (wortart_templates self); [|done].
  by destruct (Mw.filter_headings _).
Qed.

Lemma no_lookups_pos (self : t) : no_lookups (log_of (pos self)).
Proof.
  rewrite run_wordform_pos. destruct (_pos self); [done|]. simpl.
  pose proof (no_lookups_wortart_tpls self) as Hw.
  destruct (value_of (wortart_tpls self)); [|done].
  destruct (omap pos_of_template a); [|done].
  unfold no_lookups in *.
  destruct (Mw.filter_headings _); simpl; by rewrite lookups_app, Hw.
Qed.

(** What [pos] returned is memoized: reading it again costs nothing. *)
Lemma pos_memoized (self self' : t) p l :
  pos self = (Ok p, self', l) -> _pos self' = Some p.
Proof.
  rewrite run_wordform_pos. destruct (_pos self) eqn:Hp; [by intros [= <- <- <-]|]. simpl.
  destruct (value_of (wortart_tpls self)); [|done].
  destruct (omap pos_of_template a) eqn:Ho.
  - destruct (Mw.filter_headings _); [done|]. by intros [= <- <- <-].
  - by intros [= <- <- <-].
Qed.

Lemma pos_again (self self' : t) p l :
  pos self = (Ok p, self', l) -> pos self' = (Ok p, self', []).
Proof. intros Hp. rewrite run_wordform_pos. by rewrite (pos_memoized _ _ _ _ Hp). Qed.

(** [pos] leaves the reference to the entry, and the two attributes of the
    companion page, as they are. *)
Lemma wortart_tpls_frame (self : t) :
  let s' := state_of (wortart_tpls self) in
  entry s' = entry self /\ attr__flexionseite s' = attr__flexionseite self
  /\ _WordForm__flexionseite s' = _WordForm__flexionseite self
  /\ wordform s' = wordform self.
Proof.
  rewrite run_wortart_tpls. destruct (_wortart_tpls self); [done|]. simpl.
  destruct (wortart_templates self); [|done].
  by destruct (Mw.filter_headings _).
Qed.

Lemma pos_frame (self : t) :
  let s' := state_of (pos self) in
  entry s' = entry self /\ attr__flexionseite s' = attr__flexionseite self
  /\ _WordForm__flexionseite s' = _WordForm__flexionseite self.
Proof.
  rewrite run_wordform_pos. destruct (_pos self); [done|]. simpl.
  destruct (wortart_tpls_frame self) as (He & Ha & Hm & Hw).
  destruct (value_of (wortart_tpls self)); [|done].
  destruct (omap pos_of_template a); [|done].
  by destruct (Mw.filter_headings _).
Qed.

Lemma lookups_init_log title status : lookups (init_log title status) = [].
Proof. unfold init_log. by destruct (PyStr.ne status "OK"). Qed.

Lemma lookups_flexion_init `{Mw.Parser} {S} title wikitext status ef (s : S) :
  lookups (log_of (EntryFlexion.__init__ title wikitext status ef s)) = [].
Proof.
  rewrite run_EntryFlexion_init. unfold log_of at 1. simpl.
  rewrite lookups_app, lookups_init_log, EntryBaseFacts.run_get_section_de. simpl.
  destruct (EntryBaseNotions.german_sections _) as [|x [|y l]]; reflexivity.
Qed.

Lemma lookups_get_wikidict c dict_path w :
  lookups (log_of (EntryBase.get_wikidict c dict_path w)) = [].
Proof.
  rewrite LoadFacts.run_get_wikidict.
  destruct (class_WIKIDICT w c); [done|]. cbv zeta.
  destruct (LoadNotions.wikidict_file c dict_path w); [destruct (pickles w !! _)|];
    apply LoadFacts.lookups_lookup_log.
Qed.

Lemma lookups_resolve `{Mw.Parser} (e : EntryRef) (w : World) :
  lookups (log_of (resolve e w)) = [resolution_event e].
Proof.
  unfold resolve, resolution_event. case_bool_decide.
  - unfold EntryBase.from_export, bind, tell, PageExport, log_of. simpl.
    destruct (export w _) as [[wikitext ns]|err]; [|done].
    destruct (PyStr.eq_value wikitext ""); [|destruct (PyStr.ne_value ns "108")].
    all: match goal with
         | |- context [EntryFlexion.__init__ ?a ?b ?c ?d ?s] =>
             pose proof (lookups_flexion_init a b c d s) as Hl;
             destruct (EntryFlexion.__init__ a b c d s) as [[r s'] l']
         end; unfold log_of, lookups in *; simpl in *;
             rewrite filter_cons_True by done; by rewrite Hl.
  - rewrite (run_from_dump (T:=EntryFlexion.t)). simpl.
    pose proof (lookups_get_wikidict C_EntryFlexion None w) as Hg.
    destruct (value_of (EntryBase.get_wikidict C_EntryFlexion None w)).
    + unfold log_of at 1. simpl.
      change (lookups (?x :: ?l)) with (lookups ([x] ++ l)).
      by rewrite !lookups_app, Hg, lookups_flexion_init.
    + unfold log_of at 1. simpl.
      change (lookups (?x :: ?l)) with (lookups ([x] ++ l)).
      by rewrite lookups_app, Hg.
Qed.

Lemma run_any_verb_adjektiv (self self' : t) (w : World) p l :
  pos self = (Ok p, self', l) ->
  any_verb_adjektiv (self, w)
  = (Ok (bool_decide ("Verb" ∈ p) || bool_decide ("Adjektiv" ∈ p)), (self', w), l).
Proof.
  intros Hp. unfold any_verb_adjektiv, bind, on_self, zoom. simpl. rewrite Hp.
  case_bool_decide; simpl; [by rewrite app_nil_r|].
  rewrite (pos_again _ _ _ _ Hp). simpl. by rewrite app_nil_r.
Qed.

Lemma run_flexionseite_ok `{Mw.Parser} (self self' : t) (w : World) p l :
  attr__flexionseite self = None ->
  status self = "OK" ->
  pos self = (Ok p, self', l) ->
  _flexionseite (self, w) =
  if bool_decide ("Verb" ∈ p) || bool_decide ("Adjektiv" ∈ p) then
    match entry self with
    | None => (Raise AttributeError, (self', w), l)
    | Some e =>
        let r := resolve e w in
        match value_of r with
        | Ok f => (Ok (Some f), (set__WordForm__flexionseite (Some f) self', state_of r),
                   l ++ log_of r)
        | Raise err => (Raise err, (self', state_of r), l ++ log_of r)
        end
    end
  else (Ok None, (set__WordForm__flexionseite None self', w), l).
Proof.
  intros Hattr Hst Hp.
  pose proof (pos_frame self) as (He & _ & _). rewrite Hp in He.
  unfold state_of in He. simpl in He.
  unfold _flexionseite. unfold bind at 1. unfold get at 1. simpl.
  rewrite Hattr, (proj2 (ne_false _ _) Hst).
  unfold bind at 1. rewrite (run_any_verb_adjektiv _ _ _ _ _ Hp).
  destruct (_ || _); simpl.
  - unfold bind at 1. unfold get at 1. simpl. rewrite He.
    destruct (entry self) as [e|]; [|unfold raise; by rewrite app_nil_r].
    unfold bind, on_world, zoom, assign__flexionseite, return__flexionseite,
      get, put, ret. simpl. fold (resolve e).
    unfold value_of, state_of, log_of.
    destruct (resolve e w) as [[[f|err] w'] l']; simpl; [|done].
    by rewrite !app_nil_r.
  - unfold bind, assign__flexionseite, return__flexionseite, get, put, ret. simpl.
    by rewrite !app_nil_r.
Qed.

End CompanionFacts.

(** ** Sections without subsections *)

Module MwFacts.
Import Mw.
Export MwNotions.

Lemma section_body_no_heading flat lvl (w : Wikicode) :
  no_heading w -> section_body flat lvl w = w.
Proof.
  induction w as [|n w IH]; intros Hw; [done|].
  assert (Hn : as_heading n = None) by (apply Hw; set_solver).
  assert (Hrest : no_heading w) by (intros x Hx; apply Hw; set_solver).
  destruct n; simpl in *; try done; by rewrite IH.
Qed.

Lemma sections_from_no_heading levels matches flat ih (w : Wikicode) :
  no_heading w -> sections_from levels matches flat ih w = [].
Proof.
  induction w as [|n w IH]; intros Hw; [done|].
  assert (Hn : as_heading n = None) by (apply Hw; set_solver).
  assert (Hrest : no_heading w) by (intros x Hx; apply Hw; set_solver).
  destruct n; simpl in *; try done; by apply IH.
Qed.

Lemma filter_no_heading (w : Wikicode) :
  no_heading w -> filter (fun n => as_heading n = None) w = w.
Proof. intros Hw. apply PyDictFacts.filter_all. exact Hw. Qed.

End MwFacts.

(** ** Patterns *)

Module ReFacts.
Import Re.
Export ReNotions.

Lemma str_app_cons (x : ascii) (a b : string) : String x a +:+ b = String x (a +:+ b).
Proof. reflexivity. Qed.

Lemma str_app_nil_l (b : string) : "" +:+ b = b.
Proof. reflexivity. Qed.

Lemma str_app_assoc (a b c : string) : (a +:+ b) +:+ c = a +:+ b +:+ c.
Proof. induction a as [|x a IH]; [done|]. by rewrite !str_app_cons, IH. Qed.

Lemma str_app_nil_r (a : string) : a +:+ "" = a.
Proof. induction a as [|x a IH]; [done|]. by rewrite str_app_cons, IH. Qed.

Lemma lits_app (a b : string) : lits (a +:+ b) = lits a ++ lits b.
Proof. induction a as [|x a IH]; [done|]. rewrite str_app_cons. simpl. by rewrite IH. Qed.

Lemma eat_Some (p s s' : string) : eat p s = Some s' <-> s = p +:+ s'.
Proof.
  revert s. induction p as [|c p IH]; intros s; simpl.
  - rewrite str_app_nil_l. split; [by intros [= ->]|by intros ->].
  - rewrite str_app_cons. destruct s as [|d s]; [split; intros; discriminate|].
    destruct (Ascii.eqb_spec c d) as [->|Hne].
    + rewrite IH. split; [by intros ->|by intros [= ->]].
    + split; [discriminate|]. intros [= Hcd _]. by destruct Hne.
Qed.

(** *** Reading a plain name *)

Lemma step_plain (st : pstate) (c : ascii) :
  is_meta c = false -> st_mode st <> Escaped ->
  step st c = Some (push (Atom (Lit c)) st).
Proof.
  intros Hc Hm. unfold step.
  assert (Hnot : forall x, x ∈ [ "."; "^"; "$"; "*"; "+"; "?"; "{"; "}"; "["; "]";
                     "\"; "|"; "("; ")" ]%char -> Ascii.eqb c x = false).
  { intros x Hx. apply Ascii.eqb_neq. intros ->.
    unfold is_meta in Hc. by apply bool_decide_eq_false in Hc. }
  rewrite !Hnot by set_solver. rewrite Hc.
  by destruct (st_mode st).
Qed.

Lemma run_plain (name : string) (st : pstate) :
  plain name -> st_mode st <> Escaped ->
  run st name = Some (push_lits name st).
Proof.
  unfold plain, push_lits. revert st.
  induction name as [|c name IH]; intros st Hp Hm; simpl; [done|].
  simpl in Hp. apply andb_true_iff in Hp as [Hc Hp]. apply negb_true_iff in Hc.
  rewrite step_plain by done. simpl. apply IH; [done|]. simpl. discriminate.
Qed.

Lemma run_app (a b : string) (st : pstate) :
  run st (a +:+ b) = st' ← run st a; run st' b.
Proof.
  revert st. induction a as [|c a IH]; intros st; [done|].
  rewrite str_app_cons. simpl.
  destruct (step st c) as [st'|]; simpl; [apply IH|done].
Qed.

Lemma push_lits_shape (name : string) (st : pstate) :
  name <> "" ->
  push_lits name st
  = {| st_top := {| f_alts := f_alts (st_top st);
                    f_cur := rev (lits name) ++ f_cur (st_top st);
                    f_group := f_group (st_top st) |};
       st_outer := st_outer st; st_next := st_next st; st_mode := Normal |}.
Proof.
  unfold push_lits. revert st.
  induction name as [|c name IH]; intros st Hne; [by destruct Hne|]. simpl.
  destruct name as [|d name].
  - simpl. reflexivity.
  - rewrite IH by done. unfold push. simpl. by rewrite <- !app_assoc.
Qed.

Lemma compile_label (name : string) :
  plain name ->
  compile ("\n\n\{\{" +:+ name +:+ "\}\}\n(.+?)\n\n") = Some (label_regex name).
Proof.
  intros Hp. unfold compile. rewrite !run_app.
  change (run st0 "\n\n\{\{") with
    (Some {| st_top := {| f_alts := []; f_cur := rev (lits (PyStr.nl +:+ PyStr.nl +:+ "{{"));
                          f_group := 0 |};
             st_outer := []; st_next := 1; st_mode := Normal |}).
  simpl. rewrite run_app, (run_plain name); [|done|simpl; discriminate]. simpl.
  destruct (decide (name = "")) as [->|Hne].
  - reflexivity.
  - rewrite push_lits_shape by done. simpl.
    unfold close_frame. simpl. unfold label_regex, label_prefix.
    rewrite !rev_app_distr, rev_involutive. simpl.
    rewrite !lits_app. simpl. rewrite <- !app_assoc. simpl.
    reflexivity.
Qed.

(** *** Matching a literal text, a lazy run and a search *)

Lemma match_lits {R} (fl : flags) (p : string) (rest : list regex) (s : string)
    (cap : option string) (k : string -> option string -> option R) :
  IGNORECASE fl = false ->
  match_here fl (seq_of (lits p ++ rest)) s cap k
  = match eat p s with
    | Some s' => match_here fl (seq_of rest) s' cap k
    | None => None
    end.
Proof.
  intros Hfl. revert s. induction p as [|c p IH]; intros s; [done|].
  simpl. destruct s as [|d s]; [done|]. rewrite Hfl.
  destruct (Ascii.eqb c d); [apply IH|done].
Qed.

(** [.+?] under [DOTALL]: the continuation is tried on every proper suffix,
    nearest first. *)
Lemma lazy_dot_is_Some {R} (fl : flags) (s : string) (k : string -> option R) :
  DOTALL fl = true ->
  is_Some (plus_loop fl false Dot s k)
  <-> exists content rest, s = content +:+ rest /\ content <> "" /\ is_Some (k rest).
Proof.
  intros Hfl. induction s as [|c s IH]; simpl.
  - split; [by intros [? ?]|]. intros (content & rest & Hs & Hne & _).
    destruct content; [done|]. discriminate Hs.
  - rewrite Hfl. simpl. destruct (k s) as [x|] eqn:Hk.
    + split; [|by eauto]. intros _. exists (String c ""), s.
      split; [done|]. split; [done|]. by rewrite Hk.
    + rewrite IH. split.
      * intros (content & rest & -> & Hne & Hr).
        exists (String c content), rest. by rewrite str_app_cons.
      * intros (content & rest & Hs & Hne & Hr).
        destruct content as [|d content]; [done|].
        rewrite str_app_cons in Hs. injection Hs as -> ->.
        destruct content as [|e content].
        { rewrite str_app_nil_l in Hk. rewrite Hk in Hr. by destruct Hr. }
        exists (String e content), rest. by rewrite str_app_cons.
Qed.

Lemma plus_loop_post {R} (Q : R -> Prop) (fl : flags) g a (s : string)
    (k : string -> option R) :
  (forall s' x, k s' = Some x -> Q x) ->
  forall x, plus_loop fl g a s k = Some x -> Q x.
Proof.
  intros Hk. induction s as [|c s IH]; intros x; simpl; [done|].
  destruct (cset_match fl a c); [|done]. destruct g.
  - destruct (plus_loop fl true a s k) eqn:Hp; [intros [= <-]; by apply IH|].
    apply Hk.
  - destruct (k s) eqn:Hks; [intros [= <-]; by eapply Hk|]. apply IH.
Qed.

Lemma plus_loop_ext {R} (fl : flags) g a (s : string) (k k' : string -> option R) :
  (forall s', k s' = k' s') -> plus_loop fl g a s k = plus_loop fl g a s k'.
Proof.
  intros Hk. induction s as [|c s IH]; simpl; [done|].
  by rewrite IH, Hk.
Qed.

Lemma match_label (fl : flags) (name tail : string) :
  IGNORECASE fl = false ->
  match_here fl (label_regex name) tail None (fun s' cap => Some (s', cap))
  = match eat (label_prefix name) tail with
    | Some s => plus_loop fl false Dot s (after_label s)
    | None => None
    end.
Proof.
  intros Hfl. unfold label_regex. rewrite match_lits by done.
  destruct (eat (label_prefix name) tail) as [s|]; [|done].
  change (plus_loop fl false Dot s
            (fun s' => match_here fl (seq_of (lits blank_line ++ [])) s'
                         (Some (PyStr.consumed s s')) (fun s'' cap => Some (s'', cap)))
          = plus_loop fl false Dot s (after_label s)).
  apply plus_loop_ext. intros s'. rewrite match_lits by done.
  unfold after_label. by destruct (eat blank_line s').
Qed.

(** [search_at] finds a match exactly when the pattern matches at the start
    of some suffix; the match it returns is one of those. *)
Lemma search_at_is_Some (fl : flags) (r : regex) (pos : nat) (s : string) :
  is_Some (search_at fl r pos s)
  <-> exists pre tail, s = pre +:+ tail
        /\ is_Some (match_here fl r tail None (fun s' cap => Some (s', cap))).
Proof.
  revert pos. induction s as [|c s IH]; intros pos; simpl.
  - destruct (match_here fl r "" None _) as [[rest cap]|] eqn:Hm.
    + split; [|by eauto]. intros _. exists "", "". by rewrite Hm.
    + split; [by intros [? ?]|]. intros (pre & tail & Hs & Ht).
      destruct pre; [|discriminate Hs]. rewrite str_app_nil_l in Hs. subst tail.
      rewrite Hm in Ht. by destruct Ht.
  - destruct (match_here fl r (String c s) None _) as [[rest cap]|] eqn:Hm.
    + split; [|by eauto]. intros _. exists "", (String c s). by rewrite Hm.
    + rewrite IH. split.
      * intros (pre & tail & -> & Ht). exists (String c pre), tail.
        by rewrite str_app_cons.
      * intros (pre & tail & Hs & Ht). destruct pre as [|d pre].
        { rewrite str_app_nil_l in Hs. subst tail. rewrite Hm in Ht. by destruct Ht. }
        rewrite str_app_cons in Hs. injection Hs as -> ->. eauto.
Qed.

Lemma search_at_group1 (fl : flags) (r : regex) (pos : nat) (s : string) (m : Match) :
  (forall tail rest cap,
      match_here fl r tail None (fun s' cap => Some (s', cap)) = Some (rest, cap) ->
      is_Some cap) ->
  search_at fl r pos s = Some m -> is_Some (group1 m).
Proof.
  intros Hcap. revert pos. induction s as [|c s IH]; intros pos; simpl.
  - destruct (match_here fl r "" None _) as [[rest cap]|] eqn:Hm; [|done].
    intros [= <-]. simpl. by eapply Hcap.
  - destruct (match_here fl r (String c s) None _) as [[rest cap]|] eqn:Hm.
    + intros [= <-]. simpl. by eapply Hcap.
    + apply IH.
Qed.

Lemma search_label_is_Some (fl : flags) (name text : string) :
  IGNORECASE fl = false -> DOTALL fl = true ->
  is_Some (search_re fl (label_regex name) text) <-> labelled name text.
Proof.
  intros Hi Hd. unfold search_re, labelled. rewrite search_at_is_Some.
  split.
  - intros (pre & tail & -> & Hm). rewrite match_label in Hm by done.
    destruct (eat (label_prefix name) tail) as [s|] eqn:He; [|by destruct Hm].
    apply eat_Some in He as ->.
    apply lazy_dot_is_Some in Hm as (content & rest & -> & Hne & Hr); [|done].
    unfold after_label in Hr.
    destruct (eat blank_line rest) as [post|] eqn:Hb; [|by destruct Hr].
    apply eat_Some in Hb as ->. by exists pre, content, post.
  - intros (pre & content & post & -> & Hne).
    exists pre, (label_prefix name +:+ content +:+ blank_line +:+ post).
    split; [done|]. rewrite match_label by done.
    rewrite (proj2 (eat_Some _ _ (content +:+ blank_line +:+ post))) by done.
    apply lazy_dot_is_Some; [done|]. exists content, (blank_line +:+ post).
    split; [done|]. split; [done|]. unfold after_label.
    by rewrite (proj2 (eat_Some _ _ post)).
Qed.

Lemma search_label_group1 (fl : flags) (name text : string) (m : Match) :
  IGNORECASE fl = false ->
  search_re fl (label_regex name) text = Some m -> is_Some (group1 m).
Proof.
  intros Hi. apply search_at_group1. intros tail rest cap.
  rewrite match_label by done.
  destruct (eat (label_prefix name) tail) as [s|]; [|done].
  intros Hp.
  assert (Hk : forall s' (x : string * option string),
             after_label s s' = Some x -> is_Some x.2).
  { intros s' x. unfold after_label. destruct (eat blank_line s'); [|done].
    intros [= <-]. by eexists. }
  exact (plus_loop_post (fun x : string * option string => is_Some x.2)
           fl false Dot s (after_label s) Hk (rest, cap) Hp).
Qed.

(** *** A literal pattern searched with the library's flags *)

Lemma eat_fold_Some (p s s' : string) :
  eat_fold p s = Some s' <-> exists mid, s = mid +:+ s' /\ lower mid = lower p.
Proof.
  revert s. induction p as [|c p IH]; intros s; simpl.
  - split.
    + intros [= ->]. by exists "".
    + intros (mid & -> & Hl). destruct mid; [done|discriminate Hl].
  - destruct s as [|d s].
    { split; [discriminate|]. intros (mid & Hs & Hl).
      destruct mid; [discriminate Hl|discriminate Hs]. }
    destruct (Ascii.eqb_spec (PyStr.lower_char c) (PyStr.lower_char d)) as [Heq|Hne].
    + rewrite IH. split.
      * intros (mid & -> & Hl). exists (String d mid). split; [done|].
        simpl. by rewrite Heq, Hl.
      * intros (mid & Hs & Hl). destruct mid as [|e mid]; [discriminate Hl|].
        rewrite str_app_cons in Hs. injection Hs as -> ->.
        simpl in Hl. injection Hl as _ Hl. by exists mid.
    + split; [discriminate|]. intros (mid & Hs & Hl).
      destruct mid as [|e mid]; [discriminate Hl|].
      rewrite str_app_cons in Hs. injection Hs as -> ->.
      simpl in Hl. injection Hl as Hc _. by destruct Hne.
Qed.

Lemma match_lits_fold {R} (fl : flags) (p : string) (rest : list regex) (s : string)
    (cap : option string) (k : string -> option string -> option R) :
  IGNORECASE fl = true ->
  match_here fl (seq_of (lits p ++ rest)) s cap k
  = match eat_fold p s with
    | Some s' => match_here fl (seq_of rest) s' cap k
    | None => None
    end.
Proof.
  intros Hfl. revert s. induction p as [|c p IH]; intros s; [done|].
  simpl. destruct s as [|d s]; [done|]. rewrite Hfl.
  destruct (Ascii.eqb _ _); [apply IH|done].
Qed.

(** [matches=] with a literal pattern: the text holds the pattern, letter
    case apart. *)
Lemma matcher_literal (p s : string) :
  Mw.matcher (Some (seq_of (lits p))) s = true
  <-> exists pre mid post, s = pre +:+ mid +:+ post /\ lower mid = lower p.
Proof.
  unfold Mw.matcher. rewrite bool_decide_eq_true. unfold search_re.
  rewrite search_at_is_Some. split.
  - intros (pre & tail & -> & Hm).
    rewrite <- (app_nil_r (lits p)), match_lits_fold in Hm by done.
    destruct (eat_fold p tail) as [post|] eqn:He; [|by destruct Hm].
    apply eat_fold_Some in He as (mid & -> & Hl). by exists pre, mid, post.
  - intros (pre & mid & post & -> & Hl). exists pre, (mid +:+ post).
    split; [done|]. rewrite <- (app_nil_r (lits p)), match_lits_fold by done.
    rewrite (proj2 (eat_fold_Some p (mid +:+ post) post)) by eauto. by eexists.
Qed.

Lemma const_Deutsch : Re.const "\|Deutsch" = seq_of (lits "|Deutsch").
Proof. reflexivity. Qed.

Lemma const_Wortart : Re.const "Wortart" = seq_of (lits "Wortart").
Proof. reflexivity. Qed.

Lemma const_Uebersicht :
  Re.const WordForm.uebersicht_pattern = seq_of (lits WordForm.uebersicht_pattern).
Proof. reflexivity. Qed.

(** *** The alternation of [EntryFlexion.pos] *)

Lemma const_pos_pattern :
  Re.const EntryFlexion.pos_pattern
  = Seq (Group 1 (alt_of (map (fun tok => seq_of (lits tok)) POS_TOKENS))) Eps.
Proof. reflexivity. Qed.

Lemma match_alt_lits {R} (fl : flags) (toks : list string) (tail : string)
    (cap : option string) (k : string -> option string -> option R) :
  IGNORECASE fl = false -> toks <> [] ->
  (forall s' cap', is_Some (k s' cap')) ->
  match_here fl (alt_of (map (fun tok => seq_of (lits tok)) toks)) tail cap k
  = match first_token toks tail with
    | Some (_, rest) => k rest cap
    | None => None
    end.
Proof.
  intros Hfl Hne Hk. induction toks as [|tok toks IH]; [done|].
  assert (Hone : match_here fl (seq_of (lits tok)) tail cap k
                 = match eat tok tail with Some rest => k rest cap | None => None end).
  { rewrite <- (app_nil_r (lits tok)), match_lits by done.
    by destruct (eat tok tail). }
  destruct toks as [|tok' toks].
  - simpl. rewrite Hone. by destruct (eat tok tail).
  - change (match_here fl (Alt (seq_of (lits tok))
                             (alt_of (map (fun tok => seq_of (lits tok)) (tok' :: toks))))
              tail cap k = match first_token (tok :: tok' :: toks) tail with
                           | Some (_, rest) => k rest cap
                           | None => None
                           end).
    change (match_here fl (Alt ?r1 ?r2) tail cap k)
      with (match match_here fl r1 tail cap k with
            | Some x => Some x
            | None => match_here fl r2 tail cap k
            end).
    rewrite Hone, IH by done. simpl.
    destruct (eat tok tail) as [rest|]; [|done].
    by destruct (Hk rest cap) as [x ->].
Qed.

Lemma str_length_app (a b : string) :
  String.length (a +:+ b) = String.length a + String.length b.
Proof. induction a as [|c a IH]; [done|]. rewrite str_app_cons. simpl. by rewrite IH. Qed.

Lemma consumed_app (a b : string) : PyStr.consumed (a +:+ b) b = a.
Proof.
  unfold PyStr.consumed. rewrite str_length_app.
  replace (String.length a + String.length b - String.length b)
    with (String.length a) by lia.
  induction a as [|c a IH].
  - by destruct b.
  - rewrite str_app_cons. simpl. by rewrite IH.
Qed.

Lemma first_token_Some toks tail tok rest :
  first_token toks tail = Some (tok, rest) -> tok ∈ toks /\ tail = tok +:+ rest.
Proof.
  induction toks as [|t toks IH]; simpl; [done|].
  destruct (eat t tail) as [r|] eqn:He.
  - intros [= <- <-]. apply eat_Some in He. split; [set_solver|done].
  - intros Hf. destruct (IH Hf). split; [set_solver|done].
Qed.

Lemma first_token_None toks tail :
  first_token toks tail = None <-> forall tok, tok ∈ toks -> eat tok tail = None.
Proof.
  induction toks as [|t toks IH]; simpl.
  - split; [set_solver|done].
  - destruct (eat t tail) as [r|] eqn:He.
    + split; [done|]. intros Ht. specialize (Ht t). rewrite He in Ht.
      discriminate Ht. set_solver.
    + rewrite IH. split.
      * intros Ht tok Hin. apply elem_of_cons in Hin as [->|Hin]; [done|by apply Ht].
      * intros Ht tok Hin. apply Ht. set_solver.
Qed.

(** [sub in s], spelled out. *)
Lemma startswith_eat (p s : string) : PyStr.startswith p s = true <-> is_Some (eat p s).
Proof.
  revert s. induction p as [|c p IH]; intros s; simpl; [by split; eauto|].
  destruct s as [|d s]; [split; [done|by intros [? ?]]|].
  destruct (Ascii.eqb c d); [apply IH|split; [done|by intros [? ?]]].
Qed.

Lemma contains_spec (sub s : string) :
  PyStr.contains sub s = true <-> exists pre post, s = pre +:+ sub +:+ post.
Proof.
  induction s as [|c s IH]; simpl.
  - rewrite orb_false_r, startswith_eat. split.
    + intros [post He]. apply eat_Some in He. by exists "", post.
    + intros (pre & post & Hs). destruct pre; [|discriminate Hs].
      rewrite str_app_nil_l in Hs. exists post. by apply eat_Some.
  - rewrite orb_true_iff, startswith_eat, IH. split.
    + intros [[post He]|(pre & post & ->)].
      * apply eat_Some in He. by exists "", post.
      * by exists (String c pre), post.
    + intros (pre & post & Hs). destruct pre as [|d pre].
      * left. exists post. apply eat_Some. by rewrite Hs.
      * right. rewrite str_app_cons in Hs. injection Hs as -> ->. eauto.
Qed.

Lemma match_pos_regex (tail : string) :
  match_here F_NONE pos_regex tail None (fun s' cap => Some (s', cap))
  = match first_token POS_TOKENS tail with
    | Some (tok, rest) => Some (rest, Some tok)
    | None => None
    end.
Proof.
  unfold pos_regex.
  change (match_here F_NONE (Seq (Group 1 ?r) Eps) ?t None ?k)
    with (match_here F_NONE r t None
            (fun s' _ => Some (s', Some (PyStr.consumed t s')))).
  rewrite match_alt_lits by (try done; intros; by eexists).
  destruct (first_token POS_TOKENS tail) as [[tok rest]|] eqn:Hf; [|done].
  apply first_token_Some in Hf as [_ ->]. by rewrite consumed_app.
Qed.

Lemma search_pos_Some (pos : nat) (s : string) (m : Match) :
  search_at F_NONE pos_regex pos s = Some m ->
  exists tok, group1 m = Some tok /\ tok ∈ POS_TOKENS /\ PyStr.contains tok s = true.
Proof.
  revert pos. induction s as [|c s IH]; intros pos.
  - unfold search_at. rewrite match_pos_regex.
    destruct (first_token POS_TOKENS "") as [[tok rest]|] eqn:Hf; [|done].
    apply first_token_Some in Hf as [Hin Hs]. intros [= <-]. exists tok.
    split; [done|]. split; [done|]. apply contains_spec. by exists "", rest.
  - unfold search_at. fold search_at. rewrite match_pos_regex.
    destruct (first_token POS_TOKENS (String c s)) as [[tok rest]|] eqn:Hf.
    + apply first_token_Some in Hf as [Hin Hs]. intros [= <-]. exists tok.
      split; [done|]. split; [done|]. apply contains_spec. by exists "", rest.
    + intros Hm. destruct (IH _ Hm) as (tok & Hg & Hin & Hc). exists tok.
      split; [done|]. split; [done|]. simpl. rewrite Hc. apply orb_true_r.
Qed.

Lemma eat_None_startswith (tok t : string) :
  eat tok t = None <-> PyStr.startswith tok t = false.
Proof.
  rewrite <- not_true_iff_false, startswith_eat.
  destruct (eat tok t); split; try done;
    first [ intros Hn; destruct Hn; by eexists | by intros _ [? ?] ].
Qed.

Lemma search_pos_None (pos : nat) (s : string) :
  search_at F_NONE pos_regex pos s = None
  <-> forall tok, tok ∈ POS_TOKENS -> PyStr.contains tok s = false.
Proof.
  revert pos. induction s as [|c s IH]; intros pos.
  - unfold search_at. rewrite match_pos_regex.
    destruct (first_token POS_TOKENS "") as [[t rest]|] eqn:Hf.
    + split; [done|]. intros Hno. apply first_token_Some in Hf as [Hin Hs].
      specialize (Hno t Hin). simpl in Hno. rewrite orb_false_r in Hno.
      apply eat_None_startswith in Hno.
      rewrite Hs, (proj2 (eat_Some _ _ rest)) in Hno; done.
    + split; [|done]. intros _ tok Hin. simpl. rewrite orb_false_r.
      apply eat_None_startswith. by apply (proj1 (first_token_None _ _) Hf).
  - unfold search_at. fold search_at. rewrite match_pos_regex.
    destruct (first_token POS_TOKENS (String c s)) as [[t rest]|] eqn:Hf.
    + split; [done|]. intros Hno. apply first_token_Some in Hf as [Hin Hs].
      specialize (Hno t Hin). simpl in Hno. apply orb_false_iff in Hno as [Hno _].
      apply eat_None_startswith in Hno.
      rewrite Hs, (proj2 (eat_Some _ _ rest)) in Hno; done.
    + rewrite IH. split.
      * intros Hno tok Hin. simpl. apply orb_false_iff. split; [|by apply Hno].
        apply eat_None_startswith. by apply (proj1 (first_token_None _ _) Hf).
      * intros Hno tok Hin. specialize (Hno tok Hin). simpl in Hno.
        by apply orb_false_iff in Hno as [_ Hno].
Qed.

(** What [pos] keeps of a template: a token its name holds, or nothing when
    it holds none. *)
Lemma pos_of_template_Some (template : Mw.Template) (tok : string) :
  EntryFlexion.pos_of_template template = Some tok ->
  tok ∈ POS_TOKENS /\ PyStr.contains tok (Mw.str (Mw.name template)) = true.
Proof.
  unfold EntryFlexion.pos_of_template. rewrite const_pos_pattern. fold pos_regex.
  unfold search_re.
  destruct (search_at F_NONE pos_regex 0 _) as [m|] eqn:Hm; [|done].
  apply search_pos_Some in Hm as (tok' & Hg & Hin & Hc). simpl. rewrite Hg. simpl.
  by intros [= <-].
Qed.

Lemma pos_of_template_None (template : Mw.Template) :
  EntryFlexion.pos_of_template template = None
  <-> forall tok, tok ∈ POS_TOKENS ->
                  PyStr.contains tok (Mw.str (Mw.name template)) = false.
Proof.
  unfold EntryFlexion.pos_of_template. rewrite const_pos_pattern. fold pos_regex.
  unfold search_re. rewrite <- search_pos_None with (pos := 0).
  by destruct (search_at F_NONE pos_regex 0 _).
Qed.
End ReFacts.

(** * The claims *)

Section Claims.
Context `{Mw.Parser}.
Import EntryBaseFacts ConstructorFacts ArchiveFacts EntryFacts EntryFlexionFacts
  WordFormFacts StatusFacts PyDictFacts CompanionFacts MwFacts ReFacts.

(** C1.  [_get_section_de] looks at the level-2 sections whose title matches
    the German marker: there is one such section per top-level heading of
    level 2 whose title the pattern [\|Deutsch] is found in, in document
    order.  With exactly one, it is returned and the status is left as it
    was (so ['OK'] stays ['OK']); with none the result is [None] and the
    status is the "no section" diagnostic; with more than one the result is
    [None] and the status is the "more than one section" diagnostic.  The
    constructors of [Entry] and [EntryFlexion] store that result as [german]
    and that status. *)
Theorem C1_get_section_de (self : EntryBase.t) :
  let sections := german_sections self in
  let r := EntryBase._get_section_de self in
  map (take 1) sections
  = map (fun h => [h])
        (filter (passes [2] (Some (Re.const "\|Deutsch"))) (document self))
  /\ (forall n, passes [2] (Some (Re.const "\|Deutsch")) n = true
                <-> exists t pre mid post,
                      n = Mw.NHeading t 2
                      /\ Mw.str t = pre +:+ mid +:+ post
                      /\ lower mid = "|deutsch")
  /\ (forall s, sections = [s] ->
        value_of r = Ok (Some s)
        /\ EntryBase.status (state_of r) = EntryBase.status self)
  /\ (sections = [] ->
        value_of r = Ok None
        /\ EntryBase.status (state_of r)
           = "No German section found for " +:+ EntryBase.title self)
  /\ (1 < length sections ->
        value_of r = Ok None
        /\ EntryBase.status (state_of r)
           = "More than one German section found for " +:+ EntryBase.title self)
  /\ (forall (S : Type) (s0 : S) title wikitext status ef,
        self = fresh title wikitext status ef ->
        exists (e : Entry.t) (f : EntryFlexion.t),
          value_of (Entry.__init__ title wikitext status ef s0) = Ok e
          /\ value_of (EntryFlexion.__init__ title wikitext status ef s0) = Ok f
          /\ Ok (Entry.german e) = value_of r
          /\ Ok (EntryFlexion.german f) = value_of r
          /\ Entry.status e = EntryBase.status (state_of r)
          /\ EntryFlexion.status f = EntryBase.status (state_of r)).
Proof.
  intros sections r. subst r.
  split; [apply german_sections_heads|].
  split.
  { intros n. rewrite passes_level2, const_Deutsch. split.
    - intros (t & -> & Hm). apply matcher_literal in Hm as (pre & mid & post & Hs & Hl).
      by exists t, pre, mid, post.
    - intros (t & pre & mid & post & -> & Hs & Hl). exists t. split; [done|].
      apply matcher_literal. by exists pre, mid, post. }
  rewrite run_get_section_de. fold sections.
  repeat split.
  - by rewrite H0.
  - by rewrite H0.
  - by rewrite H0.
  - by rewrite H0.
  - destruct sections as [|x [|y l]]; simpl in *; [lia|lia|done].
  - destruct sections as [|x [|y l]]; simpl in *; [lia|lia|done].
  - intros S s0 ti te st ef ->.
    rewrite run_Entry_init, run_EntryFlexion_init, run_get_section_de.
    fold sections. destruct sections as [|x [|y l]]; simpl; eauto 10.
Qed.


(** C2.  What [Entry.from_dump] does for a title the archive mapping does
    not hold, whenever the empty text parses to the empty tree: no exception
    is raised and [wordforms] is empty, but the status the entry ends with
    is the "no German section" diagnostic.  [from_dump] passes the "no
    content" status to the constructor, which prints it and then looks for
    the German section in the empty text; [_get_section_de] has no check of
    the status and writes its own diagnostic over it. *)
Theorem C2_from_dump_missing_title (w : World) (d : wikidict)
    (title : string) (dict_path : option string) :
  Mw.parse "" = [] ->
  value_of (EntryBase.get_wikidict C_Entry dict_path w) = Ok d ->
  d !! title = None ->
  exists e : Entry.t,
    value_of (EntryBase.from_dump (T:=Entry.t) title dict_path w) = Ok e
    /\ Entry.status e = "No German section found for " +:+ title
    /\ Entry.status e <> "No content for " +:+ title +:+ " in dump file"
    /\ EvPrint ("Wiki search for " +:+ PyStr.dq +:+ title +:+ PyStr.dq +:+ " failed: "
                +:+ "No content for " +:+ title +:+ " in dump file")
       ∈ log_of (EntryBase.from_dump (T:=Entry.t) title dict_path w)
    /\ Entry.wordforms e = (Ok [], e, []).
Proof.
  intros Hparse Hd Hmiss.
  rewrite run_from_dump. simpl. rewrite Hd.
  destruct (dump_missing d title Hmiss) as [-> ->].
  rewrite run_Entry_init, run_get_section_de.
  unfold german_sections, document. simpl. rewrite Hparse.
  change (Mw.get_sections [] [2] _ false None true) with (@nil Mw.Wikicode).
  unfold value_of, state_of, log_of. simpl.
  eexists. split; [reflexivity|]. unfold Entry.status. simpl.
  split; [done|]. split.
  { intros Heq. apply (f_equal (String.get 3)) in Heq. discriminate Heq. }
  split.
  { unfold init_log. set_solver. }
  rewrite run_wordforms. reflexivity.
Qed.


(** C3, as amended.  On an [Entry] or an [EntryFlexion] whose status is not
    ['OK'], [wordforms], [pos], [flexion_tpls] and [inflections] touch
    neither the tree nor the object: they return the memoized value when an
    earlier call left one, and the empty list otherwise.  On a [WordForm]
    whose status is not ['OK'], [_flexionseite] returns [None] with no
    traversal and no lookup. *)
Theorem C3_failed_status_short_circuits (e : Entry.t) (f : EntryFlexion.t)
    (wf : WordForm.t) (w : World) :
  Entry.status e <> "OK" ->
  EntryFlexion.status f <> "OK" ->
  WordForm.status wf <> "OK" ->
  WordForm.attr__flexionseite wf = None ->
  Entry.wordforms e = (Ok (default [] (Entry._wordforms e)), e, [])
  /\ EntryFlexion.pos f = (Ok (default [] (EntryFlexion._pos f)), f, [])
  /\ EntryFlexion.flexion_tpls f
     = (Ok (default [] (EntryFlexion._flexion_tpls f)), f, [])
  /\ EntryFlexion.inflections f
     = (Ok (map Tools.template_to_dict (default [] (EntryFlexion._flexion_tpls f))), f, [])
  /\ value_of (WordForm._flexionseite (wf, w)) = Ok None
  /\ log_of (WordForm._flexionseite (wf, w)) = []
  /\ (state_of (WordForm._flexionseite (wf, w))).2 = w.
Proof.
  intros He Hf Hwf Hattr.
  apply ne_true in He, Hf.
  assert (Htpls : EntryFlexion.flexion_tpls f
                  = (Ok (default [] (EntryFlexion._flexion_tpls f)), f, [])).
  { rewrite run_flexion_tpls. destruct (EntryFlexion._flexion_tpls f); [done|].
    by rewrite Hf. }
  repeat split.
  - rewrite run_wordforms. destruct (Entry._wordforms e); [done|]. by rewrite He.
  - rewrite run_flexion_pos. destruct (EntryFlexion._pos f); [done|].
    by rewrite Hf.
  - exact Htpls.
  - unfold EntryFlexion.inflections, bind. by rewrite Htpls.
  - by rewrite run_flexionseite_failed.
  - by rewrite run_flexionseite_failed.
  - by rewrite run_flexionseite_failed.
Qed.

(** C4.  Once the status of an [Entry], an [EntryFlexion] or a [WordForm]
    is not ['OK'], no sequence of operations on the object makes it ['OK']
    again; and an object constructed with a status that is not ['OK'] does
    not come out of its constructor with ['OK']. *)
Theorem C4_status_never_back_to_OK :
  (forall (ops : list Ops.entry_op) (e : Entry.t),
      Entry.status e <> "OK" -> Entry.status (Ops.entry_run ops e) <> "OK")
  /\ (forall (ops : list Ops.flexion_op) (f : EntryFlexion.t),
        EntryFlexion.status f <> "OK" ->
        EntryFlexion.status (Ops.flexion_run ops f) <> "OK")
  /\ (forall (ops : list Ops.wordform_op) (wf : WordForm.t) (w : World),
        WordForm.status wf <> "OK" ->
        WordForm.status (Ops.wordform_run ops (wf, w)).1 <> "OK")
  /\ (forall title wikitext status ef,
        status <> "OK" ->
        (forall e, value_of (Entry.__init__ title wikitext status ef tt) = Ok e ->
                   Entry.status e <> "OK")
        /\ (forall f, value_of (EntryFlexion.__init__ title wikitext status ef tt) = Ok f ->
                      EntryFlexion.status f <> "OK")).
Proof.
  split; [|split; [|split]].
  - intros ops. induction ops as [|o ops IH]; intros e He; [done|].
    simpl. apply IH. destruct o; simpl.
    + by apply keeps_wordforms.
    + by apply (keeps_entry_base _ keeps_get_section_de).
    + by apply (keeps_entry_base _ keeps_parsed).
  - intros ops. induction ops as [|o ops IH]; intros f Hf; [done|].
    simpl. apply IH. destruct o; simpl.
    + by apply keeps_flexion_pos.
    + by apply keeps_flexion_tpls.
    + by apply keeps_flexion_inflections.
    + by apply (keeps_flexion_base _ keeps_get_section_de).
    + by apply (keeps_flexion_base _ keeps_parsed).
  - intros ops. induction ops as [|o ops IH]; intros wf w Hwf; [done|].
    simpl. destruct (Ops.wordform_step o (wf, w)) as [wf1 w1] eqn:Hstep.
    apply IH. change (wordform_failed_in (wf1, w1)). rewrite <- Hstep.
    destruct o; simpl.
    + by apply (keeps_on_self _ keeps_heading (wf, w)).
    + by apply (keeps_on_self _ keeps_wortart_tpls (wf, w)).
    + by apply (keeps_on_self _ keeps_wordform_pos (wf, w)).
    + by apply (keeps_on_self _ keeps_übersichten_tpls (wf, w)).
    + by apply (keeps_on_self _ (keeps_wordform_inflections all) (wf, w)).
    + by apply (keeps_flexionseite (wf, w)).
    + by apply (keeps_inflections_extended (wf, w)).
    + done.
  - intros title wikitext status ef Hst. split.
    + intros e. rewrite run_Entry_init. simpl.
      pose proof (keeps_get_section_de (fresh title wikitext status ef) Hst) as Hk.
      destruct (value_of (EntryBase._get_section_de _)); unfold value_of; simpl;
        [|done]. intros [= <-]. exact Hk.
    + intros f. rewrite run_EntryFlexion_init. simpl.
      pose proof (keeps_get_section_de (fresh title wikitext status ef) Hst) as Hk.
      destruct (value_of (EntryBase._get_section_de _)); unfold value_of; simpl;
        [|done]. intros [= <-]. exact Hk.
Qed.


(** X21.  What [EntryFlexion.pos] returns and leaves, as the code runs.
    On a page with status ['OK'] and nothing memoized, [pos] returns, for
    the templates that [flexion_tpls] collects, the token kept of each
    template that has one, in the order collected; the list is memoized and
    returned in every case.  With no token the status becomes
    ['No POS found for {title}'], with more than one (equal or not)
    ['Multiple POS found for {title}'].  A token kept is one of the five and
    occurs in the name of its template, and no token is kept exactly when
    none of the five occurs in the name.  On a language section without a
    subheading the templates collected are the template nodes of its body,
    headings left out, in document order. *)
Theorem flexion_pos_scan (f : EntryFlexion.t) (g : Mw.Wikicode) :
  EntryFlexion.status f = "OK" ->
  EntryFlexion._pos f = None ->
  EntryFlexion._flexion_tpls f = None ->
  EntryFlexion.german f = Some g ->
  let r := EntryFlexion.pos f in
  let p := omap EntryFlexion.pos_of_template (scanned_templates g) in
  value_of r = Ok p
  /\ EntryFlexion._pos (state_of r) = Some p
  /\ (p = [] ->
      EntryFlexion.status (state_of r) = "No POS found for " +:+ EntryFlexion.title f)
  /\ (1 < length p ->
      EntryFlexion.status (state_of r)
      = "Multiple POS found for " +:+ EntryFlexion.title f)
  /\ (forall t l body,
        g = Mw.NHeading t l :: body -> no_heading body ->
        scanned_templates g = Mw.body_templates g)
  /\ (forall template tok,
        EntryFlexion.pos_of_template template = Some tok ->
        tok ∈ POS_TOKENS /\ PyStr.contains tok (Mw.str (Mw.name template)) = true)
  /\ (forall template,
        EntryFlexion.pos_of_template template = None
        <-> forall tok, tok ∈ POS_TOKENS ->
                        PyStr.contains tok (Mw.str (Mw.name template)) = false).
Proof.
  intros Hst Hpos Htpls Hg r p. subst r.
  rewrite run_flexion_pos, Hpos, (proj2 (ne_false _ _) Hst).
  rewrite run_flexion_tpls. simpl. rewrite Htpls, Hg.
  change (EntryFlexion.status (EntryFlexion.set__pos [] f)) with (EntryFlexion.status f).
  rewrite (proj2 (ne_false _ _) Hst).
  unfold value_of, state_of. simpl. fold p.
  split; [done|]. split.
  { unfold pos_status. by destruct p as [|x [|y l]]. }
  split.
  { intros ->. unfold pos_status, tpls_status.
    by destruct (scanned_templates g) as [|a [|b c]]. }
  split.
  { intros Hlen. destruct p as [|x [|y l]]; simpl in Hlen; [lia|lia|].
    unfold pos_status, tpls_status.
    by destruct (scanned_templates g) as [|a [|b c]]. }
  split; [|split; [apply pos_of_template_Some|apply pos_of_template_None]].
  intros t l body -> Hbody.
  unfold scanned_templates, Mw.body_templates, Mw.get_sections. simpl.
  rewrite filter_cons_False by (simpl; discriminate).
  rewrite filter_no_heading by done.
  rewrite section_body_no_heading, sections_from_no_heading by done.
  simpl. by rewrite app_nil_r.
Qed.

(** C6.  The tables [inflections] returns without [all] are the tables it
    returns with [all], each without the keys that contain ['Bild'] and
    without the numeric keys: the other pairs stay, in their order, and the
    tables stay in theirs.  It does not matter which of the two calls comes
    first. *)
Theorem C6_inflections_removes_keys (wf : WordForm.t) :
  exists tables filtered : list PyDict.t,
    value_of (WordForm.inflections true wf) = Ok tables
    /\ value_of (WordForm.inflections false wf) = Ok filtered
    /\ value_of (WordForm.inflections false (state_of (WordForm.inflections true wf)))
       = Ok filtered
    /\ value_of (WordForm.inflections true (state_of (WordForm.inflections false wf)))
       = Ok tables
    /\ filtered
       = map (filter (fun kv : string * string =>
                        PyStr.contains "Bild" kv.1 = false
                        /\ PyStr.isnumeric kv.1 = false)) tables
    /\ Forall2 (fun table' table : PyDict.t =>
                  table' `sublist_of` table
                  /\ forall k v, (k, v) ∈ table'
                                 <-> (k, v) ∈ table
                                     /\ PyStr.contains "Bild" k = false
                                     /\ PyStr.isnumeric k = false)
               filtered tables.
Proof.
  assert (Hkeep : forall kv : string * string,
             WordForm.keep_key kv.1
             <-> PyStr.contains "Bild" kv.1 = false /\ PyStr.isnumeric kv.1 = false).
  { intros kv. unfold WordForm.keep_key.
    rewrite andb_True, !negb_True, !Is_true_false. tauto. }
  assert (Hmemo : forall all, tables (state_of (WordForm.inflections all wf)) = tables wf).
  { intros all. rewrite run_inflections. unfold state_of at 1. simpl.
    rewrite run_übersichten_tpls. unfold tables, uebersicht_templates.
    destruct (WordForm._uebersichten_tpls wf) eqn:Hu; unfold state_of; simpl;
      by rewrite ?Hu. }
  assert (Hfilter : map (fun flexion =>
                           PyDict.of_items (filter (fun kv => WordForm.keep_key kv.1) flexion))
                        (tables wf)
                    = map (filter (fun kv : string * string =>
                                     PyStr.contains "Bild" kv.1 = false
                                     /\ PyStr.isnumeric kv.1 = false)) (tables wf)).
  { unfold tables. rewrite !map_map. apply map_ext. intros tpl.
    rewrite of_items_filter by apply NoDup_keys_of_items.
    apply list_filter_iff. exact Hkeep. }
  exists (tables wf), (map (filter (fun kv : string * string =>
                                     PyStr.contains "Bild" kv.1 = false
                                     /\ PyStr.isnumeric kv.1 = false)) (tables wf)).
  assert (Hval : forall all s,
             value_of (WordForm.inflections all s)
             = Ok (if all then tables s
                   else map (fun flexion =>
                               PyDict.of_items
                                 (filter (fun kv => WordForm.keep_key kv.1) flexion))
                            (tables s))).
  { intros all s. by rewrite run_inflections. }
  rewrite !Hval, !Hmemo, Hfilter.
  repeat split; try reflexivity.
  apply Forall2_fmap_l, Forall_Forall2_diag, Forall_forall. intros table _.
  split; [apply sublist_filter|].
  intros k v. rewrite list_elem_of_filter. simpl. tauto.
Qed.


(** C7.  [_flexionseite] on a word form (on which nobody has set an
    attribute of the unmangled name [__flexionseite] from outside): when the
    status is not ['OK'], or when [pos] holds neither ['Verb'] nor
    ['Adjektiv'], the result is [None] and no resolution of a title is
    attempted; otherwise exactly one resolution is attempted, of the title
    ['Flexion:'] followed by the title of the entry, by [from_export] when
    the entry came from the export and by [from_dump] when it came from the
    dump, and its page is the result. *)
Theorem C7_companion_lookup (wf : WordForm.t) (w : World) :
  WordForm.attr__flexionseite wf = None ->
  let r := WordForm._flexionseite (wf, w) in
  (WordForm.status wf <> "OK" -> value_of r = Ok None /\ log_of r = [])
  /\ (forall p wf' l,
        WordForm.status wf = "OK" ->
        WordForm.pos wf = (Ok p, wf', l) ->
        ("Verb" ∉ p -> "Adjektiv" ∉ p -> value_of r = Ok None /\ lookups (log_of r) = [])
        /\ (forall e,
              "Verb" ∈ p \/ "Adjektiv" ∈ p ->
              WordForm.entry wf = Some e ->
              value_of r = match value_of (resolve e w) with
                           | Ok page => Ok (Some page)
                           | Raise err => Raise err
                           end
              /\ (WordForm.ref_extracted_from e = Some "from export" ->
                  resolve e w = EntryBase.from_export ("Flexion:" +:+ WordForm.ref_title e) w
                  /\ lookups (log_of r)
                     = [EvFromExport "108" ("Flexion:" +:+ WordForm.ref_title e)])
              /\ (WordForm.ref_extracted_from e = Some "from dump" ->
                  resolve e w
                  = EntryBase.from_dump ("Flexion:" +:+ WordForm.ref_title e) None w
                  /\ lookups (log_of r)
                     = [EvFromDump "108" ("Flexion:" +:+ WordForm.ref_title e)]))).
Proof.
  intros Hattr r. subst r. split.
  { intros Hst. by rewrite run_flexionseite_failed. }
  intros p wf' l Hst Hp.
  rewrite (run_flexionseite_ok wf wf' w p l Hattr Hst Hp).
  pose proof (no_lookups_pos wf) as Hl. rewrite Hp in Hl. unfold log_of in Hl.
  simpl in Hl. unfold no_lookups in Hl.
  split.
  { intros Hv Ha. rewrite !bool_decide_eq_false_2 by done. by simpl. }
  intros e Hin He.
  assert (Hany : bool_decide ("Verb" ∈ p) || bool_decide ("Adjektiv" ∈ p) = true).
  { apply orb_true_iff. rewrite !bool_decide_eq_true. exact Hin. }
  rewrite Hany, He. simpl.
  assert (Hlog : lookups (log_of
                   (match value_of (resolve e w) with
                    | Ok f => (Ok (Some f),
                               (WordForm.set__WordForm__flexionseite (Some f) wf',
                                state_of (resolve e w)), l ++ log_of (resolve e w))
                    | Raise err => (Raise err, (wf', state_of (resolve e w)),
                                    l ++ log_of (resolve e w))
                    end : result (option EntryFlexion.t) * (WordForm.t * World) * list event))
                 = [resolution_event e]).
  { destruct (value_of (resolve e w)); unfold log_of at 1; simpl;
      by rewrite lookups_app, Hl, lookups_resolve. }
  split; [by destruct (value_of (resolve e w))|].
  rewrite Hlog. unfold resolve, resolution_event. split.
  - intros Hex. by rewrite !bool_decide_eq_true_2.
  - intros Hdump.
    assert (Hne : WordForm.ref_extracted_from e ≠ Some "from export")
      by (rewrite Hdump; intros [=]).
    by rewrite !bool_decide_eq_false_2.
Qed.

(** C9, as amended.  [template_to_dict] is a total function of the
    template.  Its keys are the trimmed parameter names, each once, at the
    place of its first occurrence; the value under a key is the trimmed value
    of the last parameter of that name.  When the trimmed names are distinct
    this is one entry per parameter, in the order of the parameters. *)
Theorem C9_template_to_dict (template : Mw.Template) :
  let names := map (fun p => PyStr.strip (Mw.str (Mw.pname p))) (Mw.params template) in
  let items := map (fun p => (PyStr.strip (Mw.str (Mw.pname p)),
                              PyStr.strip (Mw.str (Mw.pvalue p)))) (Mw.params template) in
  let d := Tools.template_to_dict template in
  PyDict.keys d = PyDict.first_occurrences names
  /\ NoDup (PyDict.keys d)
  /\ (forall k, PyDict.get k d = PyDict.last_value k items)
  /\ (NoDup names -> d = items).
Proof.
  intros names items d. subst d. unfold Tools.template_to_dict. fold items.
  assert (Hnames : map fst items = names).
  { unfold items, names. rewrite map_map. by apply map_ext. }
  rewrite keys_of_items, Hnames. split; [done|]. split.
  { apply NoDup_first_occurrences. }
  split.
  { intros k. apply get_of_items. }
  intros Hnd. apply of_items_distinct. by rewrite Hnames.
Qed.

(** X1.  Beyond the claims: [other_content_extract] for a name without pattern
    characters.  The result is not [None] exactly when the text of the
    section holds a blank line, the line [{{name}}], at least one character
    of content and a blank line; this is where C10 holds. *)
Theorem other_content_extract_plain (wf : WordForm.t) (name : string)
    (strip_code : bool) (strip_kw : option (list (string * string))) :
  plain name ->
  exists res : option string,
    WordForm.other_content_extract wf name strip_code strip_kw = Some res
    /\ (res <> None <-> labelled name (Mw.str (WordForm.wordform wf))).
Proof.
  intros Hp. unfold WordForm.other_content_extract, Re.search.
  rewrite compile_label by done. simpl.
  pose proof (search_label_is_Some Re.F_DOTALL name (Mw.str (WordForm.wordform wf))
                eq_refl eq_refl) as Hiff.
  destruct (Re.search_re Re.F_DOTALL (label_regex name) _) as [m|] eqn:Hm.
  - assert (Hlab : labelled name (Mw.str (WordForm.wordform wf)))
      by (apply Hiff; by eexists).
    destruct (search_label_group1 Re.F_DOTALL name _ m eq_refl Hm) as [c Hc].
    destruct strip_code; [destruct strip_kw|]; eexists; (split; [reflexivity|]);
      rewrite ?Hc; by split.
  - exists None. split; [done|]. split; [done|].
    intros Hlab. apply Hiff in Hlab. by destruct Hlab.
Qed.

(** X2.  Beyond the claims: the accessors that are memoized.  Reading
    [wordforms], either [pos] or [inflections] again on the object the first
    reading left gives the same value, leaves the object as it is and logs
    nothing. *)
Theorem memoized_accessors_repeat :
  (forall (e e' : Entry.t) l log,
      Entry.wordforms e = (Ok l, e', log) -> Entry.wordforms e' = (Ok l, e', []))
  /\ (forall (f f' : EntryFlexion.t) p log,
        EntryFlexion.pos f = (Ok p, f', log) -> EntryFlexion.pos f' = (Ok p, f', []))
  /\ (forall (wf wf' : WordForm.t) p log,
        WordForm.pos wf = (Ok p, wf', log) -> WordForm.pos wf' = (Ok p, wf', []))
  /\ (forall (wf wf' : WordForm.t) all tables log,
        WordForm.inflections all wf = (Ok tables, wf', log) ->
        WordForm.inflections all wf' = (Ok tables, wf', [])).
Proof.
  split; [|split; [|split]].
  - intros e e' l log. rewrite !run_wordforms.
    destruct (Entry._wordforms e) eqn:Hw.
    { intros [= <- <- <-]. by rewrite Hw. }
    destruct (PyStr.ne (Entry.status e) "OK") eqn:Hne.
    { intros [= <- <- <-]. by rewrite Hw, Hne. }
    destruct (Entry.german e); [|done]. by intros [= <- <- <-].
  - intros f f' p log. rewrite !run_flexion_pos.
    destruct (EntryFlexion._pos f) eqn:Hp.
    { intros [= <- <- <-]. by rewrite Hp. }
    destruct (PyStr.ne (EntryFlexion.status f) "OK") eqn:Hne.
    { intros [= <- <- <-]. by rewrite Hp, Hne. }
    simpl. destruct (value_of _); [|done]. intros [= <- <- <-].
    unfold pos_status. by destruct (omap _ _) as [|x [|y l]].
  - intros wf wf' p log. apply pos_again.
  - intros wf wf' all tbl log. rewrite !run_inflections, !run_übersichten_tpls.
    unfold tables, uebersicht_templates.
    destruct (WordForm._uebersichten_tpls wf) eqn:Hu; unfold state_of, log_of; simpl.
    + intros [= <- <- <-]. by rewrite Hu.
    + by intros [= <- <- <-].
Qed.

(** X3.  Beyond the claims: [_flexionseite] is never memoized.  No method sets
    the attribute that [hasattr(self, '__flexionseite')] asks for, so it is
    unset after every call on a word form on which it was unset before. *)
Theorem flexionseite_never_memoized (wf : WordForm.t) (w : World) :
  WordForm.attr__flexionseite wf = None ->
  WordForm.attr__flexionseite (state_of (WordForm._flexionseite (wf, w))).1 = None.
Proof.
  intros Hattr.
  destruct (decide (WordForm.status wf = "OK")) as [Hst|Hst].
  - destruct (WordForm.pos wf) as [[[p|err] wf'] l] eqn:Hp.
    + pose proof (pos_frame wf) as (_ & Ha & _). rewrite Hp in Ha.
      unfold state_of in Ha. simpl in Ha.
      rewrite (run_flexionseite_ok wf wf' w p l Hattr Hst Hp).
      destruct (_ || _); [|unfold state_of; simpl; congruence].
      destruct (WordForm.entry wf); [|unfold state_of; simpl; congruence].
      simpl. destruct (value_of (resolve e w)); unfold state_of; simpl; congruence.
    + pose proof (pos_frame wf) as (_ & Ha & _). rewrite Hp in Ha.
      unfold state_of in Ha. simpl in Ha.
      unfold WordForm._flexionseite. unfold bind at 1. unfold get at 1. simpl.
      rewrite Hattr, (proj2 (ne_false _ _) Hst).
      unfold bind at 1. unfold WordForm.any_verb_adjektiv, bind, WordForm.on_self, zoom.
      simpl. rewrite Hp. unfold state_of. simpl. congruence.
  - by rewrite run_flexionseite_failed.
Qed.

End Claims.

(** * Runs on concrete pages *)

Section Concrete.
Import Mw Examples EntryBaseFacts ConstructorFacts ArchiveFacts EntryFacts
  EntryFlexionFacts WordFormFacts StatusFacts PyDictFacts CompanionFacts MwFacts
  ReFacts.

(** C2 at the title [Ghost], which the loaded archive does not hold. *)
Lemma C2_witness :
  exists e : Entry.t,
    value_of (@EntryBase.from_dump Entry.t (@Entry.Entry_class gehen_parser) "Ghost" None world_loaded) = Ok e
    /\ Entry.status e = "No German section found for Ghost"
    /\ Entry.status e <> "No content for Ghost in dump file"
    /\ EvPrint ("Wiki search for " +:+ PyStr.dq +:+ "Ghost" +:+ PyStr.dq +:+ " failed: "
                +:+ "No content for Ghost in dump file")
       ∈ log_of (@EntryBase.from_dump Entry.t (@Entry.Entry_class gehen_parser) "Ghost" None world_loaded)
    /\ Entry.wordforms e = (Ok [], e, []).
Proof.
  apply (@C2_from_dump_missing_title gehen_parser world_loaded archive0 "Ghost" None);
    reflexivity.
Defined.

(** C3 at the entry [Ghost], the Flexion page [gehen] after [pos], and the
    word form without a part of speech after [pos]. *)
Lemma C3_witness :
  Entry.wordforms entry_ghost = (Ok [], entry_ghost, [])
  /\ EntryFlexion.pos flexion_gehen_read = (Ok ["Verb"; "Verb"], flexion_gehen_read, [])
  /\ value_of (@WordForm._flexionseite gehen_parser (wordform_after_pos, world_loaded))
     = Ok None
  /\ log_of (@WordForm._flexionseite gehen_parser (wordform_after_pos, world_loaded)) = [].
Proof.
  destruct (@C3_failed_status_short_circuits gehen_parser entry_ghost flexion_gehen_read
              wordform_after_pos world_loaded)
    as (He & Hf & _ & _ & Hv & Hl & _);
    [vm_compute; discriminate | vm_compute; discriminate | vm_compute; discriminate
    | reflexivity | ].
  split; [exact He|]. split; [exact Hf|]. split; [exact Hv | exact Hl].
Defined.

(** X21 at the Flexion page [schnell], which has one template and no
    subheading. *)
Lemma flexion_pos_scan_witness :
  value_of (EntryFlexion.pos flexion_schnell) = Ok ["Adjektiv"]
  /\ EntryFlexion._pos (state_of (EntryFlexion.pos flexion_schnell)) = Some ["Adjektiv"]
  /\ EntryFlexionNotions.scanned_templates schnell_tree = body_templates schnell_tree.
Proof.
  destruct (@flexion_pos_scan pages_parser flexion_schnell schnell_tree)
    as (Hv & Hm & _ & _ & Hbody & _); [reflexivity..|].
  split; [exact Hv|]. split; [exact Hm|].
  apply (Hbody [T " schnell (Deklination) (";
                tpl "Adjektivdeklination" [positional "1" "Deutsch"]; T ") "] 2
               [T PyStr.nl; tpl "Deutsch Adjektiv Flexion" [keyword "Positiv" "schnell"];
                T PyStr.nl]); [reflexivity|].
  unfold no_heading. apply Forall_forall. repeat constructor.
Defined.

(** C7 at the verb and at the noun of the entry [gehen], which came from
    the dump. *)
Lemma C7_witness :
  lookups (log_of (@WordForm._flexionseite gehen_parser (wordform_verb, world_loaded)))
  = [EvFromDump "108" "Flexion:gehen"]
  /\ value_of (@WordForm._flexionseite gehen_parser (wordform_noun, world_loaded)) = Ok None
  /\ lookups (log_of (@WordForm._flexionseite gehen_parser (wordform_noun, world_loaded)))
     = [].
Proof.
  destruct (@C7_companion_lookup gehen_parser wordform_verb world_loaded eq_refl)
    as [_ Hverb].
  destruct (Hverb ["Verb"] (state_of (WordForm.pos wordform_verb))
              (log_of (WordForm.pos wordform_verb)) eq_refl eq_refl) as [_ Hv].
  destruct (Hv entry_gehen) as (_ & _ & Hdump);
    [left; apply list_elem_of_here | reflexivity |].
  destruct (Hdump eq_refl) as [_ Hl].
  destruct (@C7_companion_lookup gehen_parser wordform_noun world_loaded eq_refl)
    as [_ Hnoun].
  destruct (Hnoun ["Substantiv"] (state_of (WordForm.pos wordform_noun))
              (log_of (WordForm.pos wordform_noun)) eq_refl eq_refl) as [Hn _].
  destruct Hn as [Hn1 Hn2];
    [intros Hin; apply list_elem_of_singleton in Hin; discriminate Hin
    |intros Hin; apply list_elem_of_singleton in Hin; discriminate Hin |].
  split; [exact Hl|]. split; [exact Hn1 | exact Hn2].
Defined.

(** [other_content_extract_plain] at the label [Beispiele]. *)
Lemma other_content_extract_plain_witness :
  exists res : option string,
    @WordForm.other_content_extract gehen_parser wordform_with_examples "Beispiele" true None
    = Some res
    /\ (res <> None
        <-> labelled "Beispiele" (str (WordForm.wordform wordform_with_examples))).
Proof.
  apply (@other_content_extract_plain gehen_parser wordform_with_examples "Beispiele").
  reflexivity.
Defined.

(** [flexionseite_never_memoized] at the verb [gehen]. *)
Lemma flexionseite_never_memoized_witness :
  WordForm.attr__flexionseite
    (state_of (@WordForm._flexionseite gehen_parser (wordform_verb, world_loaded))).1 = None.
Proof.
  apply (@flexionseite_never_memoized gehen_parser wordform_verb world_loaded).
  reflexivity.
Defined.

(** C3, the claim as stated fails.  The word form [=== {{Wortart}} ===] has
    no part of speech, so its status is not ['OK'] once [pos] has been read;
    [inflections] nevertheless walks the section and returns its overview
    table.  And the Flexion page [gehen], whose status [pos] has set to the
    "multiple POS" diagnostic, still answers [pos] with the list it
    memoized. *)
Lemma C3_counterexample :
  WordForm.status wordform_after_pos <> "OK"
  /\ value_of (WordForm.inflections false wordform_after_pos)
     = Ok [[("Genitiv Singular", "Hauses")]]
  /\ log_of (WordForm.inflections false wordform_after_pos) = [EvFilterTemplates]
  /\ EntryFlexion.status flexion_gehen_read <> "OK"
  /\ value_of (EntryFlexion.pos flexion_gehen_read) = Ok ["Verb"; "Verb"].
Proof. vm_compute. repeat split; discriminate. Qed.

(** C5, the failing run.  The body of the language section of the
    Flexion page [gehen] holds one template node,
    [{{Deutsch Verb schwach|Teil 1=geh}}], below the subheading [Indikativ];
    read in document order, headings left out, it gives one match, ['Verb'],
    so the status should stay ['OK'].  [flexion_tpls] iterates the sections
    that [get_sections] returns, here the empty lead, the language section
    and its subsection, and collects that template once from each section
    that holds it: it returns the template twice and sets
    ['Multiple German flexion templates'] on a page with one template, and
    [pos] returns ['Verb'] twice and sets the "multiple POS" status. *)
Lemma C5_template_collected_per_section :
  EntryFlexion.status flexion_gehen = "OK"
  /\ EntryFlexion._pos flexion_gehen = None
  /\ EntryFlexion.german flexion_gehen = Some gehen_tree
  /\ body_templates gehen_tree
     = [{| name := [T "Deutsch Verb schwach"]; params := [keyword "Teil 1" "geh"] |}]
  /\ omap EntryFlexion.pos_of_template (body_templates gehen_tree) = ["Verb"]
  /\ get_sections gehen_tree [] None false None false
     = [ [];
         [T PyStr.nl; NHeading [T " Indikativ "] 3; T PyStr.nl;
          tpl "Deutsch Verb schwach" [keyword "Teil 1" "geh"]; T PyStr.nl];
         [T PyStr.nl; tpl "Deutsch Verb schwach" [keyword "Teil 1" "geh"]; T PyStr.nl] ]
  /\ value_of (EntryFlexion.flexion_tpls flexion_gehen)
     = Ok [{| name := [T "Deutsch Verb schwach"]; params := [keyword "Teil 1" "geh"] |};
           {| name := [T "Deutsch Verb schwach"]; params := [keyword "Teil 1" "geh"] |}]
  /\ EntryFlexion.status (state_of (EntryFlexion.flexion_tpls flexion_gehen))
     = "Multiple German flexion templates"
  /\ value_of (EntryFlexion.pos flexion_gehen) = Ok ["Verb"; "Verb"]
  /\ EntryFlexion.status (state_of (EntryFlexion.pos flexion_gehen))
     = "Multiple POS found for Flexion:gehen".
Proof. vm_compute. repeat split. Qed.

(** C8, the failing run.  The first call of [_flexionseite] on the verb
    [gehen] resolves the companion page and stores it under the mangled name
    [_WordForm__flexionseite]; the attribute [hasattr] asks for stays unset,
    so the second call resolves the title again and parses the page again. *)
Lemma C8_flexionseite_resolved_twice :
  let r1 := @WordForm._flexionseite gehen_parser (wordform_verb, world_loaded) in
  let r2 := @WordForm._flexionseite gehen_parser (state_of r1) in
  (exists page, value_of r1 = Ok (Some page)
                /\ WordForm._WordForm__flexionseite (state_of r1).1 = Some (Some page))
  /\ WordForm.attr__flexionseite (state_of r1).1 = None
  /\ lookups (log_of r1) = [EvFromDump "108" "Flexion:gehen"]
  /\ lookups (log_of r2) = [EvFromDump "108" "Flexion:gehen"]
  /\ traversals (log_of r2) = [EvParse; EvGetSections].
Proof. vm_compute. split; [eexists; split; reflexivity|]. repeat split. Qed.

(** C9, the claim as stated fails: [{{T|a=1|a=2}}] has two parameters and
    its dictionary one entry. *)
Lemma C9_counterexample :
  length (params template_twice) = 2
  /\ Tools.template_to_dict template_twice = [("a", "2")].
Proof. vm_compute. by split. Qed.

(** C10, the failing run.  The name is put into the pattern as it is, so
    [B.ispiele] is read as a pattern: the paragraph under [{{Beispiele}}] is
    returned although the text holds no [{{B.ispiele}}]. *)
Lemma C10_name_read_as_pattern :
  @WordForm.other_content_extract gehen_parser wordform_with_examples "B.ispiele" false None
  = Some (Some ":[1] Das Haus ist alt.")
  /\ PyStr.contains "{{B.ispiele}}" (str (WordForm.wordform wordform_with_examples)) = false.
Proof. vm_compute. by split. Qed.

End Concrete.

(** * Beyond the claims

    Properties of the same code that the claims do not state: the archive
    loader and the two alternative constructors, the structure of the word
    forms, what can and cannot raise, the order of the accessors of a
    Flexion page, [inflections_extended], [template_to_dict],
    [print_sections_tree], the paragraphs [other_content_extract] returns,
    and [Settings]. *)

Ltac not_OK :=
  first [ by apply diagnostic_ne_OK
        | by (cbv [EntryFlexion.status EntryFlexion.set_status EntryFlexion.base
                   EntryBase.set_status EntryBase.status]; discriminate)
        | done ].

Section Extras.
Context `{Mw.Parser}.
Import EntryBaseFacts ConstructorFacts ArchiveFacts EntryFacts EntryFlexionFacts
  WordFormFacts StatusFacts PyDictFacts CompanionFacts MwFacts ReFacts.
Import LoadFacts BuildNotions SectionNotions SoundNotions PrintNotions ExtractNotions.

(** ** The archive loader *)

Lemma run_get_wikidict_held (c : cls) dict_path (w : World) d :
  class_WIKIDICT w c = Some d ->
  EntryBase.get_wikidict c dict_path w = (Ok d, w, []).
Proof. intros Hd. rewrite run_get_wikidict. by rewrite Hd. Qed.

Lemma class_WIKIDICT_set c d w : class_WIKIDICT (set_WIKIDICT c d w) c = Some d.
Proof. unfold class_WIKIDICT, set_WIKIDICT. simpl. by rewrite decide_True. Qed.

Lemma get_wikidict_Ok (c : cls) dict_path (w w1 : World) d l :
  EntryBase.get_wikidict c dict_path w = (Ok d, w1, l) ->
  class_WIKIDICT w1 c = Some d /\ pickles w1 = pickles w /\ DICT_PATH w1 = DICT_PATH w
  /\ settings w1 = settings w /\ l = []
  /\ (w1 = w \/ class_WIKIDICT w c = None /\ w1 = set_WIKIDICT c d w).
Proof.
  intros Hrun. rewrite run_get_wikidict in Hrun.
  destruct (class_WIKIDICT w c) as [d0|] eqn:Hw.
  - injection Hrun as <- <- <-. repeat split; try done. by left.
  - cbv zeta in Hrun. destruct (wikidict_file c dict_path w) as [file|] eqn:Hf; [|done].
    destruct (pickles w !! file) as [d0|]; [|done].
    destruct (looked_up_same dict_path w) as [Hsame Hlog].
    { destruct dict_path as [p|]; [by left; eauto|]. right.
      unfold wikidict_file in Hf. destruct (DICT_PATH w) as [p|] eqn:Hd; [|done].
      by apply (DICT_PATH_Some w p). }
    rewrite Hsame, Hlog in Hrun.
    injection Hrun as <- <- <-. split; [apply class_WIKIDICT_set|].
    repeat split; try done. by right.
Qed.

Lemma get_wikidict_Raise (c : cls) dict_path (w w1 : World) err l :
  EntryBase.get_wikidict c dict_path w = (Raise err, w1, l) ->
  class_WIKIDICT w c = None
  /\ w1 = looked_up dict_path w /\ l = lookup_log dict_path w
  /\ (err = ValueError /\ dict_path = None /\ DICT_PATH w = None
      \/ err = FileNotFoundError
         /\ exists file, wikidict_file c dict_path w = Some file /\ pickles w !! file = None).
Proof.
  intros Hrun. rewrite run_get_wikidict in Hrun.
  destruct (class_WIKIDICT w c) as [d0|] eqn:Hw; [done|]. cbv zeta in Hrun.
  destruct (wikidict_file c dict_path w) as [file|] eqn:Hf.
  - destruct (pickles w !! file) as [d0|] eqn:Hp; [done|].
    injection Hrun as <- <- <-. repeat split; try done. right. split; [done|]. by exists file.
  - injection Hrun as <- <- <-. repeat split; try done. left. split; [done|].
    unfold wikidict_file in Hf. destruct dict_path; [done|].
    by destruct (DICT_PATH w).
Qed.

(** X4.  [get_wikidict] loads a dictionary once per class.  After a call
    that returned the dictionary [d], the class holds [d], and the files of
    the dictionaries and the configuration file are as they were, with
    nothing printed; every later call on that class returns [d], whatever
    folder it names and whatever the files or the settings have become, and
    changes nothing. *)
Theorem get_wikidict_loads_once (c : cls) (dict_path : option string) (w w1 : World)
    (d : wikidict) (l : list event) :
  EntryBase.get_wikidict c dict_path w = (Ok d, w1, l) ->
  class_WIKIDICT w1 c = Some d
  /\ pickles w1 = pickles w /\ DICT_PATH w1 = DICT_PATH w
  /\ settings w1 = settings w /\ l = []
  /\ forall (dict_path' : option string) (w2 : World),
       own_WIKIDICT w2 = own_WIKIDICT w1 ->
       EntryBase.get_wikidict c dict_path' w2 = (Ok d, w2, []).
Proof.
  intros Hrun.
  destruct (get_wikidict_Ok _ _ _ _ _ _ Hrun) as (Hc & Hp & Hd & Hs & Hl & _).
  repeat split; try done.
  intros dict_path' w2 Hown. apply run_get_wikidict_held.
  unfold class_WIKIDICT in *. by rewrite Hown.
Qed.

(** X5.  When [get_wikidict] raises, the class still holds no dictionary,
    so a later call tries again, and the dictionaries of the other classes,
    the files of the dictionaries and the folder of the settings are as they
    were.  The exception is [ValueError] when no folder is given and the
    settings name none, and [FileNotFoundError] when the file
    [wikidict_{NS}.pkl] of the folder does not exist.  Nothing else changes
    and nothing is printed when a folder is given or the configuration file
    exists; when no folder is given and the configuration file does not
    exist, asking the settings has created that file, holding the empty
    object, and has printed the line that says so. *)
Theorem get_wikidict_failure (c : cls) (dict_path : option string) (w w1 : World)
    (err : exn) (l : list event) :
  EntryBase.get_wikidict c dict_path w = (Raise err, w1, l) ->
  class_WIKIDICT w1 c = None
  /\ own_WIKIDICT w1 = own_WIKIDICT w /\ pickles w1 = pickles w /\ export w1 = export w
  /\ DICT_PATH w1 = DICT_PATH w
  /\ (err = ValueError /\ dict_path = None /\ DICT_PATH w = None
      \/ err = FileNotFoundError
         /\ exists file, wikidict_file c dict_path w = Some file /\ pickles w !! file = None)
  /\ (is_Some dict_path \/ is_Some (Settings.config_json (settings w)) -> w1 = w /\ l = [])
  /\ (dict_path = None -> Settings.config_json (settings w) = None ->
      settings w1
      = {| Settings._file := Settings._file (settings w); Settings.config_json := Some ∅ |}
      /\ l = [EvPrint ("Created new configuration file: " +:+ Settings._file (settings w))]).
Proof.
  intros Hrun. destruct (get_wikidict_Raise _ _ _ _ _ _ Hrun) as (Hc & -> & -> & Herr).
  destruct (looked_up_frame dict_path w) as (Hown & Hp & Hx & Hd).
  split; [unfold class_WIKIDICT in *; by rewrite Hown|].
  repeat (split; [done|]). split.
  - intros Hsame. by apply looked_up_same.
  - intros -> Hnone. by apply looked_up_created.
Qed.

(** X6.  The class attribute [WIKIDICT] is inherited.  Once
    [_EntryBase.get_wikidict] has returned a dictionary, [get_wikidict] on
    every class that holds none of its own returns that same dictionary, the
    one of namespace 0, also on [EntryFlexion], whose pages are in namespace
    108; no file is read. *)
Theorem get_wikidict_inherited (dict_path : option string) (w w1 : World)
    (d : wikidict) (l : list event) :
  EntryBase.get_wikidict C_EntryBase dict_path w = (Ok d, w1, l) ->
  forall (c : cls) (dict_path' : option string),
    own_WIKIDICT w c = None ->
    EntryBase.get_wikidict c dict_path' w1 = (Ok d, w1, []).
Proof.
  intros Hrun c dict_path' Hown. apply run_get_wikidict_held.
  destruct (get_wikidict_Ok _ _ _ _ _ _ Hrun) as (Hc & _ & _ & _ & _ & [->|[Hw ->]]).
  - unfold class_WIKIDICT in *. rewrite Hown.
    by destruct (own_WIKIDICT w C_EntryBase).
  - unfold class_WIKIDICT, set_WIKIDICT. simpl.
    destruct c; simpl; rewrite ?Hown; done.
Qed.

(** ** The two alternative constructors *)

Lemma get_section_de_fresh title wikitext status ef :
  let r := EntryBase._get_section_de (fresh title wikitext status ef) in
  exists g, value_of r = Ok g
    /\ built title wikitext status ef (state_of r) g.
Proof.
  intros r. subst r. rewrite run_get_section_de.
  change (german_sections (fresh title wikitext status ef))
    with (language_sections wikitext).
  unfold built, one_german_section.
  destruct (language_sections wikitext) as [|x [|y l]] eqn:Hs; simpl;
    eexists; (split; [reflexivity|]); repeat split; try done.
  all: try (intros [= <-]; done).
  all: try (intros [_ [? [=]]]; done).
  all: try (intros Hd; exfalso; revert Hd; by apply diagnostic_ne_OK).
  all: try (intros [= ->]; done).
  - by eauto.
  - by intros [-> _].
Qed.

Lemma printed_app (l1 l2 : list event) : printed (l1 ++ l2) = printed l1 ++ printed l2.
Proof. unfold printed. apply omap_app. Qed.

Lemma printed_init title wikitext status ef :
  printed (init_log title status
           ++ log_of (EntryBase._get_section_de (fresh title wikitext status ef)))
  = failure_lines title status.
Proof.
  rewrite printed_app, run_get_section_de. unfold init_log, failure_lines. cbv zeta.
  replace (printed (log_of _)) with (@nil string)
    by (destruct (german_sections _) as [|x [|y l]]; reflexivity).
  rewrite app_nil_r. destruct (PyStr.ne status "OK") eqn:Hne.
  - apply ne_true in Hne. by rewrite decide_False.
  - apply ne_false in Hne. by rewrite decide_True.
Qed.

Lemma Entry_init_built {S} title wikitext status ef (s : S) :
  exists e : Entry.t,
    Entry.__init__ title wikitext status ef s
    = (Ok e, s, init_log title status
                 ++ log_of (EntryBase._get_section_de (fresh title wikitext status ef)))
    /\ built title wikitext status ef (Entry.base e) (Entry.german e).
Proof.
  rewrite run_Entry_init.
  destruct (get_section_de_fresh title wikitext status ef) as (g & Hv & Hb).
  simpl. rewrite Hv. eexists. split; [reflexivity|]. exact Hb.
Qed.

Lemma EntryFlexion_init_built {S} title wikitext status ef (s : S) :
  exists f : EntryFlexion.t,
    EntryFlexion.__init__ title wikitext status ef s
    = (Ok f, s, init_log title status
                 ++ log_of (EntryBase._get_section_de (fresh title wikitext status ef)))
    /\ built title wikitext status ef (EntryFlexion.base f) (EntryFlexion.german f).
Proof.
  rewrite run_EntryFlexion_init.
  destruct (get_section_de_fresh title wikitext status ef) as (g & Hv & Hb).
  simpl. rewrite Hv. eexists. split; [reflexivity|]. exact Hb.
Qed.

Lemma language_sections_None : language_sections None = [].
Proof. reflexivity. Qed.

Lemma export_status_eq NS title wikitext ns :
  (if PyStr.eq_value wikitext "" then "No content for " +:+ title +:+ " in exported page"
   else if PyStr.ne_value ns NS then "No proper wiki namespace found for " +:+ title
   else "OK")
  = export_status NS title wikitext ns.
Proof.
  unfold export_status.
  destruct (PyStr.eq_value wikitext "") eqn:He.
  { apply eq_value_true in He. by rewrite decide_True. }
  apply eq_value_false in He. rewrite decide_False by done.
  destruct (PyStr.ne_value ns NS) eqn:Hn.
  - apply ne_value_true in Hn. by rewrite decide_False.
  - apply ne_value_false in Hn. by rewrite decide_True.
Qed.

Lemma built_exported NS title wikitext ns b g :
  built title
        (if PyStr.eq_value wikitext "" then wikitext
         else if PyStr.ne_value ns NS then Some "" else wikitext)
        (if PyStr.eq_value wikitext "" then "No content for " +:+ title +:+ " in exported page"
         else if PyStr.ne_value ns NS then "No proper wiki namespace found for " +:+ title
         else "OK")
        (Some "from export") b g ->
  exported_as NS title wikitext ns b g.
Proof.
  unfold built, exported_as. intros (Ht & Hx & He & Hg & Hs & Hnone).
  split; [done|]. split; [done|].
  destruct (PyStr.eq_value wikitext "") eqn:Hempty.
  { apply eq_value_true in Hempty. subst wikitext.
    assert (Hno : EntryBase.status b <> "OK").
    { intros Hok. apply Hs in Hok as [Hok _]. revert Hok. by apply diagnostic_ne_OK. }
    repeat split; try done. by intros (? & _). }
  apply eq_value_false in Hempty.
  destruct (PyStr.ne_value ns NS) eqn:Hns.
  { apply ne_value_true in Hns.
    assert (Hno : EntryBase.status b <> "OK").
    { intros Hok. apply Hs in Hok as [Hok _]. revert Hok. by apply diagnostic_ne_OK. }
    repeat split; try done. by intros (_ & ? & _). }
  apply ne_value_false in Hns. split; [|split; [|split; [|split]]].
  - rewrite Hs. split; [by intros [_ ?]|by intros (_ & _ & ?)].
  - intros Hok. split; [done|]. apply Hs in Hok as [_ [section Hsec]].
    exists section. by apply Hg.
  - intros [?|?]; done.
  - done.
  - intros -> _. split; [by apply Hnone, language_sections_None|].
    destruct g as [section|]; [|done].
    pose proof (proj1 (Hg section) eq_refl) as Hsec.
    by rewrite language_sections_None in Hsec.
Qed.

Lemma built_dumped title (d : wikidict) b g :
  built title (dump_wikitext d title) (dump_status d title) (Some "from dump") b g ->
  dumped_as title (d !! title) b g.
Proof.
  unfold built, dumped_as, dump_status, dump_wikitext.
  intros (Ht & Hx & He & Hg & Hs & Hnone). repeat split; try done.
  - intros Hok. apply Hs in Hok as [Hst Hone].
    destruct (PyStr.ne_value (default (Some "") (d !! title)) "") eqn:Hne.
    + apply ne_value_true in Hne. destruct (d !! title) as [wikitext|]; [|done].
      exists wikitext. by repeat split.
    + exfalso. revert Hst. by apply diagnostic_ne_OK.
  - intros (wikitext & Hf & Hne & Hone). apply Hs. rewrite Hf. simpl.
    by rewrite (proj2 (ne_value_true _ _) Hne).
  - intros Hok. apply Hs in Hok as [_ [section Hsec]]. exists section. by apply Hg.
  - match goal with Hf : d !! title = Some None |- _ => rewrite Hf in Hnone end.
    by apply Hnone, language_sections_None.
  - match goal with Hf : d !! title = Some None |- _ => rewrite Hf in Hg end.
    destruct g as [section|]; [|done].
    pose proof (proj1 (Hg section) eq_refl) as Hsec. simpl in Hsec.
    by rewrite language_sections_None in Hsec.
Qed.

(** X7.  [from_export] on [Entry] and on [EntryFlexion].  A failed request
    is the exception of the call, and no object is made.  Otherwise an object
    is returned, with the title asked for and the origin ['from export'], and
    the world is as it was.  The page's text and namespace are each a text
    or, for an empty element, [None].  The status of the object is ['OK']
    exactly when the page's text is not the empty string, its namespace is
    the one of the class and its text has exactly one German section; then
    the object holds the text and the section.  When the text is the empty
    string or the namespace is another one, the object holds the empty
    string, and the constructor prints the line of that failure; otherwise
    nothing is printed.  A page of the right namespace whose text is [None]
    gives an object that holds [None] as its text, no section, and the status
    ['No German section found for {title}']. *)
Theorem from_export_status (w : World) (title : string) :
  match export w title with
  | Raise err =>
      EntryBase.from_export (T:=Entry.t) title w
      = (Raise err, w, [EvFromExport "0" title])
      /\ EntryBase.from_export (T:=EntryFlexion.t) title w
         = (Raise err, w, [EvFromExport "108" title])
  | Ok (wikitext, ns) =>
      (exists e : Entry.t,
          value_of (EntryBase.from_export title w) = Ok e
          /\ state_of (EntryBase.from_export (T:=Entry.t) title w) = w
          /\ printed (log_of (EntryBase.from_export (T:=Entry.t) title w))
             = failure_lines title (export_status "0" title wikitext ns)
          /\ exported_as "0" title wikitext ns (Entry.base e) (Entry.german e))
      /\ (exists f : EntryFlexion.t,
            value_of (EntryBase.from_export title w) = Ok f
            /\ state_of (EntryBase.from_export (T:=EntryFlexion.t) title w) = w
            /\ printed (log_of (EntryBase.from_export (T:=EntryFlexion.t) title w))
               = failure_lines title (export_status "108" title wikitext ns)
            /\ exported_as "108" title wikitext ns
                 (EntryFlexion.base f) (EntryFlexion.german f))
  end.
Proof.
  unfold EntryBase.from_export, bind, tell, PageExport. simpl.
  destruct (export w title) as [[wikitext ns]|err]; [|done].
  split.
  - pose proof (built_exported "0" title wikitext ns) as Hb.
    pose proof (export_status_eq "0" title wikitext ns) as Hst.
    destruct (PyStr.eq_value wikitext ""); [|destruct (PyStr.ne_value ns "0")].
    all: match goal with
         | |- context [Entry.__init__ ?a ?b ?c ?d ?s] =>
             destruct (Entry_init_built a b c d s) as (e & -> & Hbuilt);
             pose proof (printed_init a b c d) as Hp
         end; exists e; unfold value_of, state_of, log_of; simpl;
           (split; [done|]); (split; [done|]);
           (split; [by rewrite <- Hst|]); by apply Hb.
  - pose proof (built_exported "108" title wikitext ns) as Hb.
    pose proof (export_status_eq "108" title wikitext ns) as Hst.
    destruct (PyStr.eq_value wikitext ""); [|destruct (PyStr.ne_value ns "108")].
    all: match goal with
         | |- context [EntryFlexion.__init__ ?a ?b ?c ?d ?s] =>
             destruct (EntryFlexion_init_built a b c d s) as (e & -> & Hbuilt);
             pose proof (printed_init a b c d) as Hp
         end; exists e; unfold value_of, state_of, log_of; simpl;
           (split; [done|]); (split; [done|]);
           (split; [by rewrite <- Hst|]); by apply Hb.
Qed.

(** X8.  [from_dump] on [Entry] and on [EntryFlexion].  When
    [get_wikidict] raises, its exception is the exception of the call and no
    object is made; the world is as [get_wikidict] left it and nothing is
    logged but the call and what [get_wikidict] logged, so nothing has
    changed and nothing is printed when a folder is given or the
    configuration file exists.  Otherwise an object is returned, with the
    title asked for, the origin ['from dump'] and the value the dictionary
    holds for the title (the empty string when it holds none; the value may
    be [None]), and the class holds the dictionary from then on.  The status
    of the object is ['OK'] exactly when the dictionary holds for the title a
    value that is not the empty string and has exactly one German section;
    then the object holds that section.  A title whose value is [None] gives
    an object with no section and the status
    ['No German section found for {title}']. *)
Theorem from_dump_status (w : World) (title : string) (dict_path : option string) :
  (forall err,
      value_of (EntryBase.get_wikidict C_Entry dict_path w) = Raise err ->
      let r := EntryBase.get_wikidict C_Entry dict_path w in
      EntryBase.from_dump (T:=Entry.t) title dict_path w
      = (Raise err, state_of r, EvFromDump "0" title :: log_of r)
      /\ (is_Some dict_path \/ is_Some (Settings.config_json (settings w)) ->
          EntryBase.from_dump (T:=Entry.t) title dict_path w
          = (Raise err, w, [EvFromDump "0" title])))
  /\ (forall err,
        value_of (EntryBase.get_wikidict C_EntryFlexion dict_path w) = Raise err ->
        let r := EntryBase.get_wikidict C_EntryFlexion dict_path w in
        EntryBase.from_dump (T:=EntryFlexion.t) title dict_path w
        = (Raise err, state_of r, EvFromDump "108" title :: log_of r)
        /\ (is_Some dict_path \/ is_Some (Settings.config_json (settings w)) ->
            EntryBase.from_dump (T:=EntryFlexion.t) title dict_path w
            = (Raise err, w, [EvFromDump "108" title])))
  /\ (forall d,
        value_of (EntryBase.get_wikidict C_Entry dict_path w) = Ok d ->
        exists e : Entry.t,
          value_of (EntryBase.from_dump title dict_path w) = Ok e
          /\ state_of (EntryBase.from_dump (T:=Entry.t) title dict_path w)
             = state_of (EntryBase.get_wikidict C_Entry dict_path w)
          /\ class_WIKIDICT (state_of (EntryBase.from_dump (T:=Entry.t) title dict_path w))
               C_Entry = Some d
          /\ dumped_as title (d !! title) (Entry.base e) (Entry.german e))
  /\ (forall d,
        value_of (EntryBase.get_wikidict C_EntryFlexion dict_path w) = Ok d ->
        exists f : EntryFlexion.t,
          value_of (EntryBase.from_dump title dict_path w) = Ok f
          /\ state_of (EntryBase.from_dump (T:=EntryFlexion.t) title dict_path w)
             = state_of (EntryBase.get_wikidict C_EntryFlexion dict_path w)
          /\ class_WIKIDICT
               (state_of (EntryBase.from_dump (T:=EntryFlexion.t) title dict_path w))
               C_EntryFlexion = Some d
          /\ dumped_as title (d !! title) (EntryFlexion.base f) (EntryFlexion.german f)).
Proof.
  split; [|split; [|split]].
  - intros err Hv r. subst r. rewrite run_from_dump. simpl.
    destruct (EntryBase.get_wikidict C_Entry dict_path w) as [[r w1] l] eqn:Hrun.
    unfold value_of, state_of, log_of in *. simpl in *. subst r.
    split; [done|]. intros Hsame.
    destruct (get_wikidict_Raise _ _ _ _ _ _ Hrun) as (_ & -> & -> & _).
    by destruct (looked_up_same dict_path w Hsame) as [-> ->].
  - intros err Hv r. subst r. rewrite run_from_dump. simpl.
    destruct (EntryBase.get_wikidict C_EntryFlexion dict_path w) as [[r w1] l] eqn:Hrun.
    unfold value_of, state_of, log_of in *. simpl in *. subst r.
    split; [done|]. intros Hsame.
    destruct (get_wikidict_Raise _ _ _ _ _ _ Hrun) as (_ & -> & -> & _).
    by destruct (looked_up_same dict_path w Hsame) as [-> ->].
  - intros d Hv. rewrite run_from_dump. simpl.
    destruct (EntryBase.get_wikidict C_Entry dict_path w) as [[r w1] l] eqn:Hrun.
    unfold value_of in Hv. simpl in Hv. subst r.
    destruct (get_wikidict_Ok _ _ _ _ _ _ Hrun) as (Hc & _).
    unfold value_of, state_of, log_of. simpl.
    destruct (Entry_init_built title (dump_wikitext d title) (dump_status d title)
                (Some "from dump") w1) as (e & He & Hb).
    rewrite !He. simpl. exists e.
    split; [done|]. split; [done|]. split; [done|]. by apply built_dumped.
  - intros d Hv. rewrite run_from_dump. simpl.
    destruct (EntryBase.get_wikidict C_EntryFlexion dict_path w) as [[r w1] l] eqn:Hrun.
    unfold value_of in Hv. simpl in Hv. subst r.
    destruct (get_wikidict_Ok _ _ _ _ _ _ Hrun) as (Hc & _).
    unfold value_of, state_of, log_of. simpl.
    destruct (EntryFlexion_init_built title (dump_wikitext d title) (dump_status d title)
                (Some "from dump") w1) as (e & He & Hb).
    rewrite !He. simpl. exists e.
    split; [done|]. split; [done|]. split; [done|]. by apply built_dumped.
Qed.

(** ** Word forms *)

Lemma section_body_flat lvl (w : Mw.Wikicode) : no_heading (Mw.section_body true lvl w).
Proof.
  induction w as [|n w IH]; [by intros x Hx; apply elem_of_nil in Hx|].
  destruct n as [v|t l|nm ps|lt lx]; simpl.
  2: by intros x Hx; apply elem_of_nil in Hx.
  all: intros x Hx; apply elem_of_cons in Hx as [->|Hx]; [done|by apply IH].
Qed.

Lemma sections_from_flat levels matches (w : Mw.Wikicode) :
  Forall (flat_section levels matches) (Mw.sections_from levels matches true true w).
Proof.
  induction w as [|n w IH]; [constructor|].
  destruct n as [v|t l|nm ps|lt lx]; simpl; try exact IH.
  destruct (Mw.heading_matches levels matches t l) eqn:Hm; simpl; [|exact IH].
  constructor; [|exact IH]. exists t, l, (Mw.section_body true l w).
  split; [done|]. split; [done|]. apply section_body_flat.
Qed.

Lemma wortart_sections_flat (g : Mw.Wikicode) :
  Forall (flat_section [3] (Some (Re.const "Wortart"))) (wortart_sections g).
Proof. unfold wortart_sections, Mw.get_sections. simpl. apply sections_from_flat. Qed.

Lemma filter_headings_head t l (body : Mw.Wikicode) :
  exists rest, Mw.filter_headings (Mw.NHeading t l :: body)
               = {| Mw.title := t; Mw.level := l |} :: rest.
Proof. unfold Mw.filter_headings, Mw.walk. simpl. eauto. Qed.

(** *** The section of a word form is never written *)


Lemma section_heading W : keeps (on_section W) WordForm.heading.
Proof. intros self Hs. by rewrite run_heading. Qed.

Lemma section_wortart_tpls W : keeps (on_section W) WordForm.wortart_tpls.
Proof.
  intros self Hs. unfold on_section in *.
  by destruct (wortart_tpls_frame self) as (_ & _ & _ & ->).
Qed.

Lemma section_pos W : keeps (on_section W) WordForm.pos.
Proof.
  intros self Hs. rewrite run_wordform_pos. unfold on_section in *.
  destruct (WordForm._pos self); [done|].
  pose proof (section_wortart_tpls W self Hs) as Hw. unfold on_section in Hw.
  simpl. destruct (value_of (WordForm.wortart_tpls self)); [|done].
  destruct (omap WordForm.pos_of_template a); [|done].
  by destruct (Mw.filter_headings _).
Qed.

Lemma section_uebersichten W : keeps (on_section W) WordForm.übersichten_tpls.
Proof.
  intros self Hs. rewrite run_übersichten_tpls.
  by destruct (WordForm._uebersichten_tpls self).
Qed.

Lemma section_inflections W all : keeps (on_section W) (WordForm.inflections all).
Proof.
  intros self Hs. rewrite run_inflections. simpl. by apply section_uebersichten.
Qed.

Lemma section_on_self W {A} (m : M WordForm.t A) :
  keeps (on_section W) m -> keeps (on_section_in W) (WordForm.on_self m).
Proof.
  intros Hm. unfold WordForm.on_self.
  by apply (keeps_zoom (on_section_in W) (on_section W)).
Qed.

Lemma section_on_world W {A} (m : M World A) :
  keeps (on_section_in W) (WordForm.on_world m).
Proof.
  unfold WordForm.on_world.
  by apply (keeps_zoom (on_section_in W) (fun _ => True)).
Qed.

Lemma section_assign W f : keeps (on_section_in W) (WordForm.assign__flexionseite f).
Proof. by intros [wf w] Hs. Qed.

Lemma section_return W : keeps (on_section_in W) WordForm.return__flexionseite.
Proof.
  intros [wf w] Hs. unfold WordForm.return__flexionseite, bind, get, state_of. simpl.
  by destruct (WordForm._WordForm__flexionseite wf).
Qed.

Lemma section_any W : keeps (on_section_in W) WordForm.any_verb_adjektiv.
Proof.
  unfold WordForm.any_verb_adjektiv.
  apply keeps_bind; [apply section_on_self, section_pos|].
  intros p. case_bool_decide; [apply keeps_ret|].
  apply keeps_bind; [apply section_on_self, section_pos|intros; apply keeps_ret].
Qed.

Lemma section_flexionseite W : keeps (on_section_in W) WordForm._flexionseite.
Proof.
  unfold WordForm._flexionseite.
  apply keeps_bind; [apply keeps_get|]. intros s.
  destruct (WordForm.attr__flexionseite s.1); [apply section_return|].
  destruct (PyStr.ne _ _).
  { apply keeps_bind; [apply section_assign|intros; apply section_return]. }
  apply keeps_bind; [apply section_any|]. intros any.
  destruct (negb any).
  { apply keeps_bind; [apply section_assign|intros; apply section_return]. }
  apply keeps_bind; [apply keeps_get|]. intros s'.
  destruct (WordForm.entry s'.1); [|apply keeps_raise].
  apply keeps_bind; [apply section_on_world|]. intros f.
  apply keeps_bind; [apply section_assign|intros; apply section_return].
Qed.

Lemma section_inflections_extended W :
  keeps (on_section_in W) WordForm.inflections_extended.
Proof.
  unfold WordForm.inflections_extended.
  apply keeps_bind; [apply section_flexionseite|]. intros [f|]; [|apply keeps_ret].
  apply keeps_bind; [apply section_flexionseite|]. intros [page|]; [|apply keeps_raise].
  apply keeps_bind; [apply keeps_call|intros; apply keeps_ret].
Qed.

Lemma section_run W (ops : list Ops.wordform_op) (s : WordForm.t * World) :
  on_section_in W s -> on_section_in W (Ops.wordform_run ops s).
Proof.
  revert s. induction ops as [|o ops IH]; intros s Hs; [done|].
  simpl. apply IH. destruct o; simpl.
  - by apply (section_on_self W _ (section_heading W)).
  - by apply (section_on_self W _ (section_wortart_tpls W)).
  - by apply (section_on_self W _ (section_pos W)).
  - by apply (section_on_self W _ (section_uebersichten W)).
  - by apply (section_on_self W _ (section_inflections W all)).
  - by apply section_flexionseite.
  - by apply section_inflections_extended.
  - done.
Qed.

(** *** With a heading, the accessors return *)

Lemma heading_returns (self : WordForm.t) t l body :
  WordForm.wordform self = Mw.NHeading t l :: body ->
  WordForm.heading self = (Ok {| Mw.title := t; Mw.level := l |}, self, [EvFilterHeadings]).
Proof.
  intros Hw. rewrite run_heading, Hw.
  by destruct (filter_headings_head t l body) as [rest ->].
Qed.

Lemma wortart_tpls_returns (self : WordForm.t) t l body :
  WordForm.wordform self = Mw.NHeading t l :: body ->
  returns (WordForm.wortart_tpls self).
Proof.
  intros Hw. rewrite run_wortart_tpls. unfold returns.
  destruct (WordForm._wortart_tpls self); [by eexists|]. simpl.
  destruct (wortart_templates self); [|by eexists].
  rewrite Hw. destruct (filter_headings_head t l body) as [rest ->]. by eexists.
Qed.

Lemma pos_returns (self : WordForm.t) t l body :
  WordForm.wordform self = Mw.NHeading t l :: body ->
  returns (WordForm.pos self).
Proof.
  intros Hw. rewrite run_wordform_pos. unfold returns.
  destruct (WordForm._pos self); [by eexists|]. simpl.
  destruct (wortart_tpls_returns self t l body Hw) as [tpls Htpls].
  pose proof (section_wortart_tpls _ self Hw) as Hs. unfold on_section in Hs.
  rewrite Htpls. destruct (omap WordForm.pos_of_template tpls); [|by eexists].
  simpl. rewrite Hs. destruct (filter_headings_head t l body) as [rest ->]. by eexists.
Qed.

(** X10.  A word form made of a section that starts with its heading never
    fails to answer.  After any sequence of operations on it, in any world,
    [heading] returns that heading, and [wortart_tpls], [pos] and
    [inflections] return: the [IndexError] of [filter_headings()[0]] cannot
    happen. *)
Theorem wordform_with_heading_returns (t : Mw.Wikicode) (l : nat) (body : Mw.Wikicode)
    (entry : option WordForm.EntryRef) (ops : list Ops.wordform_op) (w : World) :
  let wf := WordForm.__init__ (Mw.NHeading t l :: body) entry in
  let s := Ops.wordform_run ops (wf, w) in
  WordForm.heading s.1 = (Ok {| Mw.title := t; Mw.level := l |}, s.1, [EvFilterHeadings])
  /\ returns (WordForm.wortart_tpls s.1)
  /\ returns (WordForm.pos s.1)
  /\ (forall all, returns (WordForm.inflections all s.1)).
Proof.
  intros wf s.
  assert (Hs : WordForm.wordform s.1 = Mw.NHeading t l :: body).
  { by apply (section_run (Mw.NHeading t l :: body) ops (wf, w)). }
  split; [by apply (heading_returns _ t l body)|].
  split; [by eapply wortart_tpls_returns|].
  split; [by eapply pos_returns|].
  intros all. rewrite run_inflections. by eexists.
Qed.

Lemma section_body_split lvl (w : Mw.Wikicode) :
  exists rest,
    w = Mw.section_body true lvl w ++ rest
    /\ (rest = [] \/ exists n rest', rest = n :: rest' /\ is_Some (Mw.as_heading n)).
Proof.
  induction w as [|n w (rest & Hw & Hrest)]; [exists []; by split; [|left]|].
  destruct n as [v|t l|nm ps|lt lx]; simpl.
  2: { exists (Mw.NHeading t l :: w). split; [done|]. right. by eexists _, _. }
  all: exists rest; split; [by rewrite <- Hw|done].
Qed.

Lemma sections_from_at levels matches (w0 w : Mw.Wikicode) (k : nat) :
  drop k w0 = w ->
  Forall2 (flat_section_at w0) (positions_from (passes levels matches) k w)
          (Mw.sections_from levels matches true true w).
Proof.
  revert k. induction w as [|n w IH]; intros k Hk; [constructor|].
  assert (Hnext : drop (S k) w0 = w).
  { replace (S k) with (k + 1) by lia. by rewrite <- drop_drop, Hk. }
  specialize (IH (S k) Hnext).
  destruct n as [v|t l|nm ps|lt lx]; simpl; try exact IH.
  destruct (Mw.heading_matches levels matches t l) eqn:Hm; simpl; [|exact IH].
  constructor; [|exact IH].
  destruct (section_body_split l w) as (rest & Hw & Hrest).
  exists (Mw.NHeading t l), (Mw.section_body true l w), rest.
  split; [by rewrite Hk, <- Hw|]. split; [done|]. split; [by eexists|].
  split; [apply section_body_flat|done].
Qed.

(** X9.  The word forms of an entry with status ['OK'].  [wordforms]
    returns one word form per top-level heading of level 3 of the German
    section whose title [Wortart] is found in, in document order.  The
    section of the i-th word form is the part of the German section that
    starts with the i-th such heading and ends before the next heading of
    any level, or at the end of the German section when no heading follows;
    so it holds no other top-level heading and none of its subsections.
    Each word form has the entry as its [entry].  The list is empty exactly
    when the status of the entry is no longer ['OK'] afterwards. *)
Theorem wordforms_are_flat_sections (e : Entry.t) (g : Mw.Wikicode) :
  Entry._wordforms e = None ->
  Entry.status e = "OK" ->
  Entry.german e = Some g ->
  let r := Entry.wordforms e in
  exists forms : list WordForm.t,
    value_of r = Ok forms
    /\ map (fun wf => take 1 (WordForm.wordform wf)) forms
       = map (fun h => [h]) (filter (passes [3] (Some (Re.const "Wortart"))) g)
    /\ Forall2 (fun i wf => flat_section_at g i (WordForm.wordform wf))
               (positions (passes [3] (Some (Re.const "Wortart"))) g) forms
    /\ Forall (fun wf =>
                 exists t body,
                   wf = WordForm.__init__ (Mw.NHeading t 3 :: body) (Some (Entry.ref e))
                   /\ no_heading body
                   /\ Mw.matcher (Some (Re.const "Wortart")) (Mw.str t) = true) forms
    /\ (forms = [] <-> Entry.status (state_of r) <> "OK").
Proof.
  intros Hmemo Hst Hg r. subst r.
  rewrite run_wordforms, Hmemo, (proj2 (ne_false _ _) Hst), Hg. cbv zeta.
  eexists. split; [reflexivity|]. split.
  { rewrite map_map. simpl. unfold wortart_sections, Mw.get_sections. simpl.
    apply sections_from_heads. }
  split.
  { apply Forall2_fmap_r. unfold wortart_sections, Mw.get_sections, positions. simpl.
    by apply sections_from_at. }
  split.
  { apply Forall_fmap. eapply Forall_impl; [apply wortart_sections_flat|].
    intros section (t & l & body & -> & Hm & Hbody). simpl.
    unfold Mw.heading_matches in Hm. apply andb_true_iff in Hm as [Hm Hl].
    apply orb_true_iff in Hl as [Hl|Hl]; apply bool_decide_eq_true in Hl; [done|].
    apply list_elem_of_singleton in Hl as ->. by exists t, body. }
  unfold state_of. simpl. destruct (wortart_sections g) as [|x l]; simpl.
  - split; [|done]. intros _. by apply diagnostic_ne_OK.
  - split; [done|]. intros Hne. by destruct Hne.
Qed.

(** ** What cannot raise *)

Lemma built_sound title wikitext status ef b g :
  built title wikitext status ef b g -> EntryBase.status b = "OK" -> is_Some g.
Proof.
  intros (_ & _ & _ & Hg & Hs) Hok. apply Hs in Hok as [_ [section Hsec]].
  exists section. by apply Hg.
Qed.

Lemma entry_step_sound (o : Ops.entry_op) (e : Entry.t) :
  entry_sound e -> entry_sound (Ops.entry_step o e).
Proof.
  intros Hs Hok.
  assert (Hst : Entry.status e = "OK").
  { destruct (decide (Entry.status e = "OK")) as [|Hne]; [done|]. exfalso.
    revert Hok. destruct o; simpl.
    - by apply keeps_wordforms.
    - by apply (keeps_entry_base _ keeps_get_section_de).
    - by apply (keeps_entry_base _ keeps_parsed). }
  specialize (Hs Hst).
  assert (Hg : Entry.german (Ops.entry_step o e) = Entry.german e); [|by rewrite Hg].
  destruct o; simpl.
  - rewrite run_wordforms. destruct (Entry._wordforms e); [done|].
    destruct (PyStr.ne _ _); [done|]. destruct (Entry.german e) eqn:Hge; [|done].
    unfold state_of. simpl. by destruct (wortart_sections _).
  - unfold Ops.entry_base, zoom, state_of.
    by destruct (EntryBase._get_section_de (Entry.base e)) as [[r b] l].
  - unfold Ops.entry_base, zoom, state_of.
    by destruct (EntryBase.parsed (Entry.base e)) as [[r b] l].
Qed.

Lemma entry_run_sound (ops : list Ops.entry_op) (e : Entry.t) :
  entry_sound e -> entry_sound (Ops.entry_run ops e).
Proof.
  revert e. induction ops as [|o ops IH]; intros e He; [done|].
  simpl. by apply IH, entry_step_sound.
Qed.

Lemma wordforms_returns (e : Entry.t) : entry_sound e -> returns (Entry.wordforms e).
Proof.
  intros Hs. rewrite run_wordforms. unfold returns.
  destruct (Entry._wordforms e); [by eexists|].
  destruct (PyStr.ne _ _) eqn:Hne; [by eexists|]. apply ne_false in Hne.
  destruct (Hs Hne) as [g ->]. by eexists.
Qed.

Lemma flexion_tpls_german (f : EntryFlexion.t) :
  EntryFlexion.german (state_of (EntryFlexion.flexion_tpls f)) = EntryFlexion.german f.
Proof.
  rewrite run_flexion_tpls. destruct (EntryFlexion._flexion_tpls f); [done|].
  destruct (PyStr.ne _ _); [done|]. destruct (EntryFlexion.german f) eqn:Hg; [|done].
  unfold state_of. simpl. unfold tpls_status.
  by destruct (scanned_templates _) as [|x [|y ys]].
Qed.

Lemma flexion_pos_german (f : EntryFlexion.t) :
  EntryFlexion.german (state_of (EntryFlexion.pos f)) = EntryFlexion.german f.
Proof.
  rewrite run_flexion_pos. destruct (EntryFlexion._pos f); [done|].
  destruct (PyStr.ne _ _); [done|].
  pose proof (flexion_tpls_german (EntryFlexion.set__pos [] f)) as Hg.
  simpl. destruct (value_of _); unfold state_of at 1; simpl; [|done].
  unfold pos_status. by destruct (omap _ _) as [|x [|y ys]].
Qed.

Lemma flexion_step_sound (o : Ops.flexion_op) (f : EntryFlexion.t) :
  flexion_sound f -> flexion_sound (Ops.flexion_step o f).
Proof.
  intros Hs Hok.
  assert (Hst : EntryFlexion.status f = "OK").
  { destruct (decide (EntryFlexion.status f = "OK")) as [|Hne]; [done|]. exfalso.
    revert Hok. destruct o; simpl.
    - by apply keeps_flexion_pos.
    - by apply keeps_flexion_tpls.
    - by apply keeps_flexion_inflections.
    - by apply (keeps_flexion_base _ keeps_get_section_de).
    - by apply (keeps_flexion_base _ keeps_parsed). }
  specialize (Hs Hst).
  assert (Hg : EntryFlexion.german (Ops.flexion_step o f) = EntryFlexion.german f);
    [|by rewrite Hg].
  destruct o; simpl.
  - apply flexion_pos_german.
  - apply flexion_tpls_german.
  - unfold EntryFlexion.inflections, bind, ret.
    pose proof (flexion_tpls_german f) as Hg. unfold state_of in *.
    by destruct (EntryFlexion.flexion_tpls f) as [[[tpls|err] f'] l].
  - unfold Ops.flexion_base, zoom, state_of.
    by destruct (EntryBase._get_section_de (EntryFlexion.base f)) as [[r b] l].
  - unfold Ops.flexion_base, zoom, state_of.
    by destruct (EntryBase.parsed (EntryFlexion.base f)) as [[r b] l].
Qed.

Lemma flexion_run_sound (ops : list Ops.flexion_op) (f : EntryFlexion.t) :
  flexion_sound f -> flexion_sound (Ops.flexion_run ops f).
Proof.
  revert f. induction ops as [|o ops IH]; intros f Hf; [done|].
  simpl. by apply IH, flexion_step_sound.
Qed.

Lemma flexion_tpls_returns (f : EntryFlexion.t) :
  flexion_sound f -> returns (EntryFlexion.flexion_tpls f).
Proof.
  intros Hs. rewrite run_flexion_tpls. unfold returns.
  destruct (EntryFlexion._flexion_tpls f); [by eexists|].
  destruct (PyStr.ne _ _) eqn:Hne; [by eexists|]. apply ne_false in Hne.
  destruct (Hs Hne) as [g ->]. by eexists.
Qed.

Lemma flexion_pos_returns (f : EntryFlexion.t) :
  flexion_sound f -> returns (EntryFlexion.pos f).
Proof.
  intros Hs. rewrite run_flexion_pos. unfold returns.
  destruct (EntryFlexion._pos f); [by eexists|].
  destruct (PyStr.ne _ _) eqn:Hne; [by eexists|].
  destruct (flexion_tpls_returns (EntryFlexion.set__pos [] f) Hs) as [tpls Ht].
  simpl. rewrite Ht. by eexists.
Qed.

Lemma flexion_inflections_returns (f : EntryFlexion.t) :
  flexion_sound f -> returns (EntryFlexion.inflections f).
Proof.
  intros Hs. destruct (flexion_tpls_returns f Hs) as [tpls Ht].
  unfold EntryFlexion.inflections, bind, ret, returns, value_of in *.
  destruct (EntryFlexion.flexion_tpls f) as [[[t|err] f'] l]; [by eexists|done].
Qed.

(** X11.  The accessors of a constructed page do not raise.  Whatever the
    arguments of the constructor, [Entry.__init__] and
    [EntryFlexion.__init__] return an object, and after any sequence of
    operations on it [wordforms], respectively [flexion_tpls], [pos] and
    [inflections], return: [german] is [None] only on an object whose status
    is not ['OK'], and these accessors read [german] only when the status is
    ['OK']. *)
Theorem constructed_pages_never_raise (title : string) (wikitext : option string)
    (status : string) (extracted_from : option string) :
  (exists e : Entry.t,
      value_of (Entry.__init__ title wikitext status extracted_from tt) = Ok e
      /\ forall ops : list Ops.entry_op,
           returns (Entry.wordforms (Ops.entry_run ops e)))
  /\ (exists f : EntryFlexion.t,
        value_of (EntryFlexion.__init__ title wikitext status extracted_from tt) = Ok f
        /\ forall ops : list Ops.flexion_op,
             returns (EntryFlexion.flexion_tpls (Ops.flexion_run ops f))
             /\ returns (EntryFlexion.pos (Ops.flexion_run ops f))
             /\ returns (EntryFlexion.inflections (Ops.flexion_run ops f))).
Proof.
  split.
  - destruct (Entry_init_built title wikitext status extracted_from tt) as (e & -> & Hb).
    exists e. split; [done|]. intros ops. apply wordforms_returns, entry_run_sound.
    intros Hok. by eapply built_sound.
  - destruct (EntryFlexion_init_built title wikitext status extracted_from tt)
      as (f & -> & Hb).
    exists f. split; [done|]. intros ops.
    assert (Hs : flexion_sound (Ops.flexion_run ops f)).
    { apply flexion_run_sound. intros Hok. by eapply built_sound. }
    split; [by apply flexion_tpls_returns|].
    split; [by apply flexion_pos_returns|by apply flexion_inflections_returns].
Qed.

(** *** The order of [flexion_tpls] and [pos] *)

Lemma run_flexion_tpls_fresh (f : EntryFlexion.t) (g : Mw.Wikicode) :
  EntryFlexion.status f = "OK" ->
  EntryFlexion._flexion_tpls f = None ->
  EntryFlexion.german f = Some g ->
  EntryFlexion.flexion_tpls f
  = (Ok (scanned_templates g),
     tpls_status (scanned_templates g)
       (EntryFlexion.set__flexion_tpls (scanned_templates g) f),
     scan_log g).
Proof.
  intros Hst Htpls Hg. by rewrite run_flexion_tpls, Htpls, (proj2 (ne_false _ _) Hst), Hg.
Qed.

Lemma run_flexion_pos_fresh (f : EntryFlexion.t) (g : Mw.Wikicode) :
  EntryFlexion.status f = "OK" ->
  EntryFlexion._pos f = None ->
  EntryFlexion._flexion_tpls f = None ->
  EntryFlexion.german f = Some g ->
  EntryFlexion.pos f
  = (Ok (omap EntryFlexion.pos_of_template (scanned_templates g)),
     pos_status (omap EntryFlexion.pos_of_template (scanned_templates g))
       (EntryFlexion.set__pos (omap EntryFlexion.pos_of_template (scanned_templates g))
          (tpls_status (scanned_templates g)
             (EntryFlexion.set__flexion_tpls (scanned_templates g)
                (EntryFlexion.set__pos [] f)))),
     scan_log g).
Proof.
  intros Hst Hpos Htpls Hg.
  rewrite run_flexion_pos, Hpos, (proj2 (ne_false _ _) Hst).
  by rewrite (run_flexion_tpls_fresh (EntryFlexion.set__pos [] f) g).
Qed.

Lemma run_flexion_inflections (f : EntryFlexion.t) :
  EntryFlexion.inflections f
  = (match value_of (EntryFlexion.flexion_tpls f) with
     | Ok tpls => Ok (map Tools.template_to_dict tpls)
     | Raise err => Raise err
     end, state_of (EntryFlexion.flexion_tpls f), log_of (EntryFlexion.flexion_tpls f)).
Proof.
  unfold EntryFlexion.inflections, bind, ret, value_of, state_of, log_of.
  destruct (EntryFlexion.flexion_tpls f) as [[[tpls|err] f'] l]; simpl; [|done].
  by rewrite app_nil_r.
Qed.

(** X12.  On a Flexion page the answer of [pos] depends on what was read
    before.  Take a page with status ['OK'], nothing memoized, whose scan
    does not find exactly one template.  [inflections] returns one table per
    template found and leaves a status that is not ['OK']; [pos] read after
    it returns the empty list, memoizes nothing and changes nothing.  [pos]
    read first returns the token of every template that has one, and
    [inflections] read after it still returns the tables. *)
Theorem flexion_pos_after_tpls (f : EntryFlexion.t) (g : Mw.Wikicode) :
  EntryFlexion.status f = "OK" ->
  EntryFlexion._pos f = None ->
  EntryFlexion._flexion_tpls f = None ->
  EntryFlexion.german f = Some g ->
  length (scanned_templates g) <> 1 ->
  let tables := map Tools.template_to_dict (scanned_templates g) in
  let f1 := state_of (EntryFlexion.inflections f) in
  let f2 := state_of (EntryFlexion.pos f) in
  value_of (EntryFlexion.inflections f) = Ok tables
  /\ EntryFlexion.status f1 <> "OK"
  /\ EntryFlexion.pos f1 = (Ok [], f1, [])
  /\ value_of (EntryFlexion.pos f)
     = Ok (omap EntryFlexion.pos_of_template (scanned_templates g))
  /\ value_of (EntryFlexion.inflections f2) = Ok tables.
Proof.
  intros Hst Hpos Htpls Hg Hlen tables f1 f2. subst tables f1 f2.
  rewrite (run_flexion_inflections f), (run_flexion_tpls_fresh f g) by done.
  rewrite (run_flexion_pos_fresh f g) by done.
  unfold value_of, state_of. simpl.
  set (tpls := scanned_templates g) in *.
  set (p := omap EntryFlexion.pos_of_template tpls).
  assert (Hfail : EntryFlexion.status
                    (tpls_status tpls (EntryFlexion.set__flexion_tpls tpls f)) <> "OK").
  { unfold tpls_status. destruct tpls as [|x [|y l]]; simpl in *; not_OK. }
  assert (Hmemo : EntryFlexion._pos
                    (tpls_status tpls (EntryFlexion.set__flexion_tpls tpls f)) = None).
  { unfold tpls_status. by destruct tpls as [|x [|y l]]. }
  split; [done|]. split; [done|]. split.
  { rewrite run_flexion_pos, Hmemo. by rewrite (proj2 (ne_true _ _) Hfail). }
  split; [done|].
  rewrite run_flexion_inflections. unfold value_of. simpl. rewrite run_flexion_tpls.
  assert (Hm : EntryFlexion._flexion_tpls
                 (pos_status p
                    (EntryFlexion.set__pos p
                       (tpls_status tpls
                          (EntryFlexion.set__flexion_tpls tpls
                             (EntryFlexion.set__pos [] f)))))
               = Some tpls).
  { unfold pos_status, tpls_status.
    destruct p as [|a [|b c]]; by destruct tpls as [|x [|y l]]. }
  by rewrite Hm.
Qed.

(** X13.  When [pos] leaves a Flexion page ['OK'].  On a page with status
    ['OK'] and nothing memoized, the status after [pos] is ['OK'] exactly
    when the scan finds exactly one template and the name of that template
    holds one of the five tokens; [pos] then returns that one token. *)
Theorem flexion_pos_ok_iff (f : EntryFlexion.t) (g : Mw.Wikicode) :
  EntryFlexion.status f = "OK" ->
  EntryFlexion._pos f = None ->
  EntryFlexion._flexion_tpls f = None ->
  EntryFlexion.german f = Some g ->
  let r := EntryFlexion.pos f in
  (EntryFlexion.status (state_of r) = "OK"
   <-> exists template tok,
         scanned_templates g = [template]
         /\ EntryFlexion.pos_of_template template = Some tok)
  /\ (forall template tok,
        scanned_templates g = [template] ->
        EntryFlexion.pos_of_template template = Some tok ->
        value_of r = Ok [tok]).
Proof.
  intros Hst Hpos Htpls Hg r. subst r.
  rewrite (run_flexion_pos_fresh f g) by done. unfold value_of, state_of. simpl.
  split.
  - destruct (scanned_templates g) as [|x [|y l]] eqn:Hs.
    + simpl. split; [|by intros (? & ? & ? & _)]. intros Hok. exfalso. revert Hok.
      not_OK.
    + simpl. destruct (EntryFlexion.pos_of_template x) as [tok|] eqn:Hx; simpl.
      * split; [|done]. intros _. by exists x, tok.
      * split.
        -- intros Hok. exfalso. revert Hok. not_OK.
        -- intros (t & tok & [= <-] & Ht). congruence.
    + split; [|by intros (? & ? & ? & _)]. intros Hok. exfalso. revert Hok.
      generalize (omap EntryFlexion.pos_of_template (x :: y :: l)).
      intros p. unfold pos_status. destruct p as [|a [|b c]]; simpl; not_OK.
  - intros template tok -> Ht. simpl. by rewrite Ht.
Qed.

(** ** [print_sections_tree] and [WordForm.pos] *)

Lemma run_for_each_print {S} (level : Z) (headings : list Mw.Heading) (s : S) :
  for_each headings (EntryBase.print_heading level) s
  = (Ok tt, s,
     map (fun heading => EvPrint (EntryBase.tree_line level heading))
         (filter (fun heading => (level <= Z.of_nat (Mw.level heading))%Z) headings)).
Proof.
  induction headings as [|h hs IH]; [done|].
  simpl. unfold bind, EntryBase.print_heading at 1. rewrite filter_cons.
  destruct (Z.leb_spec level (Z.of_nat (Mw.level h))) as [Hle|Hgt].
  - rewrite decide_True by done. unfold tell. rewrite IH. reflexivity.
  - rewrite decide_False by lia. unfold ret. rewrite IH. reflexivity.
Qed.

Lemma printed_map_print (lines : list string) : printed (map EvPrint lines) = lines.
Proof. induction lines as [|x l IH]; [done|]. simpl. unfold printed in *. simpl. by rewrite IH. Qed.

(** X17.  [print_sections_tree] prints one line per heading of the tree
    whose level is at least [level], in the order of the walk through the
    tree (headings inside other nodes included): eight blanks per level
    below [level], a blank, the level, a blank, the title.  It does not
    raise, and it leaves the status, the text and the title as they are;
    given a section it leaves the whole object as it is, and without one it
    prints the headings of the parsed page. *)
Theorem print_sections_tree_lines (self : EntryBase.t) (section : option Mw.Wikicode)
    (level : Z) :
  let r := EntryBase.print_sections_tree section level self in
  let tree := default (document self) section in
  value_of r = Ok tt
  /\ printed (log_of r)
     = map (EntryBase.tree_line level)
           (filter (fun heading => (level <= Z.of_nat (Mw.level heading))%Z)
                   (Mw.filter_headings tree))
  /\ EntryBase.status (state_of r) = EntryBase.status self
  /\ EntryBase.text (state_of r) = EntryBase.text self
  /\ EntryBase.title (state_of r) = EntryBase.title self
  /\ (is_Some section -> state_of r = self).
Proof.
  intros r tree. subst r tree. unfold EntryBase.print_sections_tree.
  destruct section as [section|]; simpl.
  - unfold bind, ret, tell. rewrite run_for_each_print.
    unfold value_of, state_of, log_of. simpl.
    rewrite <- (map_map (EntryBase.tree_line level) EvPrint).
    change (printed (EvFilterHeadings :: ?l)) with (printed l).
    by rewrite printed_map_print.
  - unfold bind, EntryBase.parsed, bind, get, put, ret, tell, document.
    destruct (EntryBase._parsed self) as [p|] eqn:Hp; simpl;
      rewrite run_for_each_print; unfold value_of, state_of, log_of; simpl;
      rewrite <- (map_map (EntryBase.tree_line level) EvPrint);
      [ change (printed (EvFilterHeadings :: ?l)) with (printed l)
      | change (printed (EvParse :: EvFilterHeadings :: ?l)) with (printed l) ];
      rewrite printed_map_print; repeat split; try done; by intros [? ?].
Qed.

(** *** [pos] of a word form *)

Lemma run_wortart_tpls_fresh (wf : WordForm.t) (h : Mw.Heading) (hs : list Mw.Heading) :
  WordForm._wortart_tpls wf = None ->
  Mw.filter_headings (WordForm.wordform wf) = h :: hs ->
  WordForm.wortart_tpls wf
  = match wortart_templates wf with
    | [] =>
        (Ok [],
         WordForm.set__wortart_tpls []
           (WordForm.set_status
              ("No Wortart template found for " +:+ Mw.str (Mw.title h))
              (WordForm.set__wortart_tpls [] wf)),
         [EvFilterTemplates; EvFilterHeadings])
    | l => (Ok l, WordForm.set__wortart_tpls l wf, [EvFilterTemplates])
    end.
Proof.
  intros Htpls Hh. rewrite run_wortart_tpls, Htpls. cbv zeta.
  destruct (wortart_templates wf); [by rewrite Hh|done].
Qed.

(** X14.  The status [pos] leaves on a word form with a heading and
    nothing memoized.  [pos] returns, and memoizes, the first parameter of
    every [Wortart] template that has one which is not empty.  When that list
    is not empty the status is left as it was.  When it is empty the status
    is the "no POS" diagnostic with the title of the heading, also when there
    is no [Wortart] template at all: the "no Wortart template" diagnostic is
    what [wortart_tpls] alone leaves, and [pos] writes over it. *)
Theorem wordform_pos_status (wf : WordForm.t) (h : Mw.Heading) (hs : list Mw.Heading) :
  WordForm._pos wf = None ->
  WordForm._wortart_tpls wf = None ->
  Mw.filter_headings (WordForm.wordform wf) = h :: hs ->
  let r := WordForm.pos wf in
  let p := omap WordForm.pos_of_template (wortart_templates wf) in
  value_of r = Ok p
  /\ WordForm._pos (state_of r) = Some p
  /\ (p <> [] -> WordForm.status (state_of r) = WordForm.status wf)
  /\ (p = [] -> WordForm.status (state_of r)
                = "No POS found for " +:+ Mw.str (Mw.title h))
  /\ (wortart_templates wf = [] ->
      WordForm.status (state_of (WordForm.wortart_tpls wf))
      = "No Wortart template found for " +:+ Mw.str (Mw.title h)).
Proof.
  intros Hpos Htpls Hh r p. subst r p.
  rewrite run_wordform_pos, Hpos, (run_wortart_tpls_fresh wf h hs) by done.
  cbv zeta.
  destruct (wortart_templates wf) as [|x l] eqn:Hw.
  - unfold value_of, state_of, log_of. cbn [fst snd omap list_omap].
    change (Mw.filter_headings (WordForm.wordform (WordForm.set__pos [] ?s)))
      with (Mw.filter_headings (WordForm.wordform wf)).
    rewrite Hh. cbn [fst snd].
    split; [done|]. split; [done|]. split; [done|]. split; [done|]. by intros.
  - unfold value_of, state_of, log_of. cbn [fst snd].
    remember (omap WordForm.pos_of_template (x :: l)) as p eqn:Hp.
    change (Mw.filter_headings (WordForm.wordform (WordForm.set__pos p ?s)))
      with (Mw.filter_headings (WordForm.wordform wf)).
    rewrite Hh. destruct p as [|a b]; cbn [fst snd].
    + split; [done|]. split; [done|]. split; [done|]. split; [done|]. by intros.
    + split; [done|]. split; [done|]. split; [done|]. split; [done|]. by intros.
Qed.

(** *** [inflections_extended] *)

Lemma pos_nonempty_status (self self' : WordForm.t) p l :
  WordForm.pos self = (Ok p, self', l) -> p <> [] ->
  WordForm.status self' = WordForm.status self.
Proof.
  rewrite run_wordform_pos. destruct (WordForm._pos self); [by intros [= <- <- <-]|].
  cbv zeta. rewrite run_wortart_tpls.
  destruct (WordForm._wortart_tpls self) as [tpls|].
  - unfold value_of, state_of, log_of. cbn [fst snd].
    remember (omap WordForm.pos_of_template tpls) as q. destruct q as [|a b].
    + destruct (Mw.filter_headings _); [done|]. by intros [= <- <- <-].
    + by intros [= <- <- <-].
  - cbv zeta. destruct (wortart_templates self) as [|x xs].
    + destruct (Mw.filter_headings (WordForm.wordform self)); [done|].
      unfold value_of, state_of, log_of. cbn [fst snd omap list_omap].
      destruct (Mw.filter_headings _); [done|]. by intros [= <- <- <-].
    + unfold value_of, state_of, log_of. cbn [fst snd].
      remember (omap WordForm.pos_of_template (x :: xs)) as q. destruct q as [|a b].
      * destruct (Mw.filter_headings _); [done|]. by intros [= <- <- <-].
      * by intros [= <- <- <-].
Qed.

Lemma run_pos_memo (self : WordForm.t) p :
  WordForm._pos self = Some p -> WordForm.pos self = (Ok p, self, []).
Proof. intros Hp. by rewrite run_wordform_pos, Hp. Qed.

Lemma run_inflections_extended_none (wf wf' : WordForm.t) (w : World) p l :
  WordForm.attr__flexionseite wf = None ->
  WordForm.status wf = "OK" ->
  WordForm.pos wf = (Ok p, wf', l) ->
  "Verb" ∉ p -> "Adjektiv" ∉ p ->
  WordForm.inflections_extended (wf, w)
  = (Ok [], (WordForm.set__WordForm__flexionseite None wf', w), l).
Proof.
  intros Hattr Hst Hp Hv Ha. unfold WordForm.inflections_extended, bind.
  rewrite (run_flexionseite_ok wf wf' w p l Hattr Hst Hp).
  rewrite !bool_decide_eq_false_2 by done. simpl. by rewrite app_nil_r.
Qed.

Lemma run_inflections_extended_some (wf wf' : WordForm.t) (w : World)
    (p : list string) (l : list event) (e : WordForm.EntryRef) :
  WordForm.attr__flexionseite wf = None ->
  WordForm.status wf = "OK" ->
  WordForm.pos wf = (Ok p, wf', l) ->
  "Verb" ∈ p \/ "Adjektiv" ∈ p ->
  WordForm.entry wf = Some e ->
  WordForm.inflections_extended (wf, w)
  = let r1 := resolve e w in
    match value_of r1 with
    | Raise err => (Raise err, (wf', state_of r1), l ++ log_of r1)
    | Ok first =>
        let wf1 := WordForm.set__WordForm__flexionseite (Some first) wf' in
        let r2 := resolve e (state_of r1) in
        match value_of r2 with
        | Raise err => (Raise err, (wf1, state_of r2), l ++ log_of r1 ++ log_of r2)
        | Ok second =>
            let r3 := EntryFlexion.inflections second in
            (value_of r3,
             (WordForm.set__WordForm__flexionseite (Some second) wf1, state_of r2),
             l ++ log_of r1 ++ log_of r2 ++ log_of r3)
        end
    end.
Proof.
  intros Hattr Hst Hp Hin He.
  assert (Hst' : WordForm.status wf' = "OK").
  { rewrite <- Hst. apply (pos_nonempty_status _ _ _ _ Hp).
    intros ->. destruct Hin as [Hin|Hin]; by apply elem_of_nil in Hin. }
  assert (Hany : bool_decide ("Verb" ∈ p) || bool_decide ("Adjektiv" ∈ p) = true).
  { apply orb_true_iff. by rewrite !bool_decide_eq_true. }
  pose proof (pos_frame wf) as (Hentry & Hattr' & _). rewrite Hp in Hentry, Hattr'.
  unfold state_of in Hentry, Hattr'. simpl in Hentry, Hattr'.
  rewrite Hattr in Hattr'.
  unfold WordForm.inflections_extended. unfold bind at 1.
  rewrite (run_flexionseite_ok wf wf' w p l Hattr Hst Hp), Hany, He. cbv zeta.
  unfold value_of, state_of, log_of.
  destruct (resolve e w) as [[[first|err] w1] l1]; cbn [fst snd]; [|done].
  set (wf1 := WordForm.set__WordForm__flexionseite (Some first) wf').
  assert (Hp1 : WordForm.pos wf1 = (Ok p, wf1, [])).
  { apply run_pos_memo. apply (pos_memoized _ _ _ _ Hp). }
  unfold bind at 1.
  rewrite (run_flexionseite_ok wf1 wf1 w1 p [] Hattr' Hst' Hp1), Hany.
  change (WordForm.entry wf1) with (WordForm.entry wf'). rewrite Hentry, He. cbv zeta.
  unfold value_of, state_of, log_of.
  destruct (resolve e w1) as [[[second|err] w2] l2]; cbn [fst snd app];
    [|by rewrite app_assoc].
  unfold bind, call, ret.
  destruct (EntryFlexion.inflections second) as [[[tables|err] page] l3];
    cbn [fst snd]; by rewrite ?app_nil_r, ?app_assoc.
Qed.

Lemma lookups_flexion_inflections (f : EntryFlexion.t) :
  lookups (log_of (EntryFlexion.inflections f)) = [].
Proof.
  rewrite run_flexion_inflections. unfold log_of at 1. cbn [snd].
  rewrite run_flexion_tpls.
  destruct (EntryFlexion._flexion_tpls f); [done|].
  destruct (PyStr.ne _ _); [done|].
  destruct (EntryFlexion.german f); [apply lookups_scan_log|done].
Qed.

(** X15.  [inflections_extended] resolves the companion page twice.  On a
    word form with status ['OK'] whose [pos] holds ['Verb'] or ['Adjektiv'],
    the condition [if self._flexionseite] resolves the title
    ['Flexion:'] + entry title once, and [self._flexionseite.inflections()]
    resolves it again, in the world the first resolution left: two requests
    or two archive lookups per call.  The tables returned are the ones of
    the second page.  When the first resolution raises, that exception is
    the result after one resolution. *)
Theorem inflections_extended_resolves_twice (wf wf' : WordForm.t) (w : World)
    (p : list string) (l : list event) (e : WordForm.EntryRef) :
  WordForm.attr__flexionseite wf = None ->
  WordForm.status wf = "OK" ->
  WordForm.pos wf = (Ok p, wf', l) ->
  "Verb" ∈ p \/ "Adjektiv" ∈ p ->
  WordForm.entry wf = Some e ->
  let r := WordForm.inflections_extended (wf, w) in
  match value_of (resolve e w) with
  | Raise err =>
      value_of r = Raise err /\ lookups (log_of r) = [resolution_event e]
  | Ok first =>
      lookups (log_of r) = [resolution_event e; resolution_event e]
      /\ value_of r
         = match value_of (resolve e (state_of (resolve e w))) with
           | Ok second => value_of (EntryFlexion.inflections second)
           | Raise err => Raise err
           end
  end.
Proof.
  intros Hattr Hst Hp Hin He r. subst r.
  rewrite (run_inflections_extended_some wf wf' w p l e) by done. cbv zeta.
  pose proof (no_lookups_pos wf) as Hl. rewrite Hp in Hl. unfold log_of in Hl.
  simpl in Hl. unfold no_lookups in Hl.
  pose proof (lookups_resolve e w) as Hl1.
  pose proof (lookups_resolve e (state_of (resolve e w))) as Hl2.
  destruct (value_of (resolve e w)) as [first|err].
  2:{ split; [done|]. unfold log_of at 1. cbn [snd].
      by rewrite lookups_app, Hl, Hl1. }
  destruct (value_of (resolve e (state_of (resolve e w)))) as [second|err].
  - split; [|done]. unfold log_of at 1. cbn [snd].
    by rewrite !lookups_app, Hl, Hl1, Hl2, lookups_flexion_inflections.
  - split; [|done]. unfold log_of at 1. cbn [snd].
    by rewrite !lookups_app, Hl, Hl1, Hl2.
Qed.

(** *** Trimmed keys and values *)

Lemma rstrip_idemp (s : string) : PyStr.rstrip (PyStr.rstrip s) = PyStr.rstrip s.
Proof.
  induction s as [|c s IH]; [done|]. simpl.
  destruct (PyStr.rstrip s) as [|d r] eqn:Hr.
  - destruct (PyStr.isspace c) eqn:Hc; [done|]. simpl. by rewrite Hc.
  - simpl. simpl in IH. by rewrite IH.
Qed.

Lemma rstrip_tail (c : ascii) (s : string) :
  PyStr.rstrip (String c s) = String c s -> PyStr.rstrip s = s.
Proof.
  simpl. destruct (PyStr.rstrip s) as [|d r] eqn:Hr.
  - destruct (PyStr.isspace c); [done|]. by intros [= <-].
  - by intros [= <-].
Qed.

Lemma rstrip_lstrip (s : string) :
  PyStr.rstrip s = s -> PyStr.rstrip (PyStr.lstrip s) = PyStr.lstrip s.
Proof.
  induction s as [|c s IH]; [done|]. intros Hs. simpl.
  destruct (PyStr.isspace c); [|done]. apply IH. by eapply rstrip_tail.
Qed.

Lemma lstrip_idemp (s : string) : PyStr.lstrip (PyStr.lstrip s) = PyStr.lstrip s.
Proof.
  induction s as [|c s IH]; [done|]. simpl.
  destruct (PyStr.isspace c) eqn:Hc; [done|]. simpl. by rewrite Hc.
Qed.

Lemma strip_idemp (s : string) : PyStr.strip (PyStr.strip s) = PyStr.strip s.
Proof.
  unfold PyStr.strip.
  rewrite (rstrip_lstrip (PyStr.rstrip s)) by apply rstrip_idemp.
  apply lstrip_idemp.
Qed.

Lemma elem_of_set k v k0 v0 (d : PyDict.t) :
  (k, v) ∈ PyDict.set k0 v0 d -> (k, v) = (k0, v0) \/ (k, v) ∈ d.
Proof.
  induction d as [|[k' v'] d IH]; simpl.
  - intros Hin. apply list_elem_of_singleton in Hin. by left.
  - destruct (decide (k' = k0)) as [->|Hne]; intros Hin;
      apply elem_of_cons in Hin as [Hin|Hin].
    + by left.
    + right. by apply list_elem_of_further.
    + right. rewrite Hin. apply list_elem_of_here.
    + destruct (IH Hin) as [?|?]; [by left|right; by apply list_elem_of_further].
Qed.

Lemma elem_of_foldl_set k v (items : list (string * string)) (acc : PyDict.t) :
  (k, v) ∈ foldl (fun d kv => PyDict.set kv.1 kv.2 d) acc items ->
  (k, v) ∈ acc \/ (k, v) ∈ items.
Proof.
  revert acc. induction items as [|[k0 v0] items IH]; intros acc; simpl; [by left|].
  intros Hin. apply IH in Hin as [Hin|Hin].
  - apply elem_of_set in Hin as [->|Hin]; [right; apply list_elem_of_here|by left].
  - right. by apply list_elem_of_further.
Qed.

Lemma elem_of_of_items k v (items : list (string * string)) :
  (k, v) ∈ PyDict.of_items items -> (k, v) ∈ items.
Proof.
  intros Hin. apply elem_of_foldl_set in Hin as [Hin|Hin]; [|done].
  by apply elem_of_nil in Hin.
Qed.

(** X16.  Every key and every value of the dictionary of a template is
    trimmed: [strip] leaves it as it is.  Each pair is the trimmed name and
    the trimmed value of one parameter of the template. *)
Theorem template_to_dict_trimmed (template : Mw.Template) (k v : string) :
  (k, v) ∈ Tools.template_to_dict template ->
  PyStr.strip k = k /\ PyStr.strip v = v
  /\ exists p, p ∈ Mw.params template
               /\ k = PyStr.strip (Mw.str (Mw.pname p))
               /\ v = PyStr.strip (Mw.str (Mw.pvalue p)).
Proof.
  unfold Tools.template_to_dict. intros Hin. apply elem_of_of_items in Hin.
  apply list_elem_of_fmap in Hin as (p & [= -> ->] & Hp).
  split; [apply strip_idemp|]. split; [apply strip_idemp|]. by exists p.
Qed.

(** ** The paragraph [other_content_extract] returns *)

Lemma plus_loop_lazy_dot {R} (fl : Re.flags) (c : ascii) (s : string)
    (k : string -> option R) :
  Re.DOTALL fl = true ->
  Re.plus_loop fl false Re.Dot (String c s) k
  = match k s with
    | Some x => Some x
    | None => Re.plus_loop fl false Re.Dot s k
    end.
Proof. intros Hfl. simpl. by rewrite Hfl. Qed.

Lemma first_paragraph_cons (c : ascii) (s : string) :
  first_paragraph (String c s)
  = match eat blank_line s with
    | Some post => Some (String c EmptyString, post)
    | None =>
        match first_paragraph s with
        | Some (content, post) => Some (String c content, post)
        | None => None
        end
    end.
Proof. reflexivity. Qed.

Lemma plus_loop_first_paragraph (fl : Re.flags) (s pre0 : string) :
  Re.DOTALL fl = true ->
  Re.plus_loop fl false Re.Dot s (after_label (pre0 +:+ s))
  = match first_paragraph s with
    | Some (content, post) => Some (post, Some (pre0 +:+ content))
    | None => None
    end.
Proof.
  intros Hfl. revert pre0. induction s as [|c s IH]; intros pre0; [done|].
  rewrite plus_loop_lazy_dot, first_paragraph_cons by done.
  assert (Hsplit : pre0 +:+ String c s = (pre0 +:+ String c "") +:+ s).
  { by rewrite str_app_assoc. }
  unfold after_label at 1.
  destruct (eat blank_line s) as [post|] eqn:Hb.
  - rewrite Hsplit, consumed_app. done.
  - rewrite Hsplit, IH. destruct (first_paragraph s) as [[content post]|]; [|done].
    by rewrite str_app_assoc.
Qed.

Lemma match_label_paragraph (fl : Re.flags) (name tail : string) :
  Re.IGNORECASE fl = false -> Re.DOTALL fl = true ->
  Re.match_here fl (label_regex name) tail None (fun s' cap => Some (s', cap))
  = match paragraph_at name tail with
    | Some (content, post) => Some (post, Some content)
    | None => None
    end.
Proof.
  intros Hi Hd. rewrite match_label by done. unfold paragraph_at.
  destruct (eat (label_prefix name) tail) as [s|]; [|done]. simpl.
  exact (plus_loop_first_paragraph fl s "" Hd).
Qed.

Lemma search_at_unfold (fl : Re.flags) (r : Re.regex) (pos : nat) (s : string) :
  Re.search_at fl r pos s
  = match Re.match_here fl r s None (fun s' cap => Some (s', cap)) with
    | Some (rest, cap) =>
        Some {| Re.m_start := pos; Re.group0 := PyStr.consumed s rest; Re.group1 := cap |}
    | None =>
        match s with
        | EmptyString => None
        | String _ s' => Re.search_at fl r (S pos) s'
        end
    end.
Proof. by destruct s. Qed.

Lemma search_label_content (fl : Re.flags) (name text : string) (pos : nat) :
  Re.IGNORECASE fl = false -> Re.DOTALL fl = true ->
  match Re.search_at fl (label_regex name) pos text with
  | Some m => Re.group1 m = labelled_content name text /\ is_Some (Re.group1 m)
  | None => labelled_content name text = None
  end.
Proof.
  intros Hi Hd. revert pos. induction text as [|c text IH]; intros pos.
  - rewrite search_at_unfold, match_label_paragraph by done.
    change (labelled_content name "")
      with (match paragraph_at name "" with
            | Some (content, _) => Some content
            | None => None
            end).
    destruct (paragraph_at name "") as [[content post]|]; simpl; [|done].
    split; [done|by eexists].
  - rewrite search_at_unfold, match_label_paragraph by done.
    change (labelled_content name (String c text))
      with (match paragraph_at name (String c text) with
            | Some (content, _) => Some content
            | None => labelled_content name text
            end).
    destruct (paragraph_at name (String c text)) as [[content post]|]; simpl.
    + split; [done|by eexists].
    + apply IH.
Qed.

Lemma first_paragraph_shortest (s content post : string) :
  first_paragraph s = Some (content, post) -> shortest_content s content post.
Proof.
  revert content post. induction s as [|c s IH]; intros content post; [done|].
  rewrite first_paragraph_cons. destruct (eat blank_line s) as [post0|] eqn:Hb.
  - intros [= <- <-]. apply eat_Some in Hb as ->. split; [done|]. split; [done|].
    intros a b Hab Ha Hb. destruct a as [|x a]; [done|].
    rewrite str_app_cons in Hab. injection Hab as _ Hab.
    destruct a; [|discriminate Hab]. rewrite str_app_nil_l in Hab. by subst b.
  - destruct (first_paragraph s) as [[content0 post0]|] eqn:Hf; [|done].
    intros [= <- <-]. destruct (IH _ _ eq_refl) as (Hs & Hne & Hmin).
    split; [by rewrite str_app_cons, <- Hs|]. split; [done|].
    intros a b Hab Ha Hbne. destruct a as [|x a]; [done|].
    rewrite str_app_cons in Hab. injection Hab as _ Hab.
    destruct a as [|y a].
    + rewrite str_app_nil_l in Hab. subst b. by rewrite <- Hs.
    + by apply (Hmin (String y a) b).
Qed.

Lemma first_paragraph_None (s : string) :
  first_paragraph s = None ->
  forall content post, s = content +:+ blank_line +:+ post -> content = "".
Proof.
  induction s as [|c s IH]; intros Hf content post Hs.
  - destruct content; [done|discriminate Hs].
  - rewrite first_paragraph_cons in Hf.
    destruct (eat blank_line s) as [post0|] eqn:Hb; [done|].
    destruct (first_paragraph s) as [[content0 post0]|] eqn:Hfs; [done|].
    destruct content as [|x content]; [done|]. exfalso.
    rewrite str_app_cons in Hs. injection Hs as _ Hs.
    destruct content as [|y content].
    + rewrite str_app_nil_l in Hs. subst s.
      by rewrite (proj2 (eat_Some blank_line _ post)) in Hb.
    + by specialize (IH eq_refl _ _ Hs).
Qed.

Lemma paragraph_at_None (name tail : string) :
  paragraph_at name tail = None ->
  forall content post,
    tail = label_prefix name +:+ content +:+ blank_line +:+ post -> content = "".
Proof.
  unfold paragraph_at. intros Hp content post Ht.
  rewrite (proj2 (eat_Some _ _ (content +:+ blank_line +:+ post))) in Hp by done.
  simpl in Hp. by eapply first_paragraph_None.
Qed.

Lemma labelled_content_leftmost (name text content : string) :
  labelled_content name text = Some content -> leftmost_paragraph name text content.
Proof.
  revert content. induction text as [|c text IH]; intros content.
  - by simpl.
  - change (labelled_content name (String c text))
      with (match paragraph_at name (String c text) with
            | Some (content, _) => Some content
            | None => labelled_content name text
            end).
    destruct (paragraph_at name (String c text)) as [[content0 post]|] eqn:Hp.
    + intros [= <-]. unfold paragraph_at in Hp.
      destruct (eat (label_prefix name) (String c text)) as [s|] eqn:He; [|done].
      simpl in Hp. apply eat_Some in He. apply first_paragraph_shortest in Hp.
      destruct Hp as (Hs & Hne & Hmin). exists "", post. rewrite str_app_nil_l.
      split; [by rewrite He, Hs|]. split; [by rewrite <- Hs in *|].
      intros pre' tail' _ Hlen. simpl in Hlen. lia.
    + intros Hl. destruct (IH _ Hl) as (pre & post & Ht & Hshort & Hleft).
      exists (String c pre), post. split; [by rewrite str_app_cons, <- Ht|].
      split; [done|]. intros pre' tail' Hsplit Hlen content' post' Htail.
      destruct pre' as [|x pre'].
      * rewrite str_app_nil_l in Hsplit. subst tail'.
        by apply (paragraph_at_None name _ Hp content' post').
      * rewrite str_app_cons in Hsplit. injection Hsplit as _ Hsplit.
        assert (Hlt : String.length pre' < String.length pre) by (simpl in Hlen; lia).
        exact (Hleft pre' tail' Hsplit Hlt content' post' Htail).
Qed.

(** X20.  What [other_content_extract] returns for a name without pattern
    characters.  The content is the one of the leftmost paragraph labelled
    [{{name}}] in the text of the section: the text after the line of the
    label, at least one character, up to the first blank line that follows.
    With [strip_code] the result is [strip_code] of the parse of that
    content, with the keyword arguments given; without it the content
    itself; and [None] when there is no such paragraph. *)
Theorem other_content_extract_content (wf : WordForm.t) (name : string)
    (strip_code : bool) (strip_kw : option (list (string * string))) :
  plain name ->
  let text := Mw.str (WordForm.wordform wf) in
  WordForm.other_content_extract wf name strip_code strip_kw
  = Some (match labelled_content name text with
          | Some content =>
              Some (if strip_code
                    then Mw.strip_code (Mw.parse content) (default [] strip_kw)
                    else content)
          | None => None
          end)
  /\ (forall content,
        labelled_content name text = Some content ->
        leftmost_paragraph name text content).
Proof.
  intros Hp text. split; [|intros content; apply labelled_content_leftmost].
  unfold WordForm.other_content_extract, Re.search.
  rewrite compile_label by done. simpl. fold text.
  pose proof (search_label_content Re.F_DOTALL name text 0 eq_refl eq_refl) as Hs.
  unfold Re.search_re.
  destruct (Re.search_at Re.F_DOTALL (label_regex name) 0 text) as [m|].
  - destruct Hs as [Hg [content Hc]]. rewrite <- Hg, Hc.
    destruct strip_code; [|done]. by destruct strip_kw.
  - by rewrite Hs.
Qed.

End Extras.

(** ** [Settings] *)

Section SettingsFacts.
Import SettingsNotions SettingsRun.

(** X18.  [Settings.set] followed by [Settings.get].  [set] does not
    raise, and [get] of the same key then returns the value stored, prints
    nothing and changes nothing; this also holds for the value [None], so
    setting a key to [None] does not delete it: [get] with a default returns
    [None], not the default.  The other keys answer as before. *)
Theorem settings_set_then_get (s : Settings.t) (key : string) (value default : option string) :
  let s1 := state_of (Settings.set key value s) in
  value_of (Settings.set key value s) = Ok tt
  /\ Settings.get key default s1 = (Ok value, s1, [])
  /\ (forall key' default',
        key' <> key ->
        value_of (Settings.get key' default' s1) = value_of (Settings.get key' default' s))
  /\ Settings._file s1 = Settings._file s.
Proof.
  intros s1. subst s1. rewrite run_settings_set. unfold value_of, state_of. simpl.
  split; [done|]. split.
  { rewrite run_settings_get. unfold stored, created. simpl. by rewrite lookup_insert_eq. }
  split; [|done]. intros key' default' Hne. rewrite !run_settings_get. simpl.
  unfold stored at 1. simpl. by rewrite lookup_insert_ne.
Qed.

(** X19.  [Settings.get] and the configuration file.  When the file
    exists, [get] returns the value stored under the key, or the default when
    the key is absent, prints nothing and leaves the file as it is.  When it
    does not exist, [get] creates it holding the empty object, prints one
    line naming it and returns the default; a second [get] then prints
    nothing. *)
Theorem settings_get_file (s : Settings.t) (key : string) (default : option string) :
  let r := Settings.get key default s in
  match Settings.config_json s with
  | Some config =>
      r = (Ok (match config !! key with Some value => value | None => default end), s, [])
  | None =>
      value_of r = Ok default
      /\ Settings.config_json (state_of r) = Some ∅
      /\ log_of r = [EvPrint ("Created new configuration file: " +:+ Settings._file s)]
      /\ Settings.get key default (state_of r) = (Ok default, state_of r, [])
  end.
Proof.
  intros r. subst r. rewrite run_settings_get. unfold stored, created.
  destruct s as [f [c|]]; simpl; [done|].
  unfold value_of, state_of, log_of. simpl. repeat split.
Qed.

End SettingsFacts.

(** ** Runs on concrete pages and worlds *)

Section ExtrasConcrete.
Import Mw Examples EntryBaseFacts ConstructorFacts ArchiveFacts EntryFacts
  EntryFlexionFacts WordFormFacts StatusFacts PyDictFacts CompanionFacts MwFacts
  ReFacts.
Import LoadFacts BuildNotions SectionNotions SoundNotions PrintNotions ExtractNotions.

(** X4 at the class [Entry] and the archive on disk. *)
Lemma get_wikidict_loads_once_witness :
  class_WIKIDICT (set_WIKIDICT C_Entry archive0 world_disk) C_Entry = Some archive0
  /\ pickles (set_WIKIDICT C_Entry archive0 world_disk) = pickles world_disk
  /\ DICT_PATH (set_WIKIDICT C_Entry archive0 world_disk) = DICT_PATH world_disk
  /\ settings (set_WIKIDICT C_Entry archive0 world_disk) = settings world_disk
  /\ @nil event = []
  /\ forall (dict_path' : option string) (w2 : World),
       own_WIKIDICT w2 = own_WIKIDICT (set_WIKIDICT C_Entry archive0 world_disk) ->
       EntryBase.get_wikidict C_Entry dict_path' w2 = (Ok archive0, w2, []).
Proof.
  apply (get_wikidict_loads_once C_Entry None world_disk
           (set_WIKIDICT C_Entry archive0 world_disk) archive0 []).
  reflexivity.
Defined.

(** X5 in a first session: no folder is given and there is no
    configuration file yet. *)
Lemma get_wikidict_failure_witness :
  EntryBase.get_wikidict C_Entry None world_unset
  = (Raise ValueError, set_settings settings_empty world_unset,
     [EvPrint "Created new configuration file: de_wiktio/config.json"])
  /\ class_WIKIDICT (set_settings settings_empty world_unset) C_Entry = None
  /\ pickles (set_settings settings_empty world_unset) = pickles world_unset
  /\ DICT_PATH world_unset = None.
Proof.
  assert (Hrun : EntryBase.get_wikidict C_Entry None world_unset
                 = (Raise ValueError, set_settings settings_empty world_unset,
                    [EvPrint "Created new configuration file: de_wiktio/config.json"]))
    by reflexivity.
  split; [exact Hrun|].
  destruct (get_wikidict_failure C_Entry None world_unset _ _ _ Hrun)
    as (Hc & _ & Hp & _ & _ & Herr & _).
  split; [exact Hc|]. split; [exact Hp|].
  destruct Herr as [(_ & _ & Hd)|(Hd & _)]; [exact Hd|discriminate Hd].
Defined.

(** X6: after [_EntryBase.get_wikidict], [EntryFlexion] answers with the
    dictionary of namespace 0. *)
Lemma get_wikidict_inherited_witness :
  EntryBase.get_wikidict C_EntryFlexion None (set_WIKIDICT C_EntryBase archive0 world_disk)
  = (Ok archive0, set_WIKIDICT C_EntryBase archive0 world_disk, []).
Proof.
  apply (get_wikidict_inherited None world_disk
           (set_WIKIDICT C_EntryBase archive0 world_disk) archive0 []);
    reflexivity.
Defined.

(** X9 at the entry [Haus]. *)
Lemma wordforms_are_flat_sections_witness :
  exists forms : list WordForm.t,
    value_of (Entry.wordforms entry_haus) = Ok forms
    /\ map (fun wf => take 1 (WordForm.wordform wf)) forms
       = map (fun h => [h]) (filter (passes [3] (Some (Re.const "Wortart"))) haus_tree)
    /\ Forall2 (fun i wf => flat_section_at haus_tree i (WordForm.wordform wf)) [2] forms
    /\ Forall (fun wf =>
                 exists t body,
                   wf = WordForm.__init__ (NHeading t 3 :: body) (Some (Entry.ref entry_haus))
                   /\ no_heading body
                   /\ matcher (Some (Re.const "Wortart")) (str t) = true) forms
    /\ (forms = [] <-> Entry.status (state_of (Entry.wordforms entry_haus)) <> "OK").
Proof.
  apply (@wordforms_are_flat_sections pages_parser entry_haus haus_tree); reflexivity.
Defined.

(** X12 at the Flexion page [gehen], whose scan finds its template twice. *)
Lemma flexion_pos_after_tpls_witness :
  value_of (EntryFlexion.inflections flexion_gehen)
  = Ok [[("Teil 1", "geh")]; [("Teil 1", "geh")]]
  /\ EntryFlexion.pos (state_of (EntryFlexion.inflections flexion_gehen))
     = (Ok [], state_of (EntryFlexion.inflections flexion_gehen), [])
  /\ value_of (EntryFlexion.pos flexion_gehen) = Ok ["Verb"; "Verb"].
Proof.
  destruct (@flexion_pos_after_tpls gehen_parser flexion_gehen gehen_tree)
    as (Hv & _ & Hp & Hq & _);
    [reflexivity | reflexivity | reflexivity | reflexivity | vm_compute; lia |].
  split; [exact Hv|]. split; [exact Hp | exact Hq].
Defined.

(** X13 at the Flexion page [schnell], which has one template. *)
Lemma flexion_pos_ok_iff_witness :
  EntryFlexion.status (state_of (EntryFlexion.pos flexion_schnell)) = "OK"
  /\ value_of (EntryFlexion.pos flexion_schnell) = Ok ["Adjektiv"].
Proof.
  destruct (@flexion_pos_ok_iff pages_parser flexion_schnell schnell_tree)
    as [Hiff Hval]; [reflexivity..|].
  split.
  - apply Hiff.
    exists {| name := [T "Deutsch Adjektiv Flexion"];
              params := [keyword "Positiv" "schnell"] |}, "Adjektiv".
    split; reflexivity.
  - apply (Hval {| name := [T "Deutsch Adjektiv Flexion"];
                   params := [keyword "Positiv" "schnell"] |}); reflexivity.
Defined.

(** X14 at the word form whose [Wortart] template has no parameter. *)
Lemma wordform_pos_status_witness :
  value_of (WordForm.pos wordform_without_pos) = Ok []
  /\ WordForm.status (state_of (WordForm.pos wordform_without_pos))
     = "No POS found for  {{Wortart}} ".
Proof.
  destruct (wordform_pos_status wordform_without_pos heading_without_pos [])
    as (Hv & _ & _ & Hs & _); [reflexivity..|].
  split; [exact Hv|]. apply Hs. reflexivity.
Defined.

(** X15 at the verb of the entry [gehen], which came from the dump. *)
Lemma inflections_extended_resolves_twice_witness :
  lookups (log_of (@WordForm.inflections_extended gehen_parser (wordform_verb, world_loaded)))
  = [EvFromDump "108" "Flexion:gehen"; EvFromDump "108" "Flexion:gehen"].
Proof.
  pose proof (@inflections_extended_resolves_twice gehen_parser wordform_verb
                (state_of (WordForm.pos wordform_verb)) world_loaded ["Verb"]
                (log_of (WordForm.pos wordform_verb)) entry_gehen
                eq_refl eq_refl eq_refl (or_introl (list_elem_of_here _ _)) eq_refl)
    as Hw.
  exact (proj1 Hw).
Defined.

(** X16 at [{{T| a = 1 }}]. *)
Lemma template_to_dict_trimmed_witness :
  PyStr.strip "a" = "a" /\ PyStr.strip "1" = "1"
  /\ exists p, p ∈ params template_spaced
               /\ "a" = PyStr.strip (str (pname p))
               /\ "1" = PyStr.strip (str (pvalue p)).
Proof.
  apply (template_to_dict_trimmed template_spaced "a" "1").
  vm_compute. apply list_elem_of_here.
Defined.

(** X20 at the paragraph [{{Beispiele}}]. *)
Lemma other_content_extract_content_witness :
  @WordForm.other_content_extract gehen_parser wordform_with_examples "Beispiele" false None
  = Some (Some ":[1] Das Haus ist alt.")
  /\ leftmost_paragraph "Beispiele" (str (WordForm.wordform wordform_with_examples))
       ":[1] Das Haus ist alt.".
Proof.
  destruct (@other_content_extract_content gehen_parser wordform_with_examples
              "Beispiele" false None) as [Heq Hleft]; [reflexivity|].
  split; [exact Heq|]. apply Hleft. reflexivity.
Defined.

End ExtrasConcrete.
